(** * QuickApolloLeads: credit ledger, order workflow and affiliate commissions

    A shallow embedding of the storage layer ([DatabaseStorage]), of the
    request handlers that drive it ([registerRoutes], the registration
    endpoint), of the admin panel's monthly-bill grouping and selection
    ([getMonthlyBills], [handleMarkPaid]) and of the dashboard's order form
    ([handleOrderSubmit]), followed by the properties of the specification
    that were checked against them and by further properties of the code.

    The PostgreSQL tables are lists of rows in insertion order.  A value a
    handler receives from the outside world (a generated UUID, the current
    time, a request body) is an argument of the function that models it. *)

From Stdlib Require Import ZArith List String Ascii Bool Lia.
From Stdlib Require Import Floats Uint63 DecimalString.
From Stdlib Require DecimalZ.
From Stdlib Require Import Sorting.Sorted.
From stdpp Require Import gmap strings fin_maps sorting.
Import ListNotations.

Set Warnings "-inexact-float".
Local Open Scope string_scope.
Local Open Scope Z_scope.

(** ** JavaScript values used by the code *)

(** A [Date] as the code observes it: the instant, and the local-time year
    and month that [getFullYear] and [getMonth] return ([getMonth] counts
    from 0). *)
Record Date := mkDate {
  getTime : Z;
  getFullYear : Z;
  getMonth : Z
}.

(** [String(n)] for an integer [n]. *)
Definition Number_toString (n : Z) : string :=
  NilZero.string_of_int (Z.to_int n).

(** [s.padStart(targetLength, c)] for a one-character pad string. *)
Fixpoint repeat_char (c : ascii) (n : nat) : string :=
  match n with
  | O => EmptyString
  | S k => String c (repeat_char c k)
  end.

Definition padStart (s : string) (targetLength : nat) (c : ascii) : string :=
  repeat_char c (targetLength - String.length s) ++ s.

(** The month key both the webhook and the admin panel build:
    [`${d.getFullYear()}-${String(d.getMonth() + 1).padStart(2, '0')}`]. *)
Definition monthKey (d : Date) : string :=
  Number_toString (getFullYear d) ++ "-" ++
  padStart (Number_toString (getMonth d + 1)) 2 "0".

(** JavaScript truthiness of a possibly missing string: [undefined], [null]
    and the empty string are falsy. *)
Definition truthy (s : option string) : bool :=
  match s with
  | Some EmptyString | None => false
  | Some _ => true
  end.

(** A property of a JSON body that holds a string, if anything:
    [undefined] when the key is missing, [null], or the string. *)
Inductive Optional :=
| Undefined
| Null
| Str (s : string).

(** [!v] is false only for a non-empty string. *)
Definition present (v : Optional) : bool :=
  match v with
  | Str (String _ _) => true
  | _ => false
  end.

(** *** Numbers

    A JavaScript number is a binary64 float; [PrimFloat] computes with the
    same IEEE 754 operations, rounding to nearest, ties to even. *)

(** The number an integer literal or JSON integer denotes. *)
Definition Number_of_Z (z : Z) : float :=
  if z <? 0 then PrimFloat.opp (PrimFloat.of_uint63 (Uint63.of_Z (- z)))
  else PrimFloat.of_uint63 (Uint63.of_Z z).

(** [Math.round]: the nearest integer, a tie going towards +infinity.
    A finite float is [+-m * 2^e]; with [e < 0] the result is
    [floor (x + 1/2)], computed on integers. *)
Definition Math_round (x : float) : float :=
  match Prim2SF x with
  | S754_finite s m e =>
      if 0 <=? e then x
      else
        let d := 2 ^ (- e) in
        let n := (2 * (if s then Z.neg m else Z.pos m) + d) / (2 * d) in
        if (n =? 0) && s then (-0)%float else Number_of_Z n
  | _ => x
  end.

(** The hundredths a [decimal(10,2)] column stores when it is sent
    [x.toString()].  The handlers only send the float nearest to [k / 100]
    for an integer [k]; JavaScript prints it as the decimal numeral of
    [k / 100], which the column keeps as it is.  [k] is recovered as the
    hundredth nearest to the exact value [+-m * 2^e] of [x].  [None] stands
    for NaN and the infinities, which the column rejects. *)
Definition decimal_10_2 (x : float) : option Z :=
  match Prim2SF x with
  | S754_zero _ => Some 0
  | S754_finite s m e =>
      let n := if 0 <=? e then 100 * Z.pos m * 2 ^ e
               else (2 * 100 * Z.pos m + 2 ^ (- e)) / (2 * 2 ^ (- e)) in
      Some (if s then - n else n)
  | _ => None
  end.

(** [parseFloat] of the text of a [decimal(10,2)] value of [n] hundredths:
    the float nearest to [n / 100]. *)
Definition parseFloat_decimal (n : Z) : float :=
  (Number_of_Z n / 100)%float.

(** The integer an integer-valued number denotes, [None] for any other. *)
Definition Z_of_Number (x : float) : option Z :=
  match Prim2SF x with
  | S754_zero _ => Some 0
  | S754_finite s m e =>
      let sign n := if s then - n else n in
      if 0 <=? e then Some (sign (Z.pos m * 2 ^ e))
      else if Z.pos m mod 2 ^ (- e) =? 0 then Some (sign (Z.pos m / 2 ^ (- e)))
      else None
  | _ => None
  end.

(** [parseInt(s)] with no radix: leading white space, an optional sign, an
    optional [0x] prefix, then the longest run of digits; [None] is NaN.
    (An integer beyond 2^53 is not rounded to a float here; such a value is
    far outside the range of the [integer] columns it is used for.) *)
Definition is_white_space (c : ascii) : bool :=
  match c with
  | " " | "009" | "010" | "011" | "012" | "013" => true
  | _ => false
  end%char.

Fixpoint skip_white_space (s : string) : string :=
  match s with
  | String c s' => if is_white_space c then skip_white_space s' else s
  | EmptyString => s
  end.

Definition digit_value (c : ascii) : option Z :=
  let n := Z.of_N (N_of_ascii c) in
  if (48 <=? n) && (n <=? 57) then Some (n - 48)
  else if (97 <=? n) && (n <=? 122) then Some (n - 87)
  else if (65 <=? n) && (n <=? 90) then Some (n - 55)
  else None.

Fixpoint digits_prefix (radix : Z) (s : string) (acc : option Z) : option Z :=
  match s with
  | String c s' =>
      match digit_value c with
      | Some d =>
          if d <? radix
          then digits_prefix radix s'
                 (Some (match acc with Some a => a * radix + d | None => d end))
          else acc
      | None => acc
      end
  | EmptyString => acc
  end.

Definition parseInt (s : string) : option Z :=
  let s1 := skip_white_space s in
  let '(neg, s2) := match s1 with
                    | String "-" r => (true, r)
                    | String "+" r => (false, r)
                    | _ => (false, s1)
                    end%char in
  let '(radix, s3) := match s2 with
                      | String "0" (String "x" r)
                      | String "0" (String "X" r) => (16, r)
                      | _ => (10, s2)
                      end%char in
  match digits_prefix radix s3 None with
  | Some n => Some (if neg then - n else n)
  | None => None
  end.

(** ** The schema (src/shared/schema.ts)

    Nullable columns are [option]s.  [decimal(10,2)] columns are counted in
    hundredths.  Columns no modelled operation reads or writes (password,
    verification and reset tokens, Stripe customer ids) are left out. *)

Module User.
Record t := mk {
  id : string;
  email : string;
  firstName : string;
  lastName : option string;
  credits : option Z;
  affiliateCode : option string;
  paypalEmail : option string;
  referredBy : option string;
  updatedAt : option Date
}.
End User.

Module CreditPurchase.
Record t := mk {
  id : string;
  userId : string;
  amount : Z;
  credits : Z;
  stripePaymentIntentId : option string;
  status : option string
}.
End CreditPurchase.

Module Order.
Record t := mk {
  id : string;
  userId : string;
  apolloUrl : string;
  creditsUsed : Z;
  estimatedLeads : option Z;
  deliveryEmail : string;
  status : option string;
  csvUrl : option string;
  deliveryType : option string;
  notes : option string;
  assignedTo : option string;
  errorMessage : option string;
  createdAt : option Date;
  completedAt : option Date
}.
End Order.

Module AffiliateClick.
Record t := mk {
  id : string;
  affiliateCode : string;
  ipAddress : option string;
  userAgent : option string;
  referrerUrl : option string;
  createdAt : option Date
}.
End AffiliateClick.

Module AffiliateCommission.
Record t := mk {
  id : string;
  affiliateUserId : string;
  referredUserId : string;
  purchaseId : string;
  saleAmount : Z;
  commissionAmount : Z;
  commissionRate : option Z;
  status : option string;
  paymentMonth : option string;
  paidAt : option Date;
  createdAt : option Date
}.
End AffiliateCommission.

(** The database: one list of rows per table. *)
Record DB := mkDB {
  users : list User.t;
  creditPurchases : list CreditPurchase.t;
  orders : list Order.t;
  affiliateClicks : list AffiliateClick.t;
  affiliateCommissions : list AffiliateCommission.t
}.

Definition emptyDB : DB := mkDB [] [] [] [] [].

(** What a statement can fail with.  [TypeError] is the JavaScript exception
    for reading a property of [undefined]. *)
Inductive Exn :=
| UniqueViolation
| ForeignKeyViolation
| NumericValueOutOfRange
| InvalidTextRepresentation
| TypeError.

Inductive Result (A : Type) :=
| Returned (a : A)
| Thrown (e : Exn).
Arguments Returned {A} a.
Arguments Thrown {A} e.

(** PostgreSQL's [integer] is a signed 32-bit number; arithmetic that leaves
    the range raises an error instead of wrapping. *)
Definition int4_ok (n : Z) : bool := (- 2147483648 <=? n) && (n <=? 2147483647).

#[export] Instance Result_bind : MBind Result := fun A B k r =>
  match r with
  | Returned a => k a
  | Thrown e => Thrown e
  end.

#[export] Instance Result_ret : MRet Result := fun A a => Returned a.

(** A constraint check: go on when [b] holds, throw [e] otherwise. *)
Definition ensure (b : bool) (e : Exn) : Result unit :=
  if b then Returned tt else Thrown e.

Fixpoint mapM_rows {A B : Type} (f : A -> Result B) (l : list A)
  : Result (list B) :=
  match l with
  | [] => Returned []
  | a :: l' => b ← f a; bs ← mapM_rows f l'; Returned (b :: bs)
  end.

Definition eq_opt (o : option string) (s : string) : bool :=
  match o with
  | Some s' => String.eqb s' s
  | None => false
  end.

(** The value a nullable column holds after [.set({ col: v })] when it held
    [old]: the query builder drops the keys of a [set] object whose value is
    [undefined], so a field the caller left out keeps the stored value. *)
Definition set_column (v : Optional) (old : option string) : option string :=
  match v with
  | Undefined => old
  | Null => None
  | Str s => Some s
  end.

(** [ORDER BY]: the rows sorted so that a row stands before the rows that
    [before] lets it precede.  SQL leaves the order of rows that compare
    equal open; here they keep the order they were stored in. *)
Fixpoint insert_row {A : Type} (before : A -> A -> bool) (x : A) (l : list A)
  : list A :=
  match l with
  | [] => [x]
  | y :: l' => if before x y then x :: l else y :: insert_row before x l'
  end.

Definition orderBy {A : Type} (before : A -> A -> bool) (l : list A) : list A :=
  List.fold_right (insert_row before) [] l.

(** [DESC] on a nullable [timestamp] column: PostgreSQL puts the NULLs
    first, then later instants before earlier ones. *)
Definition desc_before (a b : option Date) : bool :=
  match a, b with
  | None, _ => true
  | Some _, None => false
  | Some x, Some y => getTime y <=? getTime x
  end.

Definition orderBy_desc {A : Type} (col : A -> option Date) (l : list A)
  : list A :=
  orderBy (fun a b => desc_before (col a) (col b)) l.

(** [DESC] on a nullable text column, the strings compared character by
    character (the month keys it is used on are digits and a hyphen). *)
Definition text_desc_before (a b : option string) : bool :=
  match a, b with
  | None, _ => true
  | Some _, None => false
  | Some x, Some y =>
      match String.compare x y with
      | Lt => false
      | _ => true
      end
  end.

(** [COUNT( * )] and [COALESCE(SUM(col), 0)] over the rows that satisfy [p].
    A sum of [decimal(10,2)] values is exact; it is counted in hundredths. *)
Definition count_rows {A : Type} (p : A -> bool) (l : list A) : Z :=
  Z.of_nat (List.length (List.filter p l)).

Definition sum_rows {A : Type} (p : A -> bool) (col : A -> Z) (l : list A) : Z :=
  List.fold_right (fun a s => col a + s) 0 (List.filter p l).

(** ** The storage layer ([DatabaseStorage], src/unnamed/part_004)

    A statement either returns the new database and its result or throws and
    leaves the database as it was. *)

Module Storage.

Definition getUser (db : DB) (id : string) : option User.t :=
  List.find (fun u => String.eqb (User.id u) id) (users db).

Definition getUserByEmail (db : DB) (email : string) : option User.t :=
  List.find (fun u => String.eqb (User.email u) email) (users db).

Definition getUserByAffiliateCode (db : DB) (affiliateCode : string)
  : option User.t :=
  List.find (fun u => eq_opt (User.affiliateCode u) affiliateCode) (users db).

Definition getOrderById (db : DB) (id : string) : option Order.t :=
  List.find (fun o => String.eqb (Order.id o) id) (orders db).

Definition with_users (db : DB) (us : list User.t) : DB :=
  mkDB us (creditPurchases db) (orders db) (affiliateClicks db)
    (affiliateCommissions db).

(** [createUser]: the primary key and the two unique columns are checked
    by the database. *)
Definition createUser (db : DB) (userData : User.t) : Result (DB * User.t) :=
  ensure (negb (existsb (fun u => String.eqb (User.id u) (User.id userData))
                  (users db)))
    UniqueViolation;;
  ensure (negb (existsb
                  (fun u => String.eqb (User.email u) (User.email userData))
                  (users db)))
    UniqueViolation;;
  ensure (negb (match User.affiliateCode userData with
                | Some c => existsb (fun u => eq_opt (User.affiliateCode u) c)
                              (users db)
                | None => false
                end))
    UniqueViolation;;
  Returned (with_users db (users db ++ [userData]), userData).

(** One row of [UPDATE users SET credits = credits + delta, updated_at = now].
    A NULL balance stays NULL. *)
Definition adjust_credits (delta : Z) (now : Date) (u : User.t)
  : Result User.t :=
  let upd c := User.mk (User.id u) (User.email u) (User.firstName u)
                 (User.lastName u) c (User.affiliateCode u)
                 (User.paypalEmail u) (User.referredBy u) (Some now) in
  match User.credits u with
  | None => Returned (upd None)
  | Some c =>
      ensure (int4_ok (c + delta)) NumericValueOutOfRange;;
      Returned (upd (Some (c + delta)))
  end.

Definition update_credits (db : DB) (userId : string) (delta : Z) (now : Date)
  : Result (DB * option User.t) :=
  us ← mapM_rows (fun u => if String.eqb (User.id u) userId
                            then adjust_credits delta now u
                            else Returned u) (users db);
  Returned (with_users db us,
            List.find (fun u => String.eqb (User.id u) userId) us).

Definition addCredits (db : DB) (userId : string) (credits : Z) (now : Date)
  : Result (DB * option User.t) :=
  ensure (int4_ok credits) NumericValueOutOfRange;;
  update_credits db userId credits now.

Definition deductCredits (db : DB) (userId : string) (credits : Z) (now : Date)
  : Result (DB * option User.t) :=
  ensure (int4_ok credits) NumericValueOutOfRange;;
  update_credits db userId (- credits) now.

(** [createCreditPurchase]: the row's id is the one the caller passes, or
    the generated default. *)
Definition createCreditPurchase (db : DB) (purchase : CreditPurchase.t)
  : Result (DB * CreditPurchase.t) :=
  ensure (negb (existsb (fun p => String.eqb (CreditPurchase.id p)
                                    (CreditPurchase.id purchase))
                  (creditPurchases db)))
    UniqueViolation;;
  ensure (existsb (fun u => String.eqb (User.id u)
                              (CreditPurchase.userId purchase))
            (users db))
    ForeignKeyViolation;;
  ensure (int4_ok (CreditPurchase.credits purchase)) NumericValueOutOfRange;;
  Returned (mkDB (users db) (creditPurchases db ++ [purchase]) (orders db)
              (affiliateClicks db) (affiliateCommissions db), purchase).

(** [createOrder]: [order] carries the generated id and creation time; an
    absent status was given the column default by the caller of this
    model, see [Routes.order_row]. *)
Definition createOrder (db : DB) (order : Order.t) : Result (DB * Order.t) :=
  ensure (negb (existsb (fun o => String.eqb (Order.id o) (Order.id order))
                  (orders db)))
    UniqueViolation;;
  ensure (existsb (fun u => String.eqb (User.id u) (Order.userId order))
            (users db))
    ForeignKeyViolation;;
  ensure (int4_ok (Order.creditsUsed order)) NumericValueOutOfRange;;
  ensure (match Order.estimatedLeads order with
          | Some n => int4_ok n
          | None => true
          end)
    NumericValueOutOfRange;;
  Returned (mkDB (users db) (creditPurchases db) (orders db ++ [order])
              (affiliateClicks db) (affiliateCommissions db), order).

Record FulfillmentData := mkFulfillmentData {
  f_deliveryType : Optional;
  f_csvUrl : string;
  f_notes : Optional;
  f_status : string;
  f_completedAt : Date
}.

Definition fulfill_row (d : FulfillmentData) (o : Order.t) : Order.t :=
  Order.mk (Order.id o) (Order.userId o) (Order.apolloUrl o)
    (Order.creditsUsed o) (Order.estimatedLeads o) (Order.deliveryEmail o)
    (Some (f_status d))
    (Some (f_csvUrl d))
    (set_column (f_deliveryType d) (Order.deliveryType o))
    (set_column (f_notes d) (Order.notes o))
    (Order.assignedTo o) (Order.errorMessage o) (Order.createdAt o)
    (Some (f_completedAt d)).

Definition fulfillOrder (db : DB) (id : string)
  (fulfillmentData : FulfillmentData) : DB * option Order.t :=
  let os := List.map (fun o => if String.eqb (Order.id o) id
                               then fulfill_row fulfillmentData o else o)
              (orders db) in
  (mkDB (users db) (creditPurchases db) os (affiliateClicks db)
     (affiliateCommissions db),
   List.find (fun o => String.eqb (Order.id o) id) os).

(** [updateCreditPurchaseStatus]: no row is changed when the id is unknown. *)
Definition updateCreditPurchaseStatus (db : DB) (id status : string)
  : DB * option CreditPurchase.t :=
  let ps := List.map
              (fun p => if String.eqb (CreditPurchase.id p) id
                        then CreditPurchase.mk (CreditPurchase.id p)
                               (CreditPurchase.userId p)
                               (CreditPurchase.amount p)
                               (CreditPurchase.credits p)
                               (CreditPurchase.stripePaymentIntentId p)
                               (Some status)
                        else p) (creditPurchases db) in
  (mkDB (users db) ps (orders db) (affiliateClicks db)
     (affiliateCommissions db),
   List.find (fun p => String.eqb (CreditPurchase.id p) id) ps).

Definition updatePaypalEmail (db : DB) (userId paypalEmail : string)
  (now : Date) : DB * option User.t :=
  let us := List.map
              (fun u => if String.eqb (User.id u) userId
                        then User.mk (User.id u) (User.email u)
                               (User.firstName u) (User.lastName u)
                               (User.credits u) (User.affiliateCode u)
                               (Some paypalEmail) (User.referredBy u)
                               (Some now)
                        else u) (users db) in
  (with_users db us, List.find (fun u => String.eqb (User.id u) userId) us).

Definition set_affiliateCode (affiliateCode : string) (now : Date) (u : User.t)
  : User.t :=
  User.mk (User.id u) (User.email u) (User.firstName u) (User.lastName u)
    (User.credits u) (Some affiliateCode) (User.paypalEmail u)
    (User.referredBy u) (Some now).

(** [generateAffiliateCode]; [affiliateCode] is the random code it drew.
    The column is unique, and clicks that reference the code a user gives
    up keep it from changing. *)
Definition generateAffiliateCode (db : DB) (userId : string)
  (affiliateCode : string) (now : Date) : Result (DB * option User.t) :=
  let holds_code u := eq_opt (User.affiliateCode u) affiliateCode in
  let is_user u := String.eqb (User.id u) userId in
  let clicked u :=
    existsb (fun c => eq_opt (User.affiliateCode u)
                        (AffiliateClick.affiliateCode c))
      (affiliateClicks db) in
  ensure (negb (existsb (fun u => negb (is_user u) && holds_code u) (users db))
          || negb (existsb is_user (users db)))
    UniqueViolation;;
  ensure (negb (existsb (fun u => is_user u && negb (holds_code u) && clicked u)
                  (users db)))
    ForeignKeyViolation;;
  let us := List.map (fun u => if String.eqb (User.id u) userId
                               then set_affiliateCode affiliateCode now u
                               else u) (users db) in
  Returned (with_users db us,
            List.find (fun u => String.eqb (User.id u) userId) us).

(** [trackAffiliateClick]: [affiliate_code] references
    [users.affiliate_code], so the insert needs a user who holds the code. *)
Definition trackAffiliateClick (db : DB) (affiliateCode : string)
  (ipAddress userAgent referrerUrl : option string)
  (newId : string) (now : Date) : Result (DB * AffiliateClick.t) :=
  let click := AffiliateClick.mk newId affiliateCode ipAddress userAgent
                 referrerUrl (Some now) in
  ensure (negb (existsb (fun c => String.eqb (AffiliateClick.id c) newId)
                  (affiliateClicks db)))
    UniqueViolation;;
  ensure (existsb (fun u => eq_opt (User.affiliateCode u) affiliateCode)
            (users db))
    ForeignKeyViolation;;
  Returned (mkDB (users db) (creditPurchases db) (orders db)
              (affiliateClicks db ++ [click]) (affiliateCommissions db),
            click).

Definition createAffiliateCommission (db : DB)
  (commission : AffiliateCommission.t) : Result (DB * AffiliateCommission.t) :=
  ensure (negb (existsb (fun c => String.eqb (AffiliateCommission.id c)
                                    (AffiliateCommission.id commission))
                  (affiliateCommissions db)))
    UniqueViolation;;
  ensure (existsb (fun u => String.eqb (User.id u)
                              (AffiliateCommission.affiliateUserId commission))
            (users db))
    ForeignKeyViolation;;
  ensure (existsb (fun u => String.eqb (User.id u)
                              (AffiliateCommission.referredUserId commission))
            (users db))
    ForeignKeyViolation;;
  ensure (existsb (fun p => String.eqb (CreditPurchase.id p)
                              (AffiliateCommission.purchaseId commission))
            (creditPurchases db))
    ForeignKeyViolation;;
  Returned (mkDB (users db) (creditPurchases db) (orders db)
              (affiliateClicks db) (affiliateCommissions db ++ [commission]),
            commission).

Definition mark_paid (paymentMonth : string) (now : Date)
  (c : AffiliateCommission.t) : AffiliateCommission.t :=
  AffiliateCommission.mk (AffiliateCommission.id c)
    (AffiliateCommission.affiliateUserId c)
    (AffiliateCommission.referredUserId c)
    (AffiliateCommission.purchaseId c)
    (AffiliateCommission.saleAmount c)
    (AffiliateCommission.commissionAmount c)
    (AffiliateCommission.commissionRate c)
    (Some "paid") (Some paymentMonth) (Some now)
    (AffiliateCommission.createdAt c).

Definition inArray (id : string) (ids : list string) : bool :=
  existsb (String.eqb id) ids.

(** [markCommissionsPaid]: one [UPDATE ... WHERE id IN (commissionIds)].
    It returns nothing; the value is the database after the statement. *)
Definition markCommissionsPaid (db : DB) (commissionIds : list string)
  (paymentMonth : string) (now : Date) : DB :=
  mkDB (users db) (creditPurchases db) (orders db) (affiliateClicks db)
    (List.map (fun c => if inArray (AffiliateCommission.id c) commissionIds
                        then mark_paid paymentMonth now c else c)
       (affiliateCommissions db)).

(** [updateOrderStatus]: the [set] object always holds [status]; [csvUrl]
    and [errorMessage] only when the argument is truthy, [completedAt] only
    for the status ['completed']. *)
Definition update_status_row (status : string)
  (csvUrl errorMessage : option string) (now : Date) (o : Order.t) : Order.t :=
  Order.mk (Order.id o) (Order.userId o) (Order.apolloUrl o)
    (Order.creditsUsed o) (Order.estimatedLeads o) (Order.deliveryEmail o)
    (Some status)
    (if truthy csvUrl then csvUrl else Order.csvUrl o)
    (Order.deliveryType o) (Order.notes o) (Order.assignedTo o)
    (if truthy errorMessage then errorMessage else Order.errorMessage o)
    (Order.createdAt o)
    (if String.eqb status "completed" then Some now else Order.completedAt o).

Definition updateOrderStatus (db : DB) (id status : string)
  (csvUrl errorMessage : option string) (now : Date) : DB * option Order.t :=
  let os := List.map (fun o => if String.eqb (Order.id o) id
                               then update_status_row status csvUrl
                                      errorMessage now o
                               else o) (orders db) in
  (mkDB (users db) (creditPurchases db) os (affiliateClicks db)
     (affiliateCommissions db),
   List.find (fun o => String.eqb (Order.id o) id) os).

Definition getUserOrders (db : DB) (userId : string) : list Order.t :=
  orderBy_desc Order.createdAt
    (List.filter (fun o => String.eqb (Order.userId o) userId) (orders db)).


(** A row of [getAllPendingCommissions]: the commission's columns with the
    joined affiliate and the referred user. *)
Record PendingCommissionRow := mkPendingCommissionRow {
  pc_commission : AffiliateCommission.t;
  pc_affiliate : User.t;
  pc_referred : User.t
}.

(** [FROM affiliate_commissions LEFT JOIN users ON affiliate_user_id =
    users.id] for one commission: a row per matching user, or one row with
    no user. *)
Definition leftJoin_users (db : DB) (c : AffiliateCommission.t)
  : list (AffiliateCommission.t * option User.t) :=
  match List.filter
          (fun u => String.eqb (AffiliateCommission.affiliateUserId c)
                      (User.id u)) (users db) with
  | [] => [(c, None)]
  | us => List.map (fun u => (c, Some u)) us
  end.

(** [getAllPendingCommissions]: the joined pending rows, newest first, then
    the loop that keeps a row when its referred user and its affiliate are
    both found. *)
Definition getAllPendingCommissions (db : DB) : list PendingCommissionRow :=
  let pendingCommissions :=
    orderBy_desc (fun item => AffiliateCommission.createdAt (fst item))
      (List.filter
         (fun item => eq_opt (AffiliateCommission.status (fst item)) "pending")
         (List.flat_map (leftJoin_users db) (affiliateCommissions db))) in
  List.flat_map
    (fun item =>
       if truthy (Some (AffiliateCommission.referredUserId (fst item)))
       then
         match getUser db (AffiliateCommission.referredUserId (fst item)),
               snd item with
         | Some referredUser, Some affiliate =>
             [mkPendingCommissionRow (fst item) affiliate referredUser]
         | _, _ => []
         end
       else [])
    pendingCommissions.

(** [getUserAffiliateStats].  The counts are integers; the sums arrive as
    decimal text and go through [Number]. *)
Record MonthlyCommission := mkMonthlyCommission {
  mc_month : string;
  mc_amount : float;
  mc_status : string
}.

Record AffiliateStats := mkAffiliateStats {
  st_totalClicks : Z;
  st_totalReferrals : Z;
  st_totalSales : float;
  st_totalCommissions : float;
  st_pendingCommissions : float;
  st_monthlyCommissions : list MonthlyCommission
}.

(** [GROUP BY payment_month, status] with [SUM(commission_amount)]: one row
    per pair of values, NULLs grouped together. *)
Definition same_group (k k' : option string * option string) : bool :=
  let same a b := match a, b with
                  | Some x, Some y => String.eqb x y
                  | None, None => true
                  | _, _ => false
                  end in
  same (fst k) (fst k') && same (snd k) (snd k').

Fixpoint add_to_group (k : option string * option string) (amount : Z)
  (groups : list (option string * option string * Z))
  : list (option string * option string * Z) :=
  match groups with
  | [] => [(k, amount)]
  | (k', sum) :: rest =>
      if same_group k k' then (k', sum + amount) :: rest
      else (k', sum) :: add_to_group k amount rest
  end.

Definition groupBy_month_status (cs : list AffiliateCommission.t)
  : list (option string * option string * Z) :=
  List.fold_left
    (fun groups c =>
       add_to_group (AffiliateCommission.paymentMonth c,
                     AffiliateCommission.status c)
         (AffiliateCommission.commissionAmount c) groups)
    cs [].

Definition getUserAffiliateStats (db : DB) (userId : string) : AffiliateStats :=
  match getUser db userId with
  | Some user =>
      if truthy (User.affiliateCode user)
      then
        let affiliateCode := default "" (User.affiliateCode user) in
        let own c := String.eqb (AffiliateCommission.affiliateUserId c) userId in
        let monthlyCommissions :=
          orderBy (fun m m' => text_desc_before (fst (fst m)) (fst (fst m')))
            (groupBy_month_status (List.filter own (affiliateCommissions db))) in
        mkAffiliateStats
          (count_rows (fun c => String.eqb (AffiliateClick.affiliateCode c)
                                  affiliateCode) (affiliateClicks db))
          (count_rows (fun u => eq_opt (User.referredBy u) userId) (users db))
          (parseFloat_decimal
             (sum_rows own AffiliateCommission.saleAmount
                (affiliateCommissions db)))
          (parseFloat_decimal
             (sum_rows own AffiliateCommission.commissionAmount
                (affiliateCommissions db)))
          (parseFloat_decimal
             (sum_rows own
                (fun c => if eq_opt (AffiliateCommission.status c) "pending"
                          then AffiliateCommission.commissionAmount c else 0)
                (affiliateCommissions db)))
          (List.map
             (fun m => mkMonthlyCommission
                         (if truthy (fst (fst m)) then default "" (fst (fst m))
                          else "")
                         (parseFloat_decimal (snd m))
                         (if truthy (snd (fst m)) then default "" (snd (fst m))
                          else "pending"))
             monthlyCommissions)
      else mkAffiliateStats 0 0 0 0 0 []
  | None => mkAffiliateStats 0 0 0 0 0 []
  end.

End Storage.

(** ** The request handlers (src/server/routes.ts)

    A handler maps the database and its request to the new database and the
    HTTP response.  Notification e-mails are sent inside their own
    [try]/[catch] and touch no table, so they do not appear. *)

Inductive Response (A : Type) :=
| json (body : A)
| status_json (code : Z) (message : string)
| redirect (location : string).
Arguments json {A} body.
Arguments status_json {A} code message.
Arguments redirect {A} location.

Definition Exn_message (e : Exn) : string :=
  match e with
  | UniqueViolation => "duplicate key value violates unique constraint"
  | ForeignKeyViolation => "violates foreign key constraint"
  | NumericValueOutOfRange => "integer out of range"
  | InvalidTextRepresentation => "invalid input syntax for type integer"
  | TypeError => "Cannot read properties of undefined"
  end.

Module Routes.

(** The credit packages: key, credits and price in dollars. *)
Definition CREDIT_PACKAGES : list (string * (Z * float)) :=
  [ ("5000", (5000, 10.00%float));
    ("10000", (10000, 19.00%float));
    ("50000", (50000, 90.00%float));
    ("100000", (100000, 170.00%float));
    ("500000", (500000, 750.00%float));
    ("1000000", (1000000, 1400.00%float)) ].

(** [unit_amount: Math.round(packageInfo.price * 100)], the cents Stripe is
    asked to charge for one package. *)
Definition unit_amount (packageInfo : Z * float) : float :=
  Math_round (snd packageInfo * 100)%float.

(** The value [insertOrderSchema.parse] returns: the order columns except
    [id], [createdAt] and [completedAt]. *)
Record InsertOrder := mkInsertOrder {
  userId : string;
  apolloUrl : string;
  creditsUsed : Z;
  estimatedLeads : option Z;
  deliveryEmail : string;
  status : Optional;
  csvUrl : option string;
  deliveryType : option string;
  notes : option string;
  assignedTo : option string;
  errorMessage : option string
}.

(** The row [INSERT INTO orders] builds from the parsed body: [id] and
    [created_at] take their generated defaults, an absent [status] its
    default ['pending'], [completed_at] is NULL.  The other nullable columns
    have no default, so a missing key and [null] both store NULL. *)
Definition order_row (orderData : InsertOrder) (newId : string) (now : Date)
  : Order.t :=
  Order.mk newId (userId orderData) (apolloUrl orderData)
    (creditsUsed orderData) (estimatedLeads orderData)
    (deliveryEmail orderData)
    (set_column (status orderData) (Some "pending"))
    (csvUrl orderData) (deliveryType orderData) (notes orderData)
    (assignedTo orderData) (errorMessage orderData) (Some now) None.

(** [user.credits || 0] *)
Definition credits_or_0 (u : User.t) : Z :=
  match User.credits u with
  | Some c => c
  | None => 0
  end.

(** [POST /api/orders], for the authenticated user named in [orderData]. *)
Definition post_orders (db : DB) (orderData : InsertOrder)
  (newId : string) (now : Date) : DB * Response Order.t :=
  match Storage.getUser db (userId orderData) with
  | None => (db, status_json 400 "Insufficient credits")
  | Some user =>
      if credits_or_0 user <? creditsUsed orderData
      then (db, status_json 400 "Insufficient credits")
      else
        match Storage.deductCredits db (userId orderData)
                (creditsUsed orderData) now with
        | Thrown e =>
            (db, status_json 500 ("Error creating order: " ++ Exn_message e))
        | Returned (db1, _) =>
            match Storage.createOrder db1 (order_row orderData newId now) with
            | Thrown e =>
                (db1, status_json 500
                        ("Error creating order: " ++ Exn_message e))
            | Returned (db2, order) => (db2, json order)
            end
        end
  end.

(** The body of [PUT /api/team/orders/:orderId/fulfill]. *)
Record FulfillBody := mkFulfillBody {
  b_deliveryType : Optional;
  b_csvUrl : Optional;
  b_notes : Optional
}.

Definition put_fulfill (db : DB) (orderId : string) (body : FulfillBody)
  (now : Date) : DB * Response Order.t :=
  match b_csvUrl body with
  | Undefined | Null | Str EmptyString =>
      (db, status_json 400 "CSV URL is required")
  | Str csvUrl =>
      let (db1, updatedOrder) :=
        Storage.fulfillOrder db orderId
          (Storage.mkFulfillmentData (b_deliveryType body) csvUrl
             (b_notes body) "completed" now) in
      match updatedOrder with
      | None =>
          (* [updatedOrder.userId] on [undefined] *)
          (db1, status_json 500
                  ("Error fulfilling order: " ++ Exn_message TypeError))
      | Some o => (db1, json o)
      end
  end.

(** *** The Stripe webhook, [checkout.session.completed] branch *)

Record Metadata := mkMetadata {
  m_userId : option string;
  m_credits : option string
}.

Record Session := mkSession {
  s_id : string;
  s_metadata : option Metadata;
  s_amount_total : option Z
}.

(** [(session.amount_total || 0) / 100] *)
Definition amountPaid (session : Session) : float :=
  (Number_of_Z (match s_amount_total session with Some n => n | None => 0 end)
   / 100)%float.

(** [Math.round(amountPaid * 0.15 * 100) / 100] *)
Definition commissionAmount (amountPaid : float) : float :=
  (Math_round (amountPaid * 0.15 * 100) / 100)%float.

Definition insert_decimal (x : float) : Result Z :=
  match decimal_10_2 x with
  | Some n => Returned n
  | None => Thrown InvalidTextRepresentation
  end.

Definition insert_integer (n : option Z) : Result Z :=
  match n with
  | Some n => Returned n
  | None => Thrown InvalidTextRepresentation
  end.

(** The commission row the branch inserts for [updatedUser]. *)
Definition commission_row (session : Session) (updatedUser : User.t)
  (affiliateUserId purchaseId newId : string) (currentDate : Date)
  : Result AffiliateCommission.t :=
  saleAmount ← insert_decimal (amountPaid session);
  commission ← insert_decimal (commissionAmount (amountPaid session));
  Returned (AffiliateCommission.mk newId affiliateUserId
              (User.id updatedUser) purchaseId saleAmount commission
              (Some 1500) (Some "pending") (Some (monthKey currentDate))
              None (Some currentDate)).

(** The branch once [addCredits] has returned [updatedUser]: the purchase
    record, whose insert may fail without stopping the handler, then the
    commission if the user was referred. *)
Definition record_purchase (db1 : DB) (session : Session)
  (userId credits : string) (updatedUser : option User.t)
  (newId : string) (now : Date) : DB :=
  let purchaseId := s_id session in
  let db2 :=
    match amount ← insert_decimal (amountPaid session);
          n ← insert_integer (parseInt credits);
          Storage.createCreditPurchase db1
            (CreditPurchase.mk (s_id session) userId amount n
               None (Some "completed")) with
    | Returned (db', _) => db'
    | Thrown _ => db1
    end in
  match updatedUser with
  | None => db2
  | Some updatedUser =>
      if truthy (User.referredBy updatedUser)
      then
        match row ← commission_row session updatedUser
                      (default "" (User.referredBy updatedUser))
                      purchaseId newId now;
              Storage.createAffiliateCommission db2 row with
        | Returned (db3, _) => db3
        | Thrown _ => db2
        end
      else db2
  end.

(** The handler answers [{ received: true }] on every path of this branch;
    the value is the database it leaves.  [newId] is the id generated for
    the commission row. *)
Definition checkout_session_completed (db : DB) (session : Session)
  (newId : string) (now : Date) : DB :=
  match s_metadata session with
  | None => db
  | Some metadata =>
      if negb (truthy (m_userId metadata)) || negb (truthy (m_credits metadata))
      then db
      else
        let userId := default "" (m_userId metadata) in
        let credits := default "" (m_credits metadata) in
        match Storage.getUser db userId with
        | None => db
        | Some existingUser =>
            match n ← insert_integer (parseInt credits);
                  Storage.addCredits db userId n now with
            | Thrown _ => db
            | Returned (db1, updatedUser) =>
                record_purchase db1 session userId credits updatedUser
                  newId now
            end
        end
  end.

(** The [payment_intent.succeeded] branch: the purchase whose id is the
    payment intent's is marked completed, then the credits are added; an
    exception on the way is logged and the handler answers as usual. *)
Record PaymentIntent := mkPaymentIntent {
  pi_id : string;
  pi_userId : option string;
  pi_credits : option string
}.

Definition payment_intent_succeeded (db : DB) (paymentIntent : PaymentIntent)
  (now : Date) : DB :=
  let db1 := fst (Storage.updateCreditPurchaseStatus db (pi_id paymentIntent)
                    "completed") in
  match pi_userId paymentIntent, pi_credits paymentIntent with
  | Some userId, Some credits =>
      match n ← insert_integer (parseInt credits);
            Storage.addCredits db1 userId n now with
      | Returned (db2, _) => db2
      | Thrown _ => db1
      end
  | _, _ => db1
  end.

(** *** Checkout *)

Fixpoint lookup_package (packageId : string)
  (packages : list (string * (Z * float))) : option (Z * float) :=
  match packages with
  | [] => None
  | (key, packageInfo) :: rest =>
      if String.eqb key packageId then Some packageInfo
      else lookup_package packageId rest
  end.

(** [POST /api/create-checkout-session] for the authenticated user
    [userId].  [stripe] tells whether Stripe is configured, [session_id] is
    the id of the session Stripe created, [None] if that call failed;
    [newId] is the id generated for the purchase row. *)
Definition post_create_checkout_session (db : DB) (stripe : bool)
  (userId packageId : string) (session_id : option string) (newId : string)
  : DB * Response string :=
  if negb stripe
  then (db, status_json 500
              "Payment processing not configured. Please contact support.")
  else
    match lookup_package packageId CREDIT_PACKAGES with
    | None => (db, status_json 400 "Invalid package")
    | Some packageInfo =>
        match Storage.getUser db userId with
        | None => (db, status_json 400 "User not found")
        | Some user =>
            match session_id with
            | None => (db, status_json 500 "Error creating checkout session: ")
            | Some session_id =>
                match amount ← insert_decimal (snd packageInfo);
                      Storage.createCreditPurchase db
                        (CreditPurchase.mk newId userId amount
                           (fst packageInfo) (Some session_id)
                           (Some "pending")) with
                | Returned (db1, _) => (db1, json session_id)
                | Thrown e =>
                    (db, status_json 500
                           ("Error creating checkout session: "
                            ++ Exn_message e))
                end
            end
        end
    end.

(** [POST /api/create-payment-intent], the older route: the same without
    the look-up of the user. *)
Definition post_create_payment_intent (db : DB) (stripe : bool)
  (userId packageId : string) (paymentIntent_id : option string)
  (newId : string) : DB * Response string :=
  if negb stripe
  then (db, status_json 500
              "Payment processing not configured. Please contact support.")
  else
    match lookup_package packageId CREDIT_PACKAGES with
    | None => (db, status_json 400 "Invalid package")
    | Some packageInfo =>
        match paymentIntent_id with
        | None => (db, status_json 500 "Error creating payment intent: ")
        | Some paymentIntent_id =>
            match amount ← insert_decimal (snd packageInfo);
                  Storage.createCreditPurchase db
                    (CreditPurchase.mk newId userId amount (fst packageInfo)
                       (Some paymentIntent_id) (Some "pending")) with
            | Returned (db1, _) => (db1, json paymentIntent_id)
            | Thrown e =>
                (db, status_json 500
                       ("Error creating payment intent: " ++ Exn_message e))
            end
        end
    end.

(** *** Credits granted by hand *)

(** [POST /api/add-credits] for the authenticated user [userId];
    [credits] is absent or a number. *)
Definition post_add_credits (db : DB) (userId : string) (credits : option Z)
  (now : Date) : DB * Response (option User.t) :=
  match credits with
  | None => (db, status_json 400 "Invalid credit amount")
  | Some credits =>
      if credits <=? 0 then (db, status_json 400 "Invalid credit amount")
      else
        match Storage.addCredits db userId credits now with
        | Returned (db1, updatedUser) => (db1, json updatedUser)
        | Thrown e =>
            (db, status_json 500 ("Error adding credits: " ++ Exn_message e))
        end
  end.

(** [POST /api/team/assign-credits]; [parseInt] of the number in the body
    is the number. *)
Definition post_assign_credits (db : DB) (email : option string)
  (credits : option Z) (now : Date) : DB * Response (option User.t) :=
  match credits with
  | Some credits =>
      if negb (truthy email) || (credits <=? 0)
      then (db, status_json 400 "Email and positive credit amount required")
      else
        match Storage.getUserByEmail db (default "" email) with
        | None => (db, status_json 404 "User not found with this email address")
        | Some user =>
            match Storage.addCredits db (User.id user) credits now with
            | Returned (db1, updatedUser) => (db1, json updatedUser)
            | Thrown e =>
                (db, status_json 500
                       ("Error assigning credits: " ++ Exn_message e))
            end
        end
  | None => (db, status_json 400 "Email and positive credit amount required")
  end.

(** *** Affiliate routes *)

(** [GET /ref/:affiliateCode].  The middle component is the value the
    handler stores in [req.session.affiliateCode], if it gets that far. *)
Definition get_ref (db : DB) (affiliateCode : string)
  (ipAddress userAgent referrerUrl : option string)
  (newId : string) (now : Date) : DB * option string * Response unit :=
  match Storage.trackAffiliateClick db affiliateCode ipAddress userAgent
          referrerUrl newId now with
  | Returned (db1, _) => (db1, Some affiliateCode, redirect "/")
  | Thrown _ => (db, None, redirect "/")
  end.

(** [POST /api/affiliate/generate-code] for the authenticated user;
    [affiliateCode] is the random code drawn by the storage layer. *)
Definition post_generate_code (db : DB) (userId : string)
  (affiliateCode : string) (now : Date) : DB * Response (option string) :=
  match Storage.generateAffiliateCode db userId affiliateCode now with
  | Returned (db1, Some user) => (db1, json (User.affiliateCode user))
  | Returned (db1, None) =>
      (db1, status_json 500
              ("Error generating affiliate code: " ++ Exn_message TypeError))
  | Thrown e =>
      (db, status_json 500
             ("Error generating affiliate code: " ++ Exn_message e))
  end.

(** [POST /api/affiliate/update-paypal] for the authenticated user. *)
Definition post_update_paypal (db : DB) (userId : string)
  (paypalEmail : option string) (now : Date) : DB * Response (option string) :=
  if truthy paypalEmail
  then
    match Storage.updatePaypalEmail db userId (default "" paypalEmail) now with
    | (db1, Some user) => (db1, json (User.paypalEmail user))
    | (db1, None) =>
        (db1, status_json 500
                ("Error updating PayPal email: " ++ Exn_message TypeError))
    end
  else (db, status_json 400 "PayPal email is required").

(** [POST /api/team/affiliate/mark-paid]; [affiliateAdminAuth] is the
    session flag, [commissionIds] is [None] when the body holds no array
    under that key. *)
Definition post_mark_paid (db : DB) (affiliateAdminAuth : bool)
  (commissionIds : option (list string)) (paymentMonth : option string)
  (now : Date) : DB * Response unit :=
  if negb affiliateAdminAuth
  then (db, status_json 401 "Affiliate admin authentication required")
  else
    match commissionIds, paymentMonth with
    | Some ids, Some paymentMonth =>
        if truthy (Some paymentMonth)
        then (Storage.markCommissionsPaid db ids paymentMonth now, json tt)
        else (db, status_json 400
                    "Commission IDs and payment month are required")
    | _, _ =>
        (db, status_json 400 "Commission IDs and payment month are required")
    end.

(** *** Reading orders and pending commissions *)


(** [GET /api/orders/:id] for the authenticated user [userId]. *)
Definition get_order (db : DB) (userId id : string) : Response Order.t :=
  match Storage.getOrderById db id with
  | None => status_json 404 "Order not found"
  | Some order =>
      if negb (String.eqb (Order.userId order) userId)
      then status_json 404 "Order not found"
      else json order
  end.

(** [GET /api/team/affiliate/pending-commissions] *)
Definition get_pending_commissions (db : DB) (affiliateAdminAuth : bool)
  : Response (list Storage.PendingCommissionRow) :=
  if negb affiliateAdminAuth
  then status_json 401 "Affiliate admin authentication required"
  else json (Storage.getAllPendingCommissions db).

(** The metadata [POST /api/create-checkout-session] attaches to the Stripe
    session, [{ userId, packageId, credits: packageInfo.credits.toString() }];
    of these the webhook reads [userId] and [credits]. *)
Definition checkout_metadata (userId : string) (packageInfo : Z * float)
  : Metadata :=
  mkMetadata (Some userId) (Some (Number_toString (fst packageInfo))).

End Routes.

(** ** Registration ([POST /api/register], src/unnamed/part_005) *)

Module Auth.

Record RegisterBody := mkRegisterBody {
  email : option string;
  password : option string;
  firstName : option string;
  lastName : option string
}.

(** The referral lookup: the code kept in the session, resolved to the id
    of the user who holds it. *)
Definition resolve_referral (db : DB) (session_affiliateCode : option string)
  : option string :=
  if truthy session_affiliateCode
  then
    match Storage.getUserByAffiliateCode db (default "" session_affiliateCode)
    with
    | Some affiliateUser => Some (User.id affiliateUser)
    | None => None
    end
  else None.

(** [`user_${Date.now()}_${Math.random().toString(36).substr(2, 9)}`] *)
Definition new_user_id (now : Date) (random : string) : string :=
  "user_" ++ Number_toString (getTime now) ++ "_" ++ random.

Definition post_register (db : DB) (body : RegisterBody)
  (session_affiliateCode : option string) (now : Date) (random : string)
  : DB * Response User.t :=
  if negb (truthy (email body)) || negb (truthy (password body))
     || negb (truthy (firstName body))
  then (db, status_json 400 "Email, password, and first name are required")
  else
    let email := default "" (email body) in
    match Storage.getUserByEmail db email with
    | Some _ => (db, status_json 400 "User already exists with this email")
    | None =>
        let referredBy := resolve_referral db session_affiliateCode in
        match Storage.createUser db
                (User.mk (new_user_id now random) email
                   (default "" (firstName body))
                   (Some (if truthy (lastName body)
                          then default "" (lastName body) else ""))
                   (Some 0) None None referredBy (Some now)) with
        | Returned (db1, user) => (db1, json user)
        | Thrown _ => (db, status_json 500 "Registration failed")
        end
    end.

End Auth.


(** ** The admin panel's monthly bills
    (src/client/src/components/ui/affiliate-admin.tsx) *)

Module AffiliateAdmin.

Record Affiliate := mkAffiliate {
  a_id : string;
  a_firstName : string;
  a_lastName : string;
  a_email : string;
  a_paypalEmail : option string
}.

(** A pending commission as the panel receives it.  The two amounts arrive
    as the text of a [decimal(10,2)] and are kept as hundredths; [createdAt]
    is the [Date] that [new Date(commission.createdAt)] builds.  The joined
    [referred] user, which the grouping does not read, is left out. *)
Record PendingCommission := mkPendingCommission {
  id : string;
  affiliateUserId : string;
  referredUserId : string;
  saleAmount : Z;
  commissionAmount : Z;
  paymentMonth : option string;
  status : string;
  createdAt : Date;
  affiliate : Affiliate
}.

(** The per-affiliate entry of a bill. *)
Record AffiliateBill := mkAffiliateBill {
  ab_affiliate : Affiliate;
  ab_totalCommissions : float;
  ab_totalSales : float;
  ab_transactionCount : Z;
  ab_commissionIds : list string
}.

Record MonthlyBill := mkMonthlyBill {
  month : string;
  monthName : string;
  totalCommissions : float;
  totalSales : float;
  transactionCount : Z;
  commissionIds : list string;
  affiliates : gmap string AffiliateBill
}.

(** [d.toLocaleDateString('en-US', { year: 'numeric', month: 'long' })] *)
Definition month_long (m : Z) : string :=
  nth (Z.to_nat m)
    ["January"; "February"; "March"; "April"; "May"; "June"; "July";
     "August"; "September"; "October"; "November"; "December"]
    "Invalid Date".

Definition toLocaleDateString_month_year (d : Date) : string :=
  month_long (getMonth d) ++ " " ++ Number_toString (getFullYear d).

(** The body of the [reduce] callback, in two layers: the entry of the
    commission's affiliate inside a bill, and the bill of its month.
    [entry] is what the object held under the key, [None] for a key that was
    not there. *)
Definition add_to_affiliate (commission : PendingCommission)
  (entry : option AffiliateBill) : AffiliateBill :=
  let e := match entry with
           | Some e => e
           | None => mkAffiliateBill (affiliate commission) 0 0 0 []
           end in
  mkAffiliateBill (ab_affiliate e)
    (ab_totalCommissions e + parseFloat_decimal (commissionAmount commission))
    (ab_totalSales e + parseFloat_decimal (saleAmount commission))
    (ab_transactionCount e + 1)
    (ab_commissionIds e ++ [id commission]).

Definition add_to_bill (commission : PendingCommission)
  (entry : option MonthlyBill) : MonthlyBill :=
  let commissionDate := createdAt commission in
  let b := match entry with
           | Some b => b
           | None => mkMonthlyBill (monthKey commissionDate)
                       (toLocaleDateString_month_year commissionDate)
                       0 0 0 [] ∅
           end in
  let affiliateId := a_id (affiliate commission) in
  mkMonthlyBill (month b) (monthName b)
    (totalCommissions b + parseFloat_decimal (commissionAmount commission))
    (totalSales b + parseFloat_decimal (saleAmount commission))
    (transactionCount b + 1)
    (commissionIds b ++ [id commission])
    (<[affiliateId :=
         add_to_affiliate commission (affiliates b !! affiliateId)]>
       (affiliates b)).

Definition group_step (acc : gmap string MonthlyBill)
  (commission : PendingCommission) : gmap string MonthlyBill :=
  let monthKey := monthKey (createdAt commission) in
  <[monthKey := add_to_bill commission (acc !! monthKey)]> acc.

Definition grouped (pendingCommissions : list PendingCommission)
  : gmap string MonthlyBill :=
  List.fold_left group_step pendingCommissions ∅.

(** [a.localeCompare(b)] on month keys: digits and a hyphen, compared
    character by character. *)
Definition localeCompare (a b : string) : comparison := String.compare a b.

(** [Array.prototype.sort(compareFn)], a stable sort: an element goes behind
    the elements it compares greater than. *)
Fixpoint insert_sorted {A : Type} (compareFn : A -> A -> comparison) (x : A)
  (l : list A) : list A :=
  match l with
  | [] => [x]
  | y :: l' =>
      match compareFn x y with
      | Gt => y :: insert_sorted compareFn x l'
      | _ => x :: y :: l'
      end
  end.

Definition Array_sort {A : Type} (compareFn : A -> A -> comparison)
  (l : list A) : list A :=
  List.fold_right (insert_sorted compareFn) [] l.

(** [Object.values(o)]: the values, in some order of the keys.  The only use
    sorts them by a key that is different for each, so that the order they
    are listed in has no influence on the result. *)
Definition Object_values {V : Type} (o : gmap string V) : list V :=
  (map_to_list o).*2.

(** [pendingCommissions] is [None] while the query has no data. *)
Definition getMonthlyBills
  (pendingCommissions : option (list PendingCommission)) : list MonthlyBill :=
  match pendingCommissions with
  | None => []
  | Some pendingCommissions =>
      Array_sort (fun a b => localeCompare (month b) (month a))
        (Object_values (grouped pendingCommissions))
  end.

(** *** Selecting commissions and sending them to be marked paid *)

(** [handleCommissionSelect] and [handleSelectAll]: the value they pass to
    [setSelectedCommissions]. *)
Definition handleCommissionSelect (selectedCommissions : list string)
  (commissionId : string) (checked : bool) : list string :=
  if checked then selectedCommissions ++ [commissionId]
  else List.filter (fun id => negb (String.eqb id commissionId))
         selectedCommissions.

Definition handleSelectAll
  (pendingCommissions : option (list PendingCommission)) (checked : bool)
  : list string :=
  match pendingCommissions with
  | Some pendingCommissions =>
      if checked then List.map id pendingCommissions else []
  | None => []
  end.

(** [l.includes(x)] *)
Definition includes (l : list string) (x : string) : bool :=
  existsb (String.eqb x) l.

Definition getTotalSelectedCommissions
  (pendingCommissions : option (list PendingCommission))
  (selectedCommissions : list string) : float :=
  match pendingCommissions with
  | None => 0
  | Some pendingCommissions =>
      List.fold_left
        (fun sum c => (sum + parseFloat_decimal (commissionAmount c))%float)
        (List.filter (fun c => includes selectedCommissions (id c))
           pendingCommissions)
        0%float
  end.

(** [handleMarkPaid]: the body it sends to
    [POST /api/team/affiliate/mark-paid], [None] when it only shows the
    "No Commissions Selected" toast.  The month of the bill it is called
    with is not used: the payment month is the current one. *)
Definition handleMarkPaid (selectedCommissions : list string)
  (monthToPayFor : string) (currentDate : Date)
  : option (list string * string) :=
  match selectedCommissions with
  | [] => None
  | _ => Some (selectedCommissions, monthKey currentDate)
  end.

End AffiliateAdmin.

(** ** The order form of the dashboard (src/client/src/pages/Dashboard.tsx) *)

Module Dashboard.





End Dashboard.

(** ** The application as a transition system

    One constructor per endpoint that writes a modelled column, carrying the
    request and the values the environment supplies while it is handled.
    The endpoints for e-mail verification and password reset write only
    columns that are left out; the read-only endpoints change nothing. *)

Inductive Request :=
| Register (body : Auth.RegisterBody) (session_affiliateCode : option string)
    (now : Date) (random : string)
| GenerateCode (userId affiliateCode : string) (now : Date)
| RefClick (affiliateCode : string)
    (ipAddress userAgent referrerUrl : option string) (newId : string)
    (now : Date)
| CreateCheckoutSession (stripe : bool) (userId packageId : string)
    (session_id : option string) (newId : string)
| CreatePaymentIntent (stripe : bool) (userId packageId : string)
    (paymentIntent_id : option string) (newId : string)
| PaymentIntentSucceeded (paymentIntent : Routes.PaymentIntent) (now : Date)
| CheckoutCompleted (session : Routes.Session) (newId : string) (now : Date)
| AddCredits (userId : string) (credits : option Z) (now : Date)
| AssignCredits (email : option string) (credits : option Z) (now : Date)
| UpdatePaypal (userId : string) (paypalEmail : option string) (now : Date)
| PostOrder (orderData : Routes.InsertOrder) (newId : string) (now : Date)
| Fulfill (orderId : string) (body : Routes.FulfillBody) (now : Date)
| MarkPaid (affiliateAdminAuth : bool) (commissionIds : option (list string))
    (paymentMonth : option string) (now : Date).

Definition handle (db : DB) (r : Request) : DB :=
  match r with
  | Register body code now random =>
      fst (Auth.post_register db body code now random)
  | GenerateCode userId code now =>
      fst (Routes.post_generate_code db userId code now)
  | RefClick code ip ua ref newId now =>
      fst (fst (Routes.get_ref db code ip ua ref newId now))
  | CreateCheckoutSession stripe userId packageId session_id newId =>
      fst (Routes.post_create_checkout_session db stripe userId packageId
             session_id newId)
  | CreatePaymentIntent stripe userId packageId paymentIntent_id newId =>
      fst (Routes.post_create_payment_intent db stripe userId packageId
             paymentIntent_id newId)
  | PaymentIntentSucceeded paymentIntent now =>
      Routes.payment_intent_succeeded db paymentIntent now
  | CheckoutCompleted session newId now =>
      Routes.checkout_session_completed db session newId now
  | AddCredits userId credits now =>
      fst (Routes.post_add_credits db userId credits now)
  | AssignCredits email credits now =>
      fst (Routes.post_assign_credits db email credits now)
  | UpdatePaypal userId paypalEmail now =>
      fst (Routes.post_update_paypal db userId paypalEmail now)
  | PostOrder orderData newId now =>
      fst (Routes.post_orders db orderData newId now)
  | Fulfill orderId body now =>
      fst (Routes.put_fulfill db orderId body now)
  | MarkPaid auth ids paymentMonth now =>
      fst (Routes.post_mark_paid db auth ids paymentMonth now)
  end.

(** The databases the application can be in: those a sequence of requests
    builds from the empty one. *)
Inductive reachable : DB -> Prop :=
| reachable_empty : reachable emptyDB
| reachable_step db r : reachable db -> reachable (handle db r).

(** ** Sample data for the scenarios of the specification *)

Definition june_2025 : Date := mkDate 1750000000000 2025 5.
Definition july_2025 : Date := mkDate 1752000000000 2025 6.

Definition alice : User.t :=
  User.mk "user_1_a" "alice@example.com" "Alice" (Some "") (Some 5000)
    None None None (Some june_2025).

Definition db_alice : DB := mkDB [alice] [] [] [] [].

Definition order_for (creditsUsed : Z) : Routes.InsertOrder :=
  Routes.mkInsertOrder "user_1_a" "https://app.apollo.io/#/people" creditsUsed
    None "alice@example.com" Undefined None None None None None.

(** Alice's order for 3,000 leads, already delivered once. *)
Definition delivered_order : Order.t :=
  Order.mk "order_1" "user_1_a" "https://app.apollo.io/#/people" 3000 None
    "alice@example.com" (Some "completed") (Some "https://files.example/a.csv")
    (Some "csv_file") (Some "first delivery") None None (Some june_2025)
    (Some june_2025).

Definition db_delivered : DB := mkDB [alice] [] [delivered_order] [] [].

Definition InsufficientCredits : Response Order.t :=
  status_json 400 "Insufficient credits".

(** Bob holds an affiliate code; Carol registered through it. *)
Definition bob : User.t :=
  User.mk "user_2_b" "bob@example.com" "Bob" (Some "") (Some 0)
    (Some "AB12CD") (Some "bob@paypal.example") None (Some june_2025).

Definition carol : User.t :=
  User.mk "user_3_c" "carol@example.com" "Carol" (Some "") (Some 0)
    None None (Some "user_2_b") (Some june_2025).

Definition db_affiliates : DB := mkDB [alice; bob; carol] [] [] [] [].

(** ** What holds in every reachable database *)

(** An update in place keeps a user's id and referrer and does not lose the
    balance. *)
Definition same_identity (u u' : User.t) : Prop :=
  User.id u' = User.id u /\
  User.referredBy u' = User.referredBy u /\
  (User.credits u <> None -> User.credits u' <> None).

(** Ids are a key, nobody is their own referrer, every balance is a number. *)
Definition users_ok (us : list User.t) : Prop :=
  NoDup (List.map User.id us) /\
  Forall (fun u => User.referredBy u <> Some (User.id u) /\
                   User.credits u <> None) us.

(** The commission's referred user is a user whose referrer is the
    commission's affiliate. *)
Definition commission_referral (us : list User.t) (c : AffiliateCommission.t)
  : Prop :=
  exists u, In u us /\
            User.id u = AffiliateCommission.referredUserId c /\
            User.referredBy u = Some (AffiliateCommission.affiliateUserId c).

(** A commission as the webhook creates it. *)
Definition created_pending (c : AffiliateCommission.t) : Prop :=
  AffiliateCommission.status c = Some "pending" /\
  AffiliateCommission.paidAt c = None /\
  exists d, AffiliateCommission.createdAt c = Some d /\
            AffiliateCommission.paymentMonth c = Some (monthKey d).

(** A commission after [markCommissionsPaid]. *)
Definition marked_paid (c : AffiliateCommission.t) : Prop :=
  AffiliateCommission.status c = Some "paid" /\
  (exists m, AffiliateCommission.paymentMonth c = Some m) /\
  (exists t, AffiliateCommission.paidAt c = Some t).

Record invariant (db : DB) : Prop := mkInvariant {
  inv_users : users_ok (users db);
  inv_referral :
    Forall (commission_referral (users db)) (affiliateCommissions db);
  inv_state :
    Forall (fun c => created_pending c \/ marked_paid c)
      (affiliateCommissions db)
}.

(** How one request may change the users table: rows updated in place, or
    one new row whose id is new and whose referrer, if any, is a user
    already there. *)
Definition users_step (us us' : list User.t) : Prop :=
  Forall2 same_identity us us' \/
  exists u, us' = (us ++ [u])%list /\
            ~ In (User.id u) (List.map User.id us) /\
            User.credits u <> None /\
            (User.referredBy u = None \/
             exists a, In a us /\ User.referredBy u = Some (User.id a)).

(** How one request may change the commissions table: not at all, by one
    new pending row for a referred user, or by marking rows paid. *)
Definition commissions_step (us' : list User.t)
  (cs cs' : list AffiliateCommission.t) : Prop :=
  cs' = cs \/
  (exists c, cs' = (cs ++ [c])%list /\ commission_referral us' c /\
             created_pending c) \/
  (exists ids m t,
      cs' = List.map (fun c => if Storage.inArray (AffiliateCommission.id c) ids
                               then Storage.mark_paid m t c else c) cs).

(** The same, told apart by request: only the mark-paid request rewrites
    rows, every other request leaves the rows there are alone. *)
Definition commissions_change (r : Request) (us' : list User.t)
  (cs cs' : list AffiliateCommission.t) : Prop :=
  match r with
  | MarkPaid _ commissionIds paymentMonth now =>
      cs' = cs \/
      exists ids m,
        commissionIds = Some ids /\ paymentMonth = Some m /\
        cs' = List.map (fun c => if Storage.inArray (AffiliateCommission.id c) ids
                                 then Storage.mark_paid m now c else c) cs
  | _ =>
      cs' = cs \/
      exists c, cs' = (cs ++ [c])%list /\ commission_referral us' c /\
                created_pending c
  end.

(** The requests of the specification's affiliate scenario, in order: Bob
    registers and draws a code, Carol follows his link and registers, pays
    19.00 for 10,000 credits, and the admin marks the commission paid. *)
Definition scenario : list Request :=
  [ Register (Auth.mkRegisterBody (Some "bob@example.com") (Some "hunter22")
                (Some "Bob") None) None june_2025 "b0b";
    GenerateCode "user_1750000000000_b0b" "AB12CD" june_2025;
    RefClick "AB12CD" (Some "203.0.113.7") (Some "Mozilla/5.0") None "click_1"
      june_2025;
    Register (Auth.mkRegisterBody (Some "carol@example.com") (Some "hunter33")
                (Some "Carol") None) (Some "AB12CD") june_2025 "car0l";
    CheckoutCompleted
      (Routes.mkSession "cs_test_1"
         (Some (Routes.mkMetadata (Some "user_1750000000000_car0l")
                  (Some "10000")))
         (Some 1900)) "commission_1" june_2025;
    MarkPaid true (Some ["commission_1"]) (Some "2025-07") july_2025 ].

Definition run (requests : list Request) (db : DB) : DB :=
  List.fold_left handle requests db.

Definition scenario_db : DB := run scenario emptyDB.

(** Carol's checkout session, and the database when Stripe first reports it
    completed. *)
Definition carol_session : Routes.Session :=
  Routes.mkSession "cs_test_1"
    (Some (Routes.mkMetadata (Some "user_1750000000000_car0l") (Some "10000")))
    (Some 1900).

Definition before_payment : DB := run (firstn 4 scenario) emptyDB.

(** The same completion event delivered once per element of [deliveries],
    each delivery with the commission id and the time of its handling. *)
Definition redeliver (session : Routes.Session)
  (deliveries : list (string * Date)) (db : DB) : DB :=
  List.fold_left
    (fun db d => Routes.checkout_session_completed db session (fst d) (snd d))
    deliveries db.

(** ** Commission arithmetic, code and specification side by side *)

(** A completed session that charged [amount_total] cents. *)
Definition charged (amount_total : Z) : Routes.Session :=
  Routes.mkSession "cs_test" None (Some amount_total).

(** The hundredths the webhook stores as [saleAmount] and as
    [commissionAmount] for such a session. *)
Definition stored_saleAmount (amount_total : Z) : option Z :=
  decimal_10_2 (Routes.amountPaid (charged amount_total)).

Definition stored_commissionAmount (amount_total : Z) : option Z :=
  decimal_10_2 (Routes.commissionAmount (Routes.amountPaid (charged amount_total))).

(** Written after the specification: [round(saleAmount * 0.15, 2)] on exact
    decimals.  [round_div rule a b] is the integer nearest to [a / b]
    (for [0 <= a], [0 < b]); [rule] only decides the exact halves. *)
Inductive tie_rule := HalfUp | HalfDown | HalfEven.

Definition round_div (rule : tie_rule) (a b : Z) : Z :=
  let q := a / b in
  let r := a mod b in
  if 2 * r <? b then q
  else if b <? 2 * r then q + 1
  else match rule with
       | HalfUp => q + 1
       | HalfDown => q
       | HalfEven => if Z.even q then q else q + 1
       end.

(** 15% of [saleAmount] hundredths, rounded to hundredths. *)
Definition spec_commissionAmount (rule : tie_rule) (saleAmount : Z) : Z :=
  round_div rule (saleAmount * 15) 100.

(** ** Monthly bills, said directly *)

(** The commissions of the month with key [k], and among some commissions
    those of the affiliate [a], in the order they arrived. *)
Definition of_month (k : string) (l : list AffiliateAdmin.PendingCommission)
  : list AffiliateAdmin.PendingCommission :=
  List.filter
    (fun c => String.eqb (monthKey (AffiliateAdmin.createdAt c)) k) l.

Definition of_affiliate (a : string) (l : list AffiliateAdmin.PendingCommission)
  : list AffiliateAdmin.PendingCommission :=
  List.filter
    (fun c => String.eqb (AffiliateAdmin.a_id (AffiliateAdmin.affiliate c)) a) l.

(** The sum of an amount column as the panel adds it up: from 0, one
    [parseFloat] at a time, in floating point. *)
Definition total (amount : AffiliateAdmin.PendingCommission -> Z)
  (l : list AffiliateAdmin.PendingCommission) : float :=
  List.fold_left (fun sum c => (sum + parseFloat_decimal (amount c))%float) l
    0%float.

(** The calendar month of a date, counted in months, and the dates the
    month key orders as the calendar does: four-digit years. *)
Definition calendar_month (d : Date) : Z := 12 * getFullYear d + getMonth d.

Definition valid_date (d : Date) : Prop :=
  1000 <= getFullYear d <= 9999 /\ 0 <= getMonth d <= 11.

(** The per-affiliate layer of the [reduce] on its own, the entry expected
    for an affiliate with commissions [l], and the bill expected for a month
    with commissions [l]. *)
Definition affiliate_step
  (m : gmap string AffiliateAdmin.AffiliateBill)
  (c : AffiliateAdmin.PendingCommission)
  : gmap string AffiliateAdmin.AffiliateBill :=
  <[AffiliateAdmin.a_id (AffiliateAdmin.affiliate c) :=
      AffiliateAdmin.add_to_affiliate c
        (m !! AffiliateAdmin.a_id (AffiliateAdmin.affiliate c))]> m.

Definition expected_affiliate (l : list AffiliateAdmin.PendingCommission)
  : option AffiliateAdmin.AffiliateBill :=
  match l with
  | [] => None
  | c0 :: _ =>
      Some (AffiliateAdmin.mkAffiliateBill (AffiliateAdmin.affiliate c0)
              (total AffiliateAdmin.commissionAmount l)
              (total AffiliateAdmin.saleAmount l)
              (Z.of_nat (List.length l))
              (List.map AffiliateAdmin.id l))
  end.

Definition expected_bill (l : list AffiliateAdmin.PendingCommission)
  : option AffiliateAdmin.MonthlyBill :=
  match l with
  | [] => None
  | c0 :: _ =>
      Some (AffiliateAdmin.mkMonthlyBill
              (monthKey (AffiliateAdmin.createdAt c0))
              (AffiliateAdmin.toLocaleDateString_month_year
                 (AffiliateAdmin.createdAt c0))
              (total AffiliateAdmin.commissionAmount l)
              (total AffiliateAdmin.saleAmount l)
              (Z.of_nat (List.length l))
              (List.map AffiliateAdmin.id l)
              (List.fold_left affiliate_step l ∅))
  end.

(** The decimal digits of a four-digit year and of a month number, written
    out, and a bounded universal quantifier that computes. *)
Definition digit_char (d : Z) : ascii := ascii_of_N (Z.to_N (48 + d)).

Definition four_digits (y : Z) : string :=
  String (digit_char (y / 1000))
    (String (digit_char (y / 100 mod 10))
       (String (digit_char (y / 10 mod 10))
          (String (digit_char (y mod 10)) EmptyString))).

Definition two_digits (m : Z) : string :=
  String (digit_char (m / 10)) (String (digit_char (m mod 10)) EmptyString).

Fixpoint all_below (n : nat) (p : Z -> bool) : bool :=
  match n with
  | O => true
  | S k => p (Z.of_nat k) && all_below k p
  end.

(** A bill comes before another in the list only if the commissions of its
    month were created in a later calendar month. *)
Definition later_bill (l : list AffiliateAdmin.PendingCommission)
  (b1 b2 : AffiliateAdmin.MonthlyBill) : Prop :=
  forall c1 c2,
    In c1 l -> In c2 l ->
    monthKey (AffiliateAdmin.createdAt c1) = AffiliateAdmin.month b1 ->
    monthKey (AffiliateAdmin.createdAt c2) = AffiliateAdmin.month b2 ->
    calendar_month (AffiliateAdmin.createdAt c2)
    < calendar_month (AffiliateAdmin.createdAt c1).

(** Three pending commissions: two of June 2025, for two affiliates, and one
    of July 2025. *)
Definition affiliate_bob : AffiliateAdmin.Affiliate :=
  AffiliateAdmin.mkAffiliate "user_2_b" "Bob" "" "bob@example.com"
    (Some "bob@paypal.example").

Definition affiliate_dan : AffiliateAdmin.Affiliate :=
  AffiliateAdmin.mkAffiliate "user_4_d" "Dan" "" "dan@example.com" None.

Definition pending_sample : list AffiliateAdmin.PendingCommission :=
  [ AffiliateAdmin.mkPendingCommission "commission_3" "user_2_b" "user_3_c"
      9000 1350 (Some "2025-07") "pending" july_2025 affiliate_bob;
    AffiliateAdmin.mkPendingCommission "commission_2" "user_4_d" "user_5_e"
      1000 150 (Some "2025-06") "pending" june_2025 affiliate_dan;
    AffiliateAdmin.mkPendingCommission "commission_1" "user_2_b" "user_3_c"
      1900 285 (Some "2025-06") "pending" june_2025 affiliate_bob ].

(** ** Sample data for the properties beyond the specification *)


(** Bob as [POST /api/register] stores him, and the database with him alone. *)
Definition bob_registered : User.t :=
  User.mk "user_1750000000000_b0b" "bob@example.com" "Bob" (Some "") (Some 0)
    None None None (Some june_2025).

Definition db_bob : DB := mkDB [bob_registered] [] [] [] [].

(** A click on Bob's link, and Dave who registers in the same session. *)
Definition click_1 : AffiliateClick.t :=
  AffiliateClick.mk "click_1" "AB12CD" (Some "203.0.113.7")
    (Some "Mozilla/5.0") None (Some june_2025).

Definition db_clicked : DB := mkDB [alice; bob; carol] [] [] [click_1] [].

Definition dave_body : Auth.RegisterBody :=
  Auth.mkRegisterBody (Some "dave@example.com") (Some "hunter44")
    (Some "Dave") None.

Definition dave_registered : User.t :=
  User.mk "user_1752000000000_d4ve" "dave@example.com" "Dave" (Some "")
    (Some 0) None None (Some "user_2_b") (Some july_2025).

Definition db_dave : DB :=
  mkDB [alice; bob; carol; dave_registered] [] [] [click_1] [].

(** Alice at the checkout for the 10,000-credit package: the record the
    checkout stores, and the session and the payment intent Stripe reports. *)
Definition pending_purchase : CreditPurchase.t :=
  CreditPurchase.mk "purchase_1" "user_1_a" 1900 10000 (Some "cs_test_9")
    (Some "pending").

Definition db_checkout : DB := mkDB [alice] [pending_purchase] [] [] [].

Definition alice_session : Routes.Session :=
  Routes.mkSession "cs_test_9"
    (Some (Routes.mkMetadata (Some "user_1_a") (Some "10000"))) (Some 1900).

Definition pending_intent_purchase : CreditPurchase.t :=
  CreditPurchase.mk "purchase_1" "user_1_a" 1900 10000 (Some "pi_test_9")
    (Some "pending").

Definition db_intent : DB := mkDB [alice] [pending_intent_purchase] [] [] [].

Definition alice_intent : Routes.PaymentIntent :=
  Routes.mkPaymentIntent "pi_test_9" (Some "user_1_a") (Some "10000").

(** The scenario once Carol has paid and before the admin pays Bob, and
    Carol's row and Bob's commission in it. *)
Definition after_payment : DB := run (firstn 5 scenario) emptyDB.

Definition carol_paid : User.t :=
  User.mk "user_1750000000000_car0l" "carol@example.com" "Carol" (Some "")
    (Some 10000) None None (Some "user_1750000000000_b0b") (Some june_2025).

Definition commission_1 : AffiliateCommission.t :=
  AffiliateCommission.mk "commission_1" "user_1750000000000_b0b"
    "user_1750000000000_car0l" "cs_test_1" 1900 285 (Some 1500)
    (Some "pending") (Some "2025-06") None (Some june_2025).

(** ** What is fixed when a row is created *)

(** The columns of an order and of a commission that say whose it is, what
    it is about and when it was created. *)
Definition order_terms (o : Order.t)
  : string * string * string * Z * option Z * string * option Date :=
  (Order.id o, Order.userId o, Order.apolloUrl o, Order.creditsUsed o,
   Order.estimatedLeads o, Order.deliveryEmail o, Order.createdAt o).

Definition commission_terms (c : AffiliateCommission.t)
  : string * string * string * string * Z * Z * option Date :=
  (AffiliateCommission.id c, AffiliateCommission.affiliateUserId c,
   AffiliateCommission.referredUserId c, AffiliateCommission.purchaseId c,
   AffiliateCommission.saleAmount c, AffiliateCommission.commissionAmount c,
   AffiliateCommission.createdAt c).

(** * Properties *)

(** ** The JavaScript helpers on small inputs *)

Example Math_round_examples :
  Math_round 2.5 = 3%float /\ Math_round (-2.5) = (-2)%float /\
  Math_round 0.49999999999999994 = 0%float /\
  Math_round 49.49999999999999 = 49%float /\ Math_round 285 = 285%float.
Proof. vm_compute. repeat split; reflexivity. Qed.

Example parseInt_examples :
  parseInt "10000" = Some 10000 /\ parseInt " 42abc" = Some 42 /\
  parseInt "-7" = Some (-7) /\ parseInt "0x1F" = Some 31 /\
  parseInt "abc" = None /\ parseInt "" = None.
Proof. vm_compute. repeat split; reflexivity. Qed.

Example monthKey_examples :
  monthKey (mkDate 1735700000000 2025 0) = "2025-01" /\
  monthKey june_2025 = "2025-06" /\
  monthKey (mkDate 1765000000000 2025 11) = "2025-12".
Proof. vm_compute. repeat split; reflexivity. Qed.

(** ** Reasoning about statements that may throw *)

Lemma bind_Returned {A B : Type} (r : Result A) (k : A -> Result B) (b : B) :
  r ≫= k = Returned b -> exists a, r = Returned a /\ k a = Returned b.
Proof. destruct r as [a|e]; [eauto | discriminate]. Qed.

Lemma ensure_Returned {B : Type} (c : bool) (e : Exn) (k : Result B) (b : B) :
  (ensure c e;; k) = Returned b -> c = true /\ k = Returned b.
Proof. destruct c; [auto | discriminate]. Qed.

Lemma ensure_true {B : Type} (c : bool) (e : Exn) (k : Result B) :
  c = true -> (ensure c e;; k) = k.
Proof. intros ->. reflexivity. Qed.

Ltac inv_stmt H :=
  repeat match type of H with
    | (ensure _ _;; _) = Returned _ =>
        let Hc := fresh "Hc" in
        apply ensure_Returned in H; destruct H as [Hc H]
    | _ ≫= _ = Returned _ =>
        let x := fresh "x" in
        let Hx := fresh "Hx" in
        apply bind_Returned in H; destruct H as (x & Hx & H)
    end.

Lemma mapM_rows_find {A : Type} (p : A -> bool) (f : A -> Result A) :
  (forall a a', f a = Returned a' -> p a' = p a) ->
  forall us us', mapM_rows f us = Returned us' ->
  forall u, List.find p us = Some u ->
  exists u', f u = Returned u' /\ List.find p us' = Some u'.
Proof.
  intros Hp us. induction us as [|a us IH]; intros us' Hm u Hf.
  - discriminate.
  - cbn [mapM_rows] in Hm. inv_stmt Hm. injection Hm as <-.
    cbn [List.find] in *. rewrite (Hp _ _ Hx).
    destruct (p a).
    + injection Hf as <-. eauto.
    + eauto.
Qed.

Lemma mapM_rows_total {A : Type} (f : A -> Result A) (us : list A) :
  (forall a, In a us -> exists a', f a = Returned a') ->
  exists us', mapM_rows f us = Returned us'.
Proof.
  induction us as [|a us IH]; intros Hall.
  - eexists. reflexivity.
  - destruct (Hall a) as [a' Ha]; [left; reflexivity|].
    destruct IH as [us' Hus]; [intros; apply Hall; right; assumption|].
    exists (a' :: us'). cbn [mapM_rows]. rewrite Ha. cbn. rewrite Hus. reflexivity.
Qed.

(** ** Credit ledger and order creation *)

Lemma adjust_credits_id delta now u u' :
  Storage.adjust_credits delta now u = Returned u' -> User.id u' = User.id u.
Proof.
  unfold Storage.adjust_credits. destruct (User.credits u).
  - intros H. inv_stmt H. injection H as <-. reflexivity.
  - intros [= <-]. reflexivity.
Qed.

Lemma update_row_keeps_id userId delta now a a' :
  (if String.eqb (User.id a) userId
   then Storage.adjust_credits delta now a else Returned a) = Returned a' ->
  String.eqb (User.id a') userId = String.eqb (User.id a) userId.
Proof.
  destruct (String.eqb (User.id a) userId) eqn:E.
  - intros Ha. apply adjust_credits_id in Ha. rewrite Ha. exact E.
  - intros [= <-]. exact E.
Qed.

Lemma update_credits_getUser db userId delta now db' r u b :
  Storage.update_credits db userId delta now = Returned (db', r) ->
  Storage.getUser db userId = Some u ->
  User.credits u = Some b ->
  orders db' = orders db /\
  exists u', Storage.getUser db' userId = Some u' /\
             User.credits u' = Some (b + delta).
Proof.
  unfold Storage.update_credits, Storage.getUser. intros H Hu Hb.
  inv_stmt H. injection H as <- <-. split; [reflexivity|].
  eapply mapM_rows_find in Hx as (u' & Hu' & Hf); [| |exact Hu].
  - exists u'. split; [exact Hf|].
    cbn beta in Hu'. apply find_some in Hu as [_ Hid]. rewrite Hid in Hu'.
    unfold Storage.adjust_credits in Hu'. rewrite Hb in Hu'.
    inv_stmt Hu'. injection Hu' as <-. reflexivity.
  - intros a a'. apply update_row_keeps_id.
Qed.

Lemma createOrder_Returned db order db' o :
  Storage.createOrder db order = Returned (db', o) ->
  o = order /\ users db' = users db /\ orders db' = (orders db ++ [order])%list.
Proof.
  unfold Storage.createOrder. intros H. inv_stmt H. injection H as <- <-. auto.
Qed.


Lemma NoDup_id_unique (us : list User.t) (a u : User.t) :
  NoDup (List.map User.id us) -> In a us -> In u us ->
  User.id a = User.id u -> a = u.
Proof.
  induction us as [|x us IH]; cbn; intros Hnd Ha Hu Hid; [contradiction|].
  apply NoDup_cons in Hnd as [Hx Hnd].
  destruct Ha as [<-|Ha], Hu as [<-|Hu]; auto.
  - exfalso. apply Hx. rewrite Hid. apply list_elem_of_In, in_map, Hu.
  - exfalso. apply Hx. rewrite <- Hid. apply list_elem_of_In, in_map, Ha.
Qed.

(** Order creation does go through: with the primary keys in order and every
    number inside the [integer] range, a sufficient balance gets the order
    back. *)
Lemma post_orders_succeeds db orderData newId now u b :
  NoDup (List.map User.id (users db)) ->
  Storage.getUser db (Routes.userId orderData) = Some u ->
  User.credits u = Some b ->
  Routes.creditsUsed orderData <= b ->
  int4_ok (Routes.creditsUsed orderData) = true ->
  int4_ok (b - Routes.creditsUsed orderData) = true ->
  match Routes.estimatedLeads orderData with
  | Some n => int4_ok n = true
  | None => True
  end ->
  ~ In newId (List.map Order.id (orders db)) ->
  snd (Routes.post_orders db orderData newId now) =
  json (Routes.order_row orderData newId now).
Proof.
  intros Hnd Hu Hb Hle Hc Hr He Hfresh. unfold Routes.post_orders.
  rewrite Hu. unfold Routes.credits_or_0. rewrite Hb.
  destruct (Z.ltb_spec b (Routes.creditsUsed orderData)) as [Hlt|_]; [lia|].
  unfold Storage.deductCredits. rewrite ensure_true by exact Hc.
  unfold Storage.update_credits.
  pose proof Hu as Hu0. unfold Storage.getUser in Hu0.
  apply find_some in Hu0 as [Hin Hid].
  destruct (mapM_rows_total
              (fun u0 => if String.eqb (User.id u0) (Routes.userId orderData)
                         then Storage.adjust_credits
                                (- Routes.creditsUsed orderData) now u0
                         else Returned u0) (users db)) as [us' Hus'].
  { intros a Ha. destruct (String.eqb_spec (User.id a) (Routes.userId orderData))
      as [Ea|Ea]; [|eauto].
    apply String.eqb_eq in Hid.
    assert (a = u) as -> by (eapply NoDup_id_unique; eauto; congruence).
    unfold Storage.adjust_credits. rewrite Hb.
    rewrite ensure_true by exact Hr. eauto. }
  rewrite Hus'. cbn.
  unfold Storage.createOrder. cbn.
  rewrite ensure_true.
  2:{ apply negb_true_iff, not_true_is_false. intros Hex.
      apply existsb_exists in Hex as (o & Ho & Heq).
      apply String.eqb_eq in Heq. apply Hfresh. rewrite <- Heq.
      apply in_map, Ho. }
  rewrite ensure_true.
  2:{ apply existsb_exists.
      destruct (mapM_rows_find
                  (fun u0 => String.eqb (User.id u0) (Routes.userId orderData))
                  _ (fun a a' => update_row_keeps_id _ _ _ a a')
                  _ _ Hus' u Hu) as (u' & _ & Hf).
      apply find_some in Hf. exists u'. exact Hf. }
  rewrite ensure_true by exact Hc.
  rewrite ensure_true by (destruct (Routes.estimatedLeads orderData); auto).
  reflexivity.
Qed.

(** The scenario of the specification: 5,000 credits, an order for 6,000. *)
Example order_6000_rejected :
  Routes.post_orders db_alice (order_for 6000) "order_1" june_2025 =
  (db_alice, InsufficientCredits).
Proof. reflexivity. Qed.

Example order_3000_accepted :
  let '(db', res) := Routes.post_orders db_alice (order_for 3000) "order_1"
                       june_2025 in
  res = json (Routes.order_row (order_for 3000) "order_1" june_2025) /\
  List.map User.credits (users db') = [Some 2000] /\
  List.length (orders db') = 1%nat.
Proof. vm_compute. auto. Qed.


(** ** Fulfilment *)

Lemma find_update_same {A : Type} (key : A -> string) (f : A -> A) (id : string)
  (l : list A) :
  (forall a, key (f a) = key a) ->
  List.find (fun a => String.eqb (key a) id)
    (List.map (fun a => if String.eqb (key a) id then f a else a) l) =
  option_map f (List.find (fun a => String.eqb (key a) id) l).
Proof.
  intros Hk. induction l as [|a l IH]; [reflexivity|]. cbn.
  destruct (String.eqb (key a) id) eqn:E.
  - rewrite Hk, E. reflexivity.
  - rewrite E. exact IH.
Qed.


Lemma update_none {A : Type} (key : A -> string) (f : A -> A) (id : string)
  (l : list A) :
  List.find (fun a => String.eqb (key a) id) l = None ->
  List.map (fun a => if String.eqb (key a) id then f a else a) l = l.
Proof.
  induction l as [|a l IH]; [reflexivity|]. cbn.
  destruct (String.eqb (key a) id); [discriminate|].
  intros H. rewrite IH by exact H. reflexivity.
Qed.

(** A request without a delivery URL is turned away and changes nothing. *)
Lemma put_fulfill_requires_csvUrl db orderId body now :
  present (Routes.b_csvUrl body) = false ->
  Routes.put_fulfill db orderId body now =
  (db, status_json 400 "CSV URL is required").
Proof.
  unfold Routes.put_fulfill. destruct (Routes.b_csvUrl body) as [| |[|c s]];
    [reflexivity | reflexivity | reflexivity | discriminate].
Qed.

(** For an order id that matches no row, the update returns no row, reading
    [updatedOrder.userId] throws, and the handler answers 500; no order is
    changed. *)
Lemma put_fulfill_unknown_order db orderId body now :
  Storage.getOrderById db orderId = None ->
  present (Routes.b_csvUrl body) = true ->
  Routes.put_fulfill db orderId body now =
  (db, status_json 500 "Error fulfilling order: Cannot read properties of undefined").
Proof.
  unfold Routes.put_fulfill, Storage.getOrderById. intros Hnone Hurl.
  destruct (Routes.b_csvUrl body) as [| |[|c s]]; try discriminate.
  unfold Storage.fulfillOrder.
  rewrite (update_none Order.id _ orderId (orders db) Hnone), Hnone.
  destruct db; reflexivity.
Qed.

(** C7. Fulfilling an order id that matches no order: the handler answers
    with status 500 and the message of the [TypeError] it caught, not with a
    not-found answer; the database is unchanged. *)
Theorem put_fulfill_unknown_order_500 :
  Routes.put_fulfill db_delivered "order_2"
    (Routes.mkFulfillBody (Str "csv_file") (Str "https://files.example/b.csv")
       (Str "")) july_2025 =
  (db_delivered,
   status_json 500 "Error fulfilling order: Cannot read properties of undefined").
Proof. reflexivity. Qed.



(** An optional field the request leaves out keeps its stored value. *)
Example put_fulfill_keeps_omitted_notes :
  option_map Order.notes
    (Storage.getOrderById
       (fst (Routes.put_fulfill db_delivered "order_1"
               (Routes.mkFulfillBody Undefined
                  (Str "https://docs.example/sheet") Undefined) july_2025))
       "order_1") =
  Some (Some "first delivery").
Proof. reflexivity. Qed.

(** ** Affiliate clicks *)

(** A click on a code nobody holds: the insert violates the foreign key on
    [affiliate_code], no row is stored, and the handler, which catches the
    error, neither stores the click nor remembers the code in the session. *)
Lemma trackClick_unknown_code_rejected :
  Storage.trackAffiliateClick db_affiliates "ZZ99ZZ" (Some "203.0.113.7")
    (Some "Mozilla/5.0") None "click_1" june_2025 = Thrown ForeignKeyViolation /\
  Routes.get_ref db_affiliates "ZZ99ZZ" (Some "203.0.113.7")
    (Some "Mozilla/5.0") None "click_1" june_2025 =
  (db_affiliates, None, redirect "/").
Proof. split; reflexivity. Qed.

Lemma existsb_eq_opt_iff (us : list User.t) (code : string) :
  existsb (fun u => eq_opt (User.affiliateCode u) code) us = true <->
  exists u, In u us /\ User.affiliateCode u = Some code.
Proof.
  rewrite existsb_exists. split; intros (u & Hin & H); exists u; split; auto.
  - unfold eq_opt in H. destruct (User.affiliateCode u); [|discriminate].
    apply String.eqb_eq in H. congruence.
  - rewrite H. cbn. apply String.eqb_refl.
Qed.

Lemma fresh_id_existsb {A : Type} (key : A -> string) (id : string) (l : list A) :
  ~ In id (List.map key l) ->
  existsb (fun a => String.eqb (key a) id) l = false.
Proof.
  intros Hfresh. apply not_true_is_false. intros Hex.
  apply existsb_exists in Hex as (a & Ha & Heq).
  apply String.eqb_eq in Heq. apply Hfresh. rewrite <- Heq. apply in_map, Ha.
Qed.

(** C8, as the code has it. With a fresh row id, [trackAffiliateClick]
    returns exactly when some user holds the code, and then the clicks table
    has gained one row with the code, address, user agent and referrer, the
    other tables being untouched; for a code nobody holds it throws the
    foreign-key violation. *)
Theorem trackAffiliateClick_needs_known_code db code ip ua ref newId now :
  ~ In newId (List.map AffiliateClick.id (affiliateClicks db)) ->
  match Storage.trackAffiliateClick db code ip ua ref newId now with
  | Returned (db', click) =>
      (exists u, In u (users db) /\ User.affiliateCode u = Some code) /\
      click = AffiliateClick.mk newId code ip ua ref (Some now) /\
      affiliateClicks db' = (affiliateClicks db ++ [click])%list /\
      users db' = users db /\ orders db' = orders db /\
      creditPurchases db' = creditPurchases db /\
      affiliateCommissions db' = affiliateCommissions db
  | Thrown e =>
      e = ForeignKeyViolation /\
      ~ exists u, In u (users db) /\ User.affiliateCode u = Some code
  end.
Proof.
  intros Hfresh. unfold Storage.trackAffiliateClick.
  rewrite (fresh_id_existsb AffiliateClick.id) by exact Hfresh. cbn.
  destruct (existsb _ (users db)) eqn:E; cbn.
  - apply existsb_eq_opt_iff in E. repeat split; auto.
  - split; [reflexivity|]. intros H. apply existsb_eq_opt_iff in H. congruence.
Qed.

Lemma trackAffiliateClick_needs_known_code_witness :
  ~ In "click_1" (List.map AffiliateClick.id (affiliateClicks db_affiliates)) /\
  match Storage.trackAffiliateClick db_affiliates "AB12CD" (Some "203.0.113.7")
          (Some "Mozilla/5.0") None "click_1" june_2025 with
  | Returned (db', click) =>
      (exists u, In u (users db_affiliates) /\
                 User.affiliateCode u = Some "AB12CD") /\
      click = AffiliateClick.mk "click_1" "AB12CD" (Some "203.0.113.7")
                (Some "Mozilla/5.0") None (Some june_2025) /\
      affiliateClicks db' = (affiliateClicks db_affiliates ++ [click])%list /\
      users db' = users db_affiliates /\ orders db' = orders db_affiliates /\
      creditPurchases db' = creditPurchases db_affiliates /\
      affiliateCommissions db' = affiliateCommissions db_affiliates
  | Thrown e =>
      e = ForeignKeyViolation /\
      ~ exists u, In u (users db_affiliates) /\
                  User.affiliateCode u = Some "AB12CD"
  end.
Proof.
  split; [intros []|].
  apply (trackAffiliateClick_needs_known_code db_affiliates "AB12CD"
           (Some "203.0.113.7") (Some "Mozilla/5.0") None "click_1" june_2025).
  intros [].
Defined.

(** ** Marking commissions paid *)

Lemma mark_paid_rows ids m t (cs : list AffiliateCommission.t) c :
  In c (List.map (fun c => if Storage.inArray (AffiliateCommission.id c) ids
                           then Storage.mark_paid m t c else c) cs) ->
  Storage.inArray (AffiliateCommission.id c) ids = true ->
  AffiliateCommission.status c = Some "paid" /\
  AffiliateCommission.paymentMonth c = Some m /\
  AffiliateCommission.paidAt c = Some t.
Proof.
  intros Hin Hid. apply in_map_iff in Hin as (c0 & Hc & _).
  destruct (Storage.inArray (AffiliateCommission.id c0) ids) eqn:E.
  - subst c. auto.
  - subst c. congruence.
Qed.

Lemma mark_paid_twice ids m1 t1 m2 t2 (cs : list AffiliateCommission.t) :
  List.map (fun c => if Storage.inArray (AffiliateCommission.id c) ids
                     then Storage.mark_paid m2 t2 c else c)
    (List.map (fun c => if Storage.inArray (AffiliateCommission.id c) ids
                        then Storage.mark_paid m1 t1 c else c) cs) =
  List.map (fun c => if Storage.inArray (AffiliateCommission.id c) ids
                     then Storage.mark_paid m2 t2 c else c) cs.
Proof.
  rewrite List.map_map. apply map_ext. intros c.
  destruct (Storage.inArray (AffiliateCommission.id c) ids) eqn:E.
  - cbn. rewrite E. reflexivity.
  - rewrite E. reflexivity.
Qed.

Lemma mark_paid_ids ids m t (cs : list AffiliateCommission.t) :
  List.map AffiliateCommission.id
    (List.map (fun c => if Storage.inArray (AffiliateCommission.id c) ids
                        then Storage.mark_paid m t c else c) cs) =
  List.map AffiliateCommission.id cs.
Proof.
  rewrite List.map_map. apply map_ext. intros c.
  destruct (Storage.inArray (AffiliateCommission.id c) ids); reflexivity.
Qed.

(** C9. Two runs of [markCommissionsPaid] over the same ids: after each run
    every row whose id is in the set is [paid]; the rows themselves are the
    same rows as before (same ids, same order); after the second run they
    carry the second payment month and the second time stamp, so the pair of
    runs amounts to the second run alone. *)
Theorem markCommissionsPaid_twice db ids m1 m2 t1 t2 :
  let db1 := Storage.markCommissionsPaid db ids m1 t1 in
  let db2 := Storage.markCommissionsPaid db1 ids m2 t2 in
  (forall c, In c (affiliateCommissions db1) ->
     Storage.inArray (AffiliateCommission.id c) ids = true ->
     AffiliateCommission.status c = Some "paid" /\
     AffiliateCommission.paymentMonth c = Some m1 /\
     AffiliateCommission.paidAt c = Some t1) /\
  (forall c, In c (affiliateCommissions db2) ->
     Storage.inArray (AffiliateCommission.id c) ids = true ->
     AffiliateCommission.status c = Some "paid" /\
     AffiliateCommission.paymentMonth c = Some m2 /\
     AffiliateCommission.paidAt c = Some t2) /\
  List.map AffiliateCommission.id (affiliateCommissions db1) =
    List.map AffiliateCommission.id (affiliateCommissions db) /\
  List.map AffiliateCommission.id (affiliateCommissions db2) =
    List.map AffiliateCommission.id (affiliateCommissions db) /\
  db2 = Storage.markCommissionsPaid db ids m2 t2.
Proof.
  cbn zeta. unfold Storage.markCommissionsPaid. cbn.
  split; [intros c; apply mark_paid_rows|].
  split; [intros c; apply mark_paid_rows|].
  split; [apply mark_paid_ids|].
  split; [rewrite mark_paid_twice; apply mark_paid_ids|].
  rewrite mark_paid_twice. reflexivity.
Qed.

(** ** The invariant of the reachable databases *)

Lemma same_identity_refl u : same_identity u u.
Proof. unfold same_identity. auto. Qed.

Lemma Forall2_same_identity_refl us : Forall2 same_identity us us.
Proof. induction us; constructor; auto using same_identity_refl. Qed.

Lemma mapM_rows_Forall2 {A : Type} (R : A -> A -> Prop) (f : A -> Result A) :
  (forall a a', f a = Returned a' -> R a a') ->
  forall us us', mapM_rows f us = Returned us' -> Forall2 R us us'.
Proof.
  intros HR us. induction us as [|a us IH]; intros us' Hm; cbn in Hm.
  - injection Hm as <-. constructor.
  - inv_stmt Hm. injection Hm as <-. constructor; eauto.
Qed.

Lemma map_Forall2 {A : Type} (R : A -> A -> Prop) (f : A -> A) (us : list A) :
  (forall a, R a (f a)) -> Forall2 R us (List.map f us).
Proof. intros HR. induction us; cbn; constructor; auto. Qed.

Lemma Forall2_same_identity_ids us us' :
  Forall2 same_identity us us' -> List.map User.id us' = List.map User.id us.
Proof.
  induction 1 as [|u u' us us' (Hid & _) _ IH]; cbn; [reflexivity|].
  rewrite Hid, IH. reflexivity.
Qed.

Lemma Forall2_same_identity_In us us' u :
  Forall2 same_identity us us' -> In u us ->
  exists u', In u' us' /\ same_identity u u'.
Proof.
  induction 1 as [|a a' us us' Ha _ IH]; cbn; [contradiction|].
  intros [<-|Hin]; [eauto|].
  destruct (IH Hin) as (u' & Hu' & Hs). eauto.
Qed.

Lemma users_ok_update us us' :
  Forall2 same_identity us us' -> users_ok us -> users_ok us'.
Proof.
  intros H2 [Hnd Hall]. split.
  - rewrite (Forall2_same_identity_ids _ _ H2). exact Hnd.
  - clear Hnd. induction H2 as [|u u' us us' (Hid & Hr & Hc) _ IH];
      [constructor|].
    apply Forall_cons in Hall as [[Hu1 Hu2] Hall].
    constructor; [|auto].
    rewrite Hr, Hid. auto.
Qed.

Lemma commission_referral_update us us' c :
  Forall2 same_identity us us' ->
  commission_referral us c -> commission_referral us' c.
Proof.
  intros H2 (u & Hin & Hid & Hr).
  destruct (Forall2_same_identity_In _ _ _ H2 Hin) as (u' & Hin' & Hid' & Hr' & _).
  exists u'. rewrite Hid', Hr'. auto.
Qed.

Lemma commission_referral_app us u c :
  commission_referral us c -> commission_referral (us ++ [u]) c.
Proof.
  intros (a & Hin & H). exists a. split; [apply in_or_app; auto | exact H].
Qed.

Lemma users_step_referral us us' c :
  users_step us us' -> commission_referral us c -> commission_referral us' c.
Proof.
  intros [H2|(u & -> & _)]; [apply commission_referral_update, H2
                            |apply commission_referral_app].
Qed.

Lemma users_step_ok us us' : users_step us us' -> users_ok us -> users_ok us'.
Proof.
  intros [H2|(u & -> & Hfresh & Hc & Hr)]; [apply users_ok_update, H2|].
  intros [Hnd Hall]. split.
  - rewrite List.map_app. cbn. apply NoDup_app. split; [exact Hnd|].
    split; [|apply NoDup_singleton].
    intros x Hx Hx'. apply list_elem_of_singleton in Hx'. subst x.
    apply Hfresh, list_elem_of_In, Hx.
  - apply Forall_app. split; [exact Hall|].
    constructor; [|constructor]. split; [|exact Hc].
    destruct Hr as [->|(a & Ha & ->)]; [discriminate|].
    intros [= Heq]. apply Hfresh. rewrite <- Heq. apply in_map, Ha.
Qed.

Lemma mark_paid_state ids m t c :
  created_pending c \/ marked_paid c ->
  let c' := if Storage.inArray (AffiliateCommission.id c) ids
            then Storage.mark_paid m t c else c in
  created_pending c' \/ marked_paid c'.
Proof.
  intros H. cbn zeta.
  destruct (Storage.inArray (AffiliateCommission.id c) ids); [|exact H].
  right. unfold marked_paid. cbn. eauto.
Qed.

Lemma mark_paid_referral us ids m t c :
  commission_referral us c ->
  commission_referral us
    (if Storage.inArray (AffiliateCommission.id c) ids
     then Storage.mark_paid m t c else c).
Proof.
  destruct (Storage.inArray (AffiliateCommission.id c) ids); auto.
Qed.

(** The two step shapes carry the invariant from one database to the next. *)
Lemma invariant_step db db' :
  users_step (users db) (users db') ->
  commissions_step (users db') (affiliateCommissions db)
    (affiliateCommissions db') ->
  invariant db -> invariant db'.
Proof.
  intros Hu Hc [Iu Ir Is]. split.
  - eapply users_step_ok; eauto.
  - assert (Forall (commission_referral (users db')) (affiliateCommissions db))
      as Ir'.
    { eapply Forall_impl; [exact Ir|]. intros c. apply users_step_referral, Hu. }
    destruct Hc as [->|[(c & -> & Hc & _)|(ids & m & t & ->)]].
    + exact Ir'.
    + apply Forall_app. split; [exact Ir'|]. constructor; [exact Hc|constructor].
    + apply Forall_map. eapply Forall_impl; [exact Ir'|].
      intros c. apply mark_paid_referral.
  - destruct Hc as [->|[(c & -> & _ & Hc)|(ids & m & t & ->)]].
    + exact Is.
    + apply Forall_app. split; [exact Is|]. constructor; [auto|constructor].
    + apply Forall_map. eapply Forall_impl; [exact Is|].
      intros c. apply mark_paid_state.
Qed.

Lemma adjust_credits_same_identity delta now u u' :
  Storage.adjust_credits delta now u = Returned u' -> same_identity u u'.
Proof.
  unfold Storage.adjust_credits, same_identity.
  destruct (User.credits u) as [c|] eqn:Ec; intros H.
  - inv_stmt H. injection H as <-. cbn. repeat split; congruence.
  - injection H as <-. cbn. repeat split; congruence.
Qed.

Lemma update_credits_effect db userId delta now db' r :
  Storage.update_credits db userId delta now = Returned (db', r) ->
  Forall2 same_identity (users db) (users db') /\
  r = Storage.getUser db' userId /\
  creditPurchases db' = creditPurchases db /\
  orders db' = orders db /\
  affiliateClicks db' = affiliateClicks db /\
  affiliateCommissions db' = affiliateCommissions db.
Proof.
  unfold Storage.update_credits. intros H. inv_stmt H. injection H as <- <-.
  repeat split. cbn.
  eapply mapM_rows_Forall2; [|exact Hx]. intros a a'. cbn beta.
  destruct (String.eqb (User.id a) userId).
  - apply adjust_credits_same_identity.
  - intros [= <-]. apply same_identity_refl.
Qed.

Lemma addCredits_effect db userId n now db' r :
  Storage.addCredits db userId n now = Returned (db', r) ->
  Forall2 same_identity (users db) (users db') /\
  r = Storage.getUser db' userId /\
  creditPurchases db' = creditPurchases db /\
  orders db' = orders db /\
  affiliateClicks db' = affiliateClicks db /\
  affiliateCommissions db' = affiliateCommissions db.
Proof.
  unfold Storage.addCredits. intros H. inv_stmt H.
  eapply update_credits_effect, H.
Qed.

Lemma deductCredits_effect db userId n now db' r :
  Storage.deductCredits db userId n now = Returned (db', r) ->
  Forall2 same_identity (users db) (users db') /\
  r = Storage.getUser db' userId /\
  creditPurchases db' = creditPurchases db /\
  orders db' = orders db /\
  affiliateClicks db' = affiliateClicks db /\
  affiliateCommissions db' = affiliateCommissions db.
Proof.
  unfold Storage.deductCredits. intros H. inv_stmt H.
  eapply update_credits_effect, H.
Qed.

Lemma createCreditPurchase_effect db purchase db' p :
  Storage.createCreditPurchase db purchase = Returned (db', p) ->
  users db' = users db /\
  creditPurchases db' = (creditPurchases db ++ [purchase])%list /\
  affiliateCommissions db' = affiliateCommissions db.
Proof.
  unfold Storage.createCreditPurchase. intros H. inv_stmt H.
  injection H as <- <-. auto.
Qed.

Lemma createAffiliateCommission_effect db commission db' c :
  Storage.createAffiliateCommission db commission = Returned (db', c) ->
  users db' = users db /\
  affiliateCommissions db' = (affiliateCommissions db ++ [commission])%list.
Proof.
  unfold Storage.createAffiliateCommission. intros H. inv_stmt H.
  injection H as <- <-. auto.
Qed.

Lemma commission_row_fields session u affiliateUserId purchaseId newId d c :
  Routes.commission_row session u affiliateUserId purchaseId newId d
  = Returned c ->
  AffiliateCommission.affiliateUserId c = affiliateUserId /\
  AffiliateCommission.referredUserId c = User.id u /\
  AffiliateCommission.purchaseId c = purchaseId /\
  Routes.insert_decimal (Routes.amountPaid session)
  = Returned (AffiliateCommission.saleAmount c) /\
  Routes.insert_decimal (Routes.commissionAmount (Routes.amountPaid session))
  = Returned (AffiliateCommission.commissionAmount c) /\
  AffiliateCommission.status c = Some "pending" /\
  AffiliateCommission.paymentMonth c = Some (monthKey d) /\
  AffiliateCommission.paidAt c = None /\
  AffiliateCommission.createdAt c = Some d.
Proof.
  unfold Routes.commission_row. intros H. inv_stmt H. injection H as <-.
  cbn. repeat split; auto.
Qed.

Lemma record_purchase_effect db1 session userId credits updatedUser newId now :
  let db' := Routes.record_purchase db1 session userId credits updatedUser
               newId now in
  users db' = users db1 /\
  (affiliateCommissions db' = affiliateCommissions db1 \/
   exists u referredBy c,
     updatedUser = Some u /\ User.referredBy u = Some referredBy /\
     Routes.commission_row session u referredBy (Routes.s_id session) newId now
     = Returned c /\
     affiliateCommissions db' = (affiliateCommissions db1 ++ [c])%list).
Proof.
  cbn zeta. unfold Routes.record_purchase.
  set (db2 := match _ ≫= _ with Returned (db', _) => db' | Thrown _ => db1 end).
  assert (users db2 = users db1 /\
          affiliateCommissions db2 = affiliateCommissions db1) as [Hu2 Hc2].
  { subst db2. destruct (_ ≫= _) as [[d p]|e] eqn:E; [|auto].
    inv_stmt E. apply createCreditPurchase_effect in E as (-> & _ & ->). auto. }
  clearbody db2.
  destruct updatedUser as [u|]; [|auto].
  destruct (truthy (User.referredBy u)) eqn:Et; [|auto].
  destruct (User.referredBy u) as [referredBy|] eqn:Er; [|discriminate].
  cbn [default].
  destruct (Routes.commission_row _ _ _ _ _ _) as [c|e] eqn:Erow; cbn; [|auto].
  destruct (Storage.createAffiliateCommission db2 c) as [[db3 c']|e] eqn:Ec;
    [|auto].
  apply createAffiliateCommission_effect in Ec as (Hu3 & Hc3).
  rewrite Hu3, Hc3, Hu2, Hc2.
  split; [reflexivity|]. right. exists u, referredBy, c. auto.
Qed.

(** What the [checkout.session.completed] branch does to the database:
    nothing, or one [addCredits] followed, for a referred user, by at most
    one new commission row. *)
Lemma checkout_effect db session newId now :
  let db' := Routes.checkout_session_completed db session newId now in
  db' = db \/
  exists userId n db1 updatedUser,
    Storage.addCredits db userId n now = Returned (db1, updatedUser) /\
    users db' = users db1 /\
    (affiliateCommissions db' = affiliateCommissions db \/
     exists u referredBy c,
       updatedUser = Some u /\ User.referredBy u = Some referredBy /\
       Routes.commission_row session u referredBy (Routes.s_id session) newId now
       = Returned c /\
       affiliateCommissions db' = (affiliateCommissions db ++ [c])%list).
Proof.
  cbn zeta. unfold Routes.checkout_session_completed.
  destruct (Routes.s_metadata session) as [md|]; [|auto].
  destruct (negb _ || negb _); [auto|].
  destruct (Storage.getUser db _) as [existingUser|]; [|auto].
  destruct (Routes.insert_integer _) as [n|e]; cbn; [|auto].
  destruct (Storage.addCredits db _ n now) as [[db1 updatedUser]|e] eqn:Hadd;
    [|auto].
  right. exists (default "" (Routes.m_userId md)), n, db1, updatedUser.
  split; [exact Hadd|].
  apply addCredits_effect in Hadd as (_ & _ & _ & _ & _ & Hcs).
  rewrite <- Hcs. apply record_purchase_effect.
Qed.

Lemma createUser_effect db userData db' u :
  Storage.createUser db userData = Returned (db', u) ->
  users db' = (users db ++ [userData])%list /\
  ~ In (User.id userData) (List.map User.id (users db)) /\
  affiliateCommissions db' = affiliateCommissions db.
Proof.
  unfold Storage.createUser. intros H. inv_stmt H. injection H as <- <-.
  repeat split. intros Hin. apply in_map_iff in Hin as (a & Ha & Hin).
  apply negb_true_iff in Hc. apply not_true_iff_false in Hc. apply Hc.
  apply existsb_exists. exists a. split; [exact Hin|].
  apply String.eqb_eq, Ha.
Qed.

Lemma resolve_referral_user db code r :
  Auth.resolve_referral db code = Some r ->
  exists a, In a (users db) /\ r = User.id a.
Proof.
  unfold Auth.resolve_referral. destruct (truthy code); [|discriminate].
  destruct (Storage.getUserByAffiliateCode _ _) as [a|] eqn:E; [|discriminate].
  intros [= <-]. apply find_some in E as [Hin _]. eauto.
Qed.

Lemma generateAffiliateCode_effect db userId code now db' r :
  Storage.generateAffiliateCode db userId code now = Returned (db', r) ->
  Forall2 same_identity (users db) (users db') /\
  affiliateCommissions db' = affiliateCommissions db.
Proof.
  unfold Storage.generateAffiliateCode. intros H. inv_stmt H.
  injection H as <- <-. split; [|reflexivity]. cbn.
  apply map_Forall2. intros a.
  destruct (String.eqb (User.id a) userId); [|apply same_identity_refl].
  unfold same_identity. cbn. auto.
Qed.

Lemma users_step_refl us : users_step us us.
Proof. left. apply Forall2_same_identity_refl. Qed.

Lemma commissions_step_refl us cs : commissions_step us cs cs.
Proof. left. reflexivity. Qed.

#[local] Hint Resolve users_step_refl commissions_step_refl : core.

(** Every request changes the users and the commissions in one of the
    allowed ways. *)
Lemma handle_step db r :
  users_step (users db) (users (handle db r)) /\
  commissions_change r (users (handle db r)) (affiliateCommissions db)
    (affiliateCommissions (handle db r)).
Proof.
  destruct r; cbn [handle commissions_change].
  - (* Register *)
    unfold Auth.post_register.
    destruct (negb _ || negb _ || negb _); cbn [fst]; [auto|].
    destruct (Storage.getUserByEmail _ _); cbn [fst]; [auto|].
    destruct (Storage.createUser _ _) as [[db1 u]|e] eqn:E; cbn [fst]; [|auto].
    apply createUser_effect in E as (Hu & Hfresh & Hc). rewrite Hu, Hc.
    split; [|auto]. right. eexists. split; [reflexivity|].
    split; [exact Hfresh|]. cbn. split; [discriminate|].
    destruct (Auth.resolve_referral db session_affiliateCode) as [r|] eqn:Er;
      [|auto].
    right. apply resolve_referral_user in Er as (a & Ha & ->). eauto.
  - (* GenerateCode *)
    unfold Routes.post_generate_code.
    destruct (Storage.generateAffiliateCode _ _ _ _) as [[db1 [u|]]|e] eqn:E;
      cbn [fst]; auto;
      apply generateAffiliateCode_effect in E as (Hu & ->); split; auto;
      left; exact Hu.
  - (* RefClick *)
    unfold Routes.get_ref.
    destruct (Storage.trackAffiliateClick _ _ _ _ _ _ _) as [[db1 c]|e] eqn:E;
      cbn [fst]; [|auto].
    unfold Storage.trackAffiliateClick in E. inv_stmt E. injection E as <- _.
    cbn. auto.
  - (* CreateCheckoutSession *)
    unfold Routes.post_create_checkout_session.
    destruct (negb stripe); [auto|].
    destruct (Routes.lookup_package _ _) as [packageInfo|]; [|auto].
    destruct (Storage.getUser _ _); [|auto].
    destruct session_id as [session_id|]; [|auto].
    destruct (_ ≫= _) as [[db1 p]|e] eqn:E; cbn [fst]; [|auto].
    inv_stmt E. apply createCreditPurchase_effect in E as (-> & _ & ->). auto.
  - (* CreatePaymentIntent *)
    unfold Routes.post_create_payment_intent.
    destruct (negb stripe); [auto|].
    destruct (Routes.lookup_package _ _) as [packageInfo|]; [|auto].
    destruct paymentIntent_id as [paymentIntent_id|]; [|auto].
    destruct (_ ≫= _) as [[db1 p]|e] eqn:E; cbn [fst]; [|auto].
    inv_stmt E. apply createCreditPurchase_effect in E as (-> & _ & ->). auto.
  - (* PaymentIntentSucceeded *)
    unfold Routes.payment_intent_succeeded.
    destruct (Routes.pi_userId paymentIntent) as [userId|]; [|cbn; auto].
    destruct (Routes.pi_credits paymentIntent) as [credits|]; [|cbn; auto].
    destruct (_ ≫= _) as [[db2 u]|e] eqn:E; [|cbn; auto].
    inv_stmt E. apply addCredits_effect in E as (H2 & _ & _ & _ & _ & ->).
    split; [left; exact H2 | cbn; auto].
  - (* CheckoutCompleted *)
    destruct (checkout_effect db session newId now)
      as [->|(userId & n & db1 & updatedUser & Hadd & Hu & Hc)]; [auto|].
    apply addCredits_effect in Hadd as (H2 & Hr & _).
    rewrite Hu. split; [left; exact H2|].
    destruct Hc as [->|(u & referredBy & c & -> & Hrb & Hrow & ->)]; [auto|].
    right. exists c. split; [reflexivity|].
    apply commission_row_fields in Hrow
      as (Ha & Hru & _ & _ & _ & Hs & Hpm & Hpa & Hca).
    split.
    + exists u. symmetry in Hr. apply find_some in Hr as [Hin _].
      rewrite Ha, Hru. auto.
    + unfold created_pending. eauto.
  - (* AddCredits *)
    unfold Routes.post_add_credits. destruct credits as [n|]; [|auto].
    destruct (n <=? 0); [auto|].
    destruct (Storage.addCredits _ _ _ _) as [[db1 u]|e] eqn:E; cbn [fst];
      [|auto].
    apply addCredits_effect in E as (H2 & _ & _ & _ & _ & ->).
    split; [left; exact H2 | auto].
  - (* AssignCredits *)
    unfold Routes.post_assign_credits. destruct credits as [n|]; [|auto].
    destruct (negb _ || _); [auto|].
    destruct (Storage.getUserByEmail _ _) as [user|]; [|auto].
    destruct (Storage.addCredits _ _ _ _) as [[db1 u]|e] eqn:E; cbn [fst];
      [|auto].
    apply addCredits_effect in E as (H2 & _ & _ & _ & _ & ->).
    split; [left; exact H2 | auto].
  - (* UpdatePaypal *)
    unfold Routes.post_update_paypal. destruct (truthy paypalEmail); [|auto].
    assert (Forall2 same_identity (users db)
              (users (fst (Storage.updatePaypalEmail db userId
                             (default "" paypalEmail) now)))) as H2.
    { cbn. apply map_Forall2. intros a.
      destruct (String.eqb (User.id a) userId); [|apply same_identity_refl].
      unfold same_identity. cbn. auto. }
    destruct (Storage.updatePaypalEmail _ _ _ _) as [db1 [u|]] eqn:E;
      cbn [fst] in *; (split; [left; exact H2|]);
      unfold Storage.updatePaypalEmail in E; injection E as <- _; cbn; auto.
  - (* PostOrder *)
    unfold Routes.post_orders.
    destruct (Storage.getUser _ _); [|auto].
    destruct (_ <? _); [auto|].
    destruct (Storage.deductCredits _ _ _ _) as [[db1 u]|e] eqn:E; [|auto].
    apply deductCredits_effect in E as (H2 & _ & _ & _ & _ & Hc).
    destruct (Storage.createOrder _ _) as [[db2 o]|e] eqn:Eo; cbn [fst].
    + unfold Storage.createOrder in Eo. inv_stmt Eo. injection Eo as <- _.
      cbn. rewrite Hc. split; [left; exact H2 | auto].
    + rewrite Hc. split; [left; exact H2 | auto].
  - (* Fulfill *)
    unfold Routes.put_fulfill.
    destruct (Routes.b_csvUrl body) as [| |[|ch url]]; [auto|auto|auto|].
    unfold Storage.fulfillOrder. cbn zeta.
    destruct (List.find _ _); cbn; auto.
  - (* MarkPaid *)
    unfold Routes.post_mark_paid.
    destruct (negb _); [auto|].
    destruct commissionIds as [ids|], paymentMonth as [m|]; auto.
    destruct (truthy (Some m)); cbn; [|auto].
    split; [auto|]. right. eauto.
Qed.

Lemma commissions_change_step r us' cs cs' :
  commissions_change r us' cs cs' -> commissions_step us' cs cs'.
Proof.
  unfold commissions_step.
  destruct r; cbn [commissions_change]; intros [H|H]; auto.
  all: try (destruct H as (c & H & Hr & Hp); right; left; eauto; fail).
  destruct H as (ids & m & _ & _ & H). right; right. eauto.
Qed.


Theorem reachable_invariant db : reachable db -> invariant db.
Proof.
  induction 1 as [|db r _ IH].
  - split; cbn; [split|..]; constructor.
  - destruct (handle_step db r) as [Hu Hc].
    eapply invariant_step; eauto using commissions_change_step.
Qed.

(** In a reachable database every user has a balance: the column is never
    NULL, which is what the theorems on balances assume of their user. *)
Lemma reachable_credits db u :
  reachable db -> In u (users db) -> exists b, User.credits u = Some b.
Proof.
  intros Hreach Hin. apply reachable_invariant in Hreach as [[_ Hus] _ _].
  rewrite Forall_forall in Hus.
  destruct (Hus u) as [_ Hc]; [apply list_elem_of_In, Hin|].
  destruct (User.credits u) as [b|]; [eauto | congruence].
Qed.

Lemma reachable_run requests db : reachable db -> reachable (run requests db).
Proof.
  revert db. induction requests as [|r requests IH]; intros db H; [exact H|].
  apply IH. constructor. exact H.
Qed.

(** ** Commissions and referrals *)

Lemma update_credits_lookup db userId delta now db' r u :
  Storage.update_credits db userId delta now = Returned (db', r) ->
  Storage.getUser db userId = Some u ->
  exists u', r = Some u' /\ Storage.getUser db' userId = Some u' /\
             Storage.adjust_credits delta now u = Returned u'.
Proof.
  unfold Storage.update_credits, Storage.getUser. intros H Hu.
  inv_stmt H. injection H as <- <-.
  eapply mapM_rows_find in Hx as (u' & Hu' & Hf);
    [| intros a a'; apply update_row_keeps_id | exact Hu].
  apply find_some in Hu as [_ Hid]. cbn beta in Hu'. rewrite Hid in Hu'.
  exists u'. auto.
Qed.

Lemma getUser_unique db u :
  NoDup (List.map User.id (users db)) -> In u (users db) ->
  Storage.getUser db (User.id u) = Some u.
Proof.
  unfold Storage.getUser. intros Hnd Hin.
  destruct (List.find _ _) as [a|] eqn:E.
  - apply find_some in E as [Ha Hid]. apply String.eqb_eq in Hid.
    f_equal. eapply NoDup_id_unique; eauto.
  - eapply find_none in E; [|exact Hin]. cbn in E.
    rewrite String.eqb_refl in E. discriminate.
Qed.

(** A completed purchase by a user without a referrer adds no commission. *)
Lemma checkout_not_referred db session newId now md userId u :
  Routes.s_metadata session = Some md ->
  Routes.m_userId md = Some userId ->
  Storage.getUser db userId = Some u ->
  User.referredBy u = None ->
  affiliateCommissions (Routes.checkout_session_completed db session newId now)
  = affiliateCommissions db.
Proof.
  intros Hmd Hid Hu Hr. unfold Routes.checkout_session_completed.
  rewrite Hmd, Hid. cbn [from_option id].
  destruct (negb _ || negb _); [reflexivity|].
  rewrite Hu.
  destruct (Routes.insert_integer _) as [n|e]; cbn; [|reflexivity].
  destruct (Storage.addCredits db _ n now) as [[db1 updatedUser]|e] eqn:Hadd;
    [|reflexivity].
  pose proof Hadd as Heff.
  apply addCredits_effect in Heff as (_ & _ & _ & _ & _ & Hcs).
  unfold Storage.addCredits in Hadd. inv_stmt Hadd.
  eapply update_credits_lookup in Hadd as (u' & -> & _ & Hadj); [|exact Hu].
  apply adjust_credits_same_identity in Hadj as (_ & Hr' & _).
  destruct (record_purchase_effect db1 session userId
              (default "" (Routes.m_credits md)) (Some u') newId now)
    as (_ & [Hsame|(u0 & r & c & [= <-] & Hr0 & _)]).
  - rewrite Hsame. exact Hcs.
  - congruence.
Qed.

(** C5. In every reachable database each commission row belongs to a
    purchaser whose [referredBy] is the row's affiliate, the affiliate is
    not the purchaser, and a user without a referrer has no commission row;
    and a completed purchase by a user without a referrer leaves the
    commissions table as it is. *)
Theorem commissions_only_for_referred db :
  reachable db ->
  (forall c, In c (affiliateCommissions db) ->
     (exists u, Storage.getUser db (AffiliateCommission.referredUserId c) = Some u /\
                User.referredBy u = Some (AffiliateCommission.affiliateUserId c)) /\
     AffiliateCommission.affiliateUserId c
     <> AffiliateCommission.referredUserId c) /\
  (forall u c, In u (users db) -> User.referredBy u = None ->
     In c (affiliateCommissions db) ->
     AffiliateCommission.referredUserId c <> User.id u) /\
  (forall session newId now md userId u,
     Routes.s_metadata session = Some md ->
     Routes.m_userId md = Some userId ->
     Storage.getUser db userId = Some u ->
     User.referredBy u = None ->
     affiliateCommissions
       (Routes.checkout_session_completed db session newId now)
     = affiliateCommissions db).
Proof.
  intros Hreach. apply reachable_invariant in Hreach as [[Hnd Hus] Hr _].
  assert (forall c, In c (affiliateCommissions db) ->
            exists u, In u (users db) /\
                      Storage.getUser db (AffiliateCommission.referredUserId c)
                      = Some u /\
                      User.referredBy u
                      = Some (AffiliateCommission.affiliateUserId c)) as Href.
  { intros c Hc. rewrite Forall_forall in Hr.
    destruct (Hr c) as (u & Hin & Hid & Hrb); [apply list_elem_of_In, Hc|].
    exists u. rewrite <- Hid. auto using getUser_unique. }
  split; [|split].
  - intros c Hc. destruct (Href c Hc) as (u & Hin & Hg & Hrb).
    split; [eauto|]. intros Heq.
    rewrite Forall_forall in Hus.
    destruct (Hus u) as [Hself _]; [apply list_elem_of_In, Hin|].
    apply Hself. rewrite Hrb. f_equal.
    unfold Storage.getUser in Hg. apply find_some in Hg as [_ Hid].
    apply String.eqb_eq in Hid. congruence.
  - intros u c Hu Hnone Hc Heq.
    destruct (Href c Hc) as (u' & Hin' & Hg & Hrb).
    rewrite Heq, (getUser_unique db u Hnd Hu) in Hg. congruence.
  - intros. eapply checkout_not_referred; eauto.
Qed.

(** The scenario of the specification: Carol's purchase of 19.00 gives Bob
    one pending commission of 2.85, which the admin then marks paid. *)
Example scenario_commission :
  affiliateCommissions (run (firstn 5 scenario) emptyDB) =
  [AffiliateCommission.mk "commission_1" "user_1750000000000_b0b"
     "user_1750000000000_car0l" "cs_test_1" 1900 285 (Some 1500)
     (Some "pending") (Some "2025-06") None (Some june_2025)] /\
  affiliateCommissions scenario_db =
  [AffiliateCommission.mk "commission_1" "user_1750000000000_b0b"
     "user_1750000000000_car0l" "cs_test_1" 1900 285 (Some 1500)
     (Some "paid") (Some "2025-07") (Some july_2025) (Some june_2025)].
Proof. vm_compute. split; reflexivity. Qed.

(** ** Payment month and payment time of a commission *)

(** The commission of the scenario, as the webhook leaves it: pending, not
    paid, and already carrying a payment month. *)
Lemma pending_commission_has_paymentMonth :
  List.map (fun c => (AffiliateCommission.status c,
                      AffiliateCommission.paymentMonth c,
                      AffiliateCommission.paidAt c))
    (affiliateCommissions (run (firstn 5 scenario) emptyDB)) =
  [(Some "pending", Some "2025-06", None)].
Proof. vm_compute. reflexivity. Qed.

(** C6, as the code has it. In every reachable database a pending
    commission has no payment time and its payment month is the month it was
    created in, and a commission that is not pending is paid and has both;
    a request other than mark-paid leaves the rows there are as they were
    and adds at most one pending row; mark-paid sets status, payment month
    and payment time of the rows it names, all three at once. *)
Theorem commission_payment_fields db :
  reachable db ->
  (forall c, In c (affiliateCommissions db) ->
     (AffiliateCommission.status c = Some "pending" /\
      AffiliateCommission.paidAt c = None /\
      exists d, AffiliateCommission.createdAt c = Some d /\
                AffiliateCommission.paymentMonth c = Some (monthKey d)) \/
     (AffiliateCommission.status c = Some "paid" /\
      (exists m, AffiliateCommission.paymentMonth c = Some m) /\
      (exists t, AffiliateCommission.paidAt c = Some t))) /\
  (forall r,
     match r with
     | MarkPaid _ commissionIds paymentMonth now =>
         affiliateCommissions (handle db r) = affiliateCommissions db \/
         exists ids m,
           commissionIds = Some ids /\ paymentMonth = Some m /\
           affiliateCommissions (handle db r) =
           List.map (fun c =>
                       if Storage.inArray (AffiliateCommission.id c) ids
                       then AffiliateCommission.mk (AffiliateCommission.id c)
                              (AffiliateCommission.affiliateUserId c)
                              (AffiliateCommission.referredUserId c)
                              (AffiliateCommission.purchaseId c)
                              (AffiliateCommission.saleAmount c)
                              (AffiliateCommission.commissionAmount c)
                              (AffiliateCommission.commissionRate c)
                              (Some "paid") (Some m) (Some now)
                              (AffiliateCommission.createdAt c)
                       else c) (affiliateCommissions db)
     | _ =>
         affiliateCommissions (handle db r) = affiliateCommissions db \/
         exists c,
           affiliateCommissions (handle db r)
           = (affiliateCommissions db ++ [c])%list /\
           AffiliateCommission.status c = Some "pending" /\
           AffiliateCommission.paidAt c = None /\
           exists d, AffiliateCommission.createdAt c = Some d /\
                     AffiliateCommission.paymentMonth c = Some (monthKey d)
     end).
Proof.
  intros Hreach. split.
  - apply reachable_invariant in Hreach as [_ _ Hs].
    intros c Hc. rewrite Forall_forall in Hs.
    apply (Hs c), list_elem_of_In, Hc.
  - intros r. destruct (handle_step db r) as [_ Hc].
    destruct r; cbn [commissions_change] in Hc;
      try (destruct Hc as [Hc|(c & Hc & _ & Hp)]; [left; exact Hc|];
           right; exists c; split; [exact Hc | exact Hp]).
    exact Hc.
Qed.

Lemma commissions_only_for_referred_witness :
  reachable scenario_db /\
  (forall c, In c (affiliateCommissions scenario_db) ->
     (exists u, Storage.getUser scenario_db
                  (AffiliateCommission.referredUserId c) = Some u /\
                User.referredBy u = Some (AffiliateCommission.affiliateUserId c)) /\
     AffiliateCommission.affiliateUserId c
     <> AffiliateCommission.referredUserId c) /\
  (forall u c, In u (users scenario_db) -> User.referredBy u = None ->
     In c (affiliateCommissions scenario_db) ->
     AffiliateCommission.referredUserId c <> User.id u) /\
  (forall session newId now md userId u,
     Routes.s_metadata session = Some md ->
     Routes.m_userId md = Some userId ->
     Storage.getUser scenario_db userId = Some u ->
     User.referredBy u = None ->
     affiliateCommissions
       (Routes.checkout_session_completed scenario_db session newId now)
     = affiliateCommissions scenario_db).
Proof.
  split; [apply reachable_run, reachable_empty|].
  apply (commissions_only_for_referred scenario_db).
  apply reachable_run, reachable_empty.
Defined.

Lemma commission_payment_fields_witness :
  reachable scenario_db /\
  (forall c, In c (affiliateCommissions scenario_db) ->
     (AffiliateCommission.status c = Some "pending" /\
      AffiliateCommission.paidAt c = None /\
      exists d, AffiliateCommission.createdAt c = Some d /\
                AffiliateCommission.paymentMonth c = Some (monthKey d)) \/
     (AffiliateCommission.status c = Some "paid" /\
      (exists m, AffiliateCommission.paymentMonth c = Some m) /\
      (exists t, AffiliateCommission.paidAt c = Some t))).
Proof.
  split; [apply reachable_run, reachable_empty|].
  apply (commission_payment_fields scenario_db).
  apply reachable_run, reachable_empty.
Defined.

(** ** Payment completion and redelivery *)

Lemma update_credits_succeeds db userId delta now u b :
  NoDup (List.map User.id (users db)) ->
  Storage.getUser db userId = Some u ->
  User.credits u = Some b ->
  int4_ok (b + delta) = true ->
  exists db' u',
    Storage.update_credits db userId delta now = Returned (db', Some u') /\
    Storage.getUser db' userId = Some u' /\
    User.credits u' = Some (b + delta) /\
    NoDup (List.map User.id (users db')).
Proof.
  intros Hnd Hu Hb Hr.
  pose proof Hu as Hu0. unfold Storage.getUser in Hu0.
  apply find_some in Hu0 as [Hin Hid]. apply String.eqb_eq in Hid.
  destruct (mapM_rows_total
              (fun u0 => if String.eqb (User.id u0) userId
                         then Storage.adjust_credits delta now u0
                         else Returned u0) (users db)) as [us' Hus'].
  { intros a Ha. destruct (String.eqb_spec (User.id a) userId) as [Ea|Ea];
      [|eauto].
    assert (a = u) as -> by (eapply NoDup_id_unique; eauto; congruence).
    unfold Storage.adjust_credits. rewrite Hb.
    rewrite ensure_true by exact Hr. eauto. }
  assert (Storage.update_credits db userId delta now
          = Returned (Storage.with_users db us',
                      Storage.getUser (Storage.with_users db us') userId)) as E.
  { unfold Storage.update_credits. rewrite Hus'. reflexivity. }
  destruct (update_credits_getUser _ _ _ _ _ _ u b E Hu Hb) as (_ & u' & Hu' & Hb').
  apply update_credits_effect in E as Heff. destruct Heff as (H2 & _).
  exists (Storage.with_users db us'), u'. rewrite E, Hu'.
  repeat split; auto.
  rewrite (Forall2_same_identity_ids _ _ H2). exact Hnd.
Qed.

(** One delivery of the completion event for an existing user adds the
    purchased credits, whether or not the payment was recorded before. *)
Lemma checkout_adds_credits db session newId now userId credits n u b :
  NoDup (List.map User.id (users db)) ->
  Routes.s_metadata session
  = Some (Routes.mkMetadata (Some userId) (Some credits)) ->
  userId <> "" -> credits <> "" ->
  parseInt credits = Some n ->
  int4_ok n = true ->
  Storage.getUser db userId = Some u ->
  User.credits u = Some b ->
  int4_ok (b + n) = true ->
  let db' := Routes.checkout_session_completed db session newId now in
  NoDup (List.map User.id (users db')) /\
  exists u', Storage.getUser db' userId = Some u' /\
             User.credits u' = Some (b + n).
Proof.
  intros Hnd Hmd Hid Hcr Hparse Hn Hu Hb Hsum. cbn zeta.
  unfold Routes.checkout_session_completed. rewrite Hmd. cbn [Routes.m_userId
    Routes.m_credits from_option id].
  destruct userId as [|c1 userId]; [congruence|].
  destruct credits as [|c2 credits]; [congruence|].
  cbn [truthy negb orb]. rewrite Hu, Hparse. cbn.
  unfold Storage.addCredits. rewrite ensure_true by exact Hn.
  destruct (update_credits_succeeds db (String c1 userId) n now u b
              Hnd Hu Hb Hsum) as (db1 & u' & -> & Hu' & Hb' & Hnd').
  destruct (record_purchase_effect db1 session (String c1 userId)
              (String c2 credits) (Some u') newId now) as (Husers & _).
  unfold Storage.getUser in *. rewrite Husers. eauto.
Qed.

(** The completion event of Carol's payment, delivered twice: the 10,000
    credits she bought are on her balance twice, and Bob has two commissions
    for the one purchase record. *)
Lemma redelivery_credits_twice :
  List.map User.credits (users before_payment) = [Some 0; Some 0] /\
  let db := redeliver carol_session
              [("commission_1", june_2025); ("commission_2", june_2025)]
              before_payment in
  List.map User.credits (users db) = [Some 0; Some 20000] /\
  List.map CreditPurchase.id (creditPurchases db) = ["cs_test_1"] /\
  List.map AffiliateCommission.id (affiliateCommissions db)
  = ["commission_1"; "commission_2"].
Proof. vm_compute. repeat split; reflexivity. Qed.

(** C2, as the code has it. Each delivery of the completion event adds the
    purchased credits [n] to the balance of the user it names: after the
    event has been delivered [k] times the balance is [b + k * n]; nothing
    in the handler looks whether the payment reference was seen before. *)
Theorem redelivery_adds_credits_each_time session deliveries :
  forall db userId credits n u b,
  NoDup (List.map User.id (users db)) ->
  Routes.s_metadata session
  = Some (Routes.mkMetadata (Some userId) (Some credits)) ->
  userId <> "" -> credits <> "" ->
  parseInt credits = Some n ->
  0 <= n -> int4_ok n = true ->
  Storage.getUser db userId = Some u ->
  User.credits u = Some b ->
  int4_ok b = true ->
  int4_ok (b + Z.of_nat (List.length deliveries) * n) = true ->
  exists u', Storage.getUser (redeliver session deliveries db) userId = Some u' /\
             User.credits u'
             = Some (b + Z.of_nat (List.length deliveries) * n).
Proof.
  induction deliveries as [|d deliveries IH];
    intros db userId credits n u b Hnd Hmd Hid Hcr Hparse Hn0 Hn Hu Hb Hb4 Hsum.
  - cbn. exists u. rewrite Z.add_0_r. auto.
  - cbn [redeliver List.fold_left].
    assert (int4_ok (b + n) = true) as Hbn.
    { unfold int4_ok in *. cbn [List.length] in Hsum.
      apply andb_true_iff in Hb4 as [H1 H2], Hsum as [H3 H4].
      apply andb_true_iff. split; apply Z.leb_le;
        apply Z.leb_le in H1, H2, H3, H4; nia. }
    destruct (checkout_adds_credits db session (fst d) (snd d) userId credits
                n u b Hnd Hmd Hid Hcr Hparse Hn Hu Hb Hbn)
      as (Hnd' & u1 & Hu1 & Hb1).
    destruct (IH _ userId credits n u1 (b + n) Hnd' Hmd Hid Hcr Hparse Hn0 Hn
                Hu1 Hb1 Hbn) as (u' & Hu' & Hb').
    { replace (b + n + Z.of_nat (List.length deliveries) * n)
        with (b + Z.of_nat (List.length (d :: deliveries)) * n);
        [exact Hsum | cbn [List.length]; lia]. }
    exists u'. split; [exact Hu'|]. rewrite Hb'. f_equal.
    cbn [List.length]. lia.
Qed.

Lemma redelivery_adds_credits_each_time_witness :
  exists u', Storage.getUser
               (redeliver carol_session
                  [("commission_1", june_2025); ("commission_2", july_2025);
                   ("commission_3", july_2025)] before_payment)
               "user_1750000000000_car0l" = Some u' /\
             User.credits u' = Some (0 + 3 * 10000).
Proof.
  assert (exists u, Storage.getUser before_payment "user_1750000000000_car0l"
                    = Some u /\ User.credits u = Some 0) as (u & Hu & Hb).
  { eexists. split; vm_compute; reflexivity. }
  apply (redelivery_adds_credits_each_time carol_session
           [("commission_1", june_2025); ("commission_2", july_2025);
            ("commission_3", july_2025)]
           before_payment "user_1750000000000_car0l" "10000" 10000 u 0).
  - vm_compute. constructor.
    + intros H. apply list_elem_of_In in H. destruct H as [H|[]]. discriminate.
    + constructor; [|constructor].
      intros H. apply list_elem_of_In in H. destruct H.
  - reflexivity.
  - discriminate.
  - discriminate.
  - reflexivity.
  - lia.
  - reflexivity.
  - exact Hu.
  - exact Hb.
  - reflexivity.
  - reflexivity.
Defined.

(** ** The commission amount *)

(** The example of the specification: 19.00 charged, 2.85 commission. *)
Example commission_on_19_00 :
  stored_saleAmount 1900 = Some 1900 /\
  stored_commissionAmount 1900 = Some 285 /\
  Routes.commissionAmount (Routes.amountPaid (charged 1900)) = 2.85%float.
Proof. vm_compute. repeat split; reflexivity. Qed.

(** For each package of the catalog the commission on its price is exactly
    15%, whatever the rule for halves: no rounding is needed. *)
Lemma commission_on_catalog_prices :
  Forall (fun package =>
            exists amount_total,
              Z_of_Number (Routes.unit_amount (snd package)) = Some amount_total /\
              stored_saleAmount amount_total = Some amount_total /\
              forall rule,
                stored_commissionAmount amount_total
                = Some (spec_commissionAmount rule amount_total))
    Routes.CREDIT_PACKAGES.
Proof.
  unfold Routes.CREDIT_PACKAGES.
  repeat (apply Forall_cons; split;
          [eexists; split; [vm_compute; reflexivity|];
           split; [vm_compute; reflexivity|];
           intros []; vm_compute; reflexivity|]).
  apply Forall_nil. exact I.
Qed.

(** C3. The stored commission at charged amounts whose 15% ends on half a
    cent. On 3.30 the code stores 0.49, where 0.495 rounds to 0.50 under
    half-up and half-even; on 0.30 it stores 0.05, where 0.045 rounds to
    0.04 under half-down and half-even. No rule for the halves gives what
    the floating-point evaluation gives. *)
Theorem commission_at_half_cent_ties :
  stored_saleAmount 330 = Some 330 /\
  stored_commissionAmount 330 = Some 49 /\
  spec_commissionAmount HalfUp 330 = 50 /\
  spec_commissionAmount HalfEven 330 = 50 /\
  stored_saleAmount 30 = Some 30 /\
  stored_commissionAmount 30 = Some 5 /\
  spec_commissionAmount HalfDown 30 = 4 /\
  spec_commissionAmount HalfEven 30 = 4.
Proof. vm_compute. repeat split; reflexivity. Qed.

(** ** Monthly bills *)

Section MonthlyBills.

Import AffiliateAdmin.

Lemma total_snoc amount l c :
  total amount (l ++ [c])
  = (total amount l + parseFloat_decimal (amount c))%float.
Proof. unfold total. rewrite fold_left_app. reflexivity. Qed.

Lemma expected_affiliate_snoc l c :
  expected_affiliate (l ++ [c])
  = Some (add_to_affiliate c (expected_affiliate l)).
Proof.
  destruct l as [|c0 l]; [reflexivity|].
  cbn [expected_affiliate app add_to_affiliate ab_affiliate ab_totalCommissions
         ab_totalSales ab_transactionCount ab_commissionIds].
  rewrite !app_comm_cons, !total_snoc, List.map_app, length_app,
    Nat2Z.inj_add.
  reflexivity.
Qed.

Lemma affiliates_snoc l c :
  List.fold_left affiliate_step (l ++ [c]) ∅
  = affiliate_step (List.fold_left affiliate_step l ∅) c.
Proof. rewrite fold_left_app. reflexivity. Qed.

Lemma expected_bill_snoc l c :
  expected_bill (l ++ [c]) = Some (add_to_bill c (expected_bill l)).
Proof.
  destruct l as [|c0 l]; [reflexivity|].
  cbn [expected_bill app add_to_bill month monthName totalCommissions
         totalSales transactionCount commissionIds affiliates].
  rewrite !app_comm_cons, !total_snoc, List.map_app, length_app,
    affiliates_snoc, Nat2Z.inj_add.
  reflexivity.
Qed.

Lemma of_month_snoc k l c :
  of_month k (l ++ [c])
  = (of_month k l
     ++ if String.eqb (monthKey (createdAt c)) k then [c] else [])%list.
Proof. unfold of_month. rewrite List.filter_app. reflexivity. Qed.

Lemma of_affiliate_snoc a l c :
  of_affiliate a (l ++ [c])
  = (of_affiliate a l
     ++ if String.eqb (a_id (affiliate c)) a then [c] else [])%list.
Proof. unfold of_affiliate. rewrite List.filter_app. reflexivity. Qed.

(** The entry of affiliate [a] after the commissions [l] have been folded
    in is the one expected for the commissions of [a] among them. *)
Lemma affiliates_lookup l a :
  List.fold_left affiliate_step l ∅ !! a = expected_affiliate (of_affiliate a l).
Proof.
  induction l as [|c l IH] using rev_ind; [apply lookup_empty|].
  rewrite affiliates_snoc, of_affiliate_snoc. unfold affiliate_step at 1.
  destruct (String.eqb_spec (a_id (affiliate c)) a) as [E|Hne].
  - rewrite E, lookup_insert_eq, IH, expected_affiliate_snoc. reflexivity.
  - rewrite lookup_insert_ne by exact Hne. rewrite app_nil_r. exact IH.
Qed.

(** The bill under key [k] after the [reduce] is the one expected for the
    commissions of that month. *)
Lemma grouped_lookup l k :
  grouped l !! k = expected_bill (of_month k l).
Proof.
  unfold grouped. induction l as [|c l IH] using rev_ind; [apply lookup_empty|].
  rewrite fold_left_app, of_month_snoc. cbn [List.fold_left].
  unfold group_step at 1.
  destruct (String.eqb_spec (monthKey (createdAt c)) k) as [E|Hne].
  - rewrite E, lookup_insert_eq, IH, expected_bill_snoc. reflexivity.
  - rewrite lookup_insert_ne by exact Hne. rewrite app_nil_r. exact IH.
Qed.

Lemma of_month_head k l c0 l' :
  of_month k l = c0 :: l' -> monthKey (createdAt c0) = k /\ In c0 l.
Proof.
  intros H. assert (In c0 (of_month k l)) as Hin by (rewrite H; left; reflexivity).
  apply filter_In in Hin as [Hin Hk]. apply String.eqb_eq in Hk. auto.
Qed.

(** *** The month key and the calendar *)

Lemma all_below_spec n p :
  all_below n p = true -> forall z, 0 <= z < Z.of_nat n -> p z = true.
Proof.
  induction n as [|n IH]; intros H z Hz; [lia|].
  cbn [all_below] in H. apply andb_true_iff in H as [Hn H].
  destruct (Z.eq_dec z (Z.of_nat n)) as [->|Hne]; [exact Hn|].
  apply IH; [exact H | lia].
Qed.

Lemma year_digits y :
  1000 <= y <= 9999 -> Number_toString y = four_digits y.
Proof.
  intros Hy.
  assert (all_below (Z.to_nat 10000)
            (fun y => (y <? 1000)
                      || String.eqb (Number_toString y) (four_digits y))
          = true) as H by (vm_compute; reflexivity).
  assert ((y <? 1000) || String.eqb (Number_toString y) (four_digits y) = true)
    as Hp by (apply (all_below_spec _ _ H); lia).
  apply orb_true_iff in Hp as [Hp|Hp]; [apply Z.ltb_lt in Hp; lia|].
  apply String.eqb_eq, Hp.
Qed.

Lemma month_digits m :
  0 <= m <= 11 -> padStart (Number_toString (m + 1)) 2 "0" = two_digits (m + 1).
Proof.
  intros Hm.
  assert (all_below (Z.to_nat 12)
            (fun m => String.eqb (padStart (Number_toString (m + 1)) 2 "0")
                        (two_digits (m + 1))) = true) as H
      by (vm_compute; reflexivity).
  apply String.eqb_eq, (all_below_spec _ _ H). lia.
Qed.

Lemma digit_char_compare a b :
  0 <= a <= 9 -> 0 <= b <= 9 ->
  Ascii.compare (digit_char a) (digit_char b) = (a ?= b).
Proof.
  intros Ha Hb. unfold Ascii.compare, digit_char.
  rewrite !N_ascii_embedding by lia.
  rewrite Z2N.inj_compare by lia. apply Z.add_compare_mono_l.
Qed.

(** For dates with four-digit years the order of the month keys is the order
    of the calendar months. *)
Lemma monthKey_compare d1 d2 :
  valid_date d1 -> valid_date d2 ->
  String.compare (monthKey d1) (monthKey d2)
  = (calendar_month d1 ?= calendar_month d2).
Proof.
  intros [Hy1 Hm1] [Hy2 Hm2]. unfold monthKey, calendar_month.
  rewrite (year_digits _ Hy1), (year_digits _ Hy2), (month_digits _ Hm1),
    (month_digits _ Hm2).
  unfold four_digits, two_digits. cbv [String.append]. cbn [String.compare].
  rewrite !digit_char_compare by (Z.div_mod_to_equations; lia).
  change (Ascii.compare "-" "-") with Eq. cbn iota.
  set (y1 := getFullYear d1) in *. set (y2 := getFullYear d2) in *.
  set (m1 := getMonth d1 + 1) in *. set (m2 := getMonth d2 + 1) in *.
  assert (getMonth d1 = m1 - 1) as -> by (subst m1; lia).
  assert (getMonth d2 = m2 - 1) as -> by (subst m2; lia).
  assert (1 <= m1 <= 12 /\ 1 <= m2 <= 12) as Hm by lia.
  clearbody y1 y2 m1 m2. clear Hm1 Hm2.
  repeat match goal with
    | |- context [?a ?= ?b] =>
        lazymatch a with
        | 12 * _ + _ => fail
        | _ => destruct (Z.compare_spec a b)
        end
    end; cbn iota; symmetry;
    first [apply Z.compare_eq_iff | apply Z.compare_lt_iff
          | apply Z.compare_gt_iff];
    Z.div_mod_to_equations; lia.
Qed.

Lemma string_compare_refl s : String.compare s s = Eq.
Proof.
  induction s as [|x s IH]; cbn; [reflexivity|].
  unfold Ascii.compare. rewrite N.compare_refl. exact IH.
Qed.

Lemma monthKey_same_month d1 d2 :
  valid_date d1 -> valid_date d2 ->
  monthKey d1 = monthKey d2 <->
  getFullYear d1 = getFullYear d2 /\ getMonth d1 = getMonth d2.
Proof.
  intros H1 H2. split.
  - intros Hk. pose proof (monthKey_compare d1 d2 H1 H2) as Hc.
    rewrite Hk, string_compare_refl in Hc. symmetry in Hc.
    apply Z.compare_eq_iff in Hc. unfold calendar_month, valid_date in *. lia.
  - intros [Hy Hm]. unfold monthKey. rewrite Hy, Hm. reflexivity.
Qed.

(** *** The order of strings *)

Lemma ascii_compare_lt_trans a b c :
  Ascii.compare a b = Lt -> Ascii.compare b c = Lt -> Ascii.compare a c = Lt.
Proof.
  unfold Ascii.compare. rewrite !N.compare_lt_iff. apply N.lt_trans.
Qed.

Lemma string_compare_lt_trans a :
  forall b c, String.compare a b = Lt -> String.compare b c = Lt ->
              String.compare a c = Lt.
Proof.
  induction a as [|x a IH]; intros [|y b] [|z c]; cbn; try congruence.
  destruct (Ascii.compare x y) eqn:Exy; try discriminate;
    destruct (Ascii.compare y z) eqn:Eyz; try discriminate.
  - apply Ascii.compare_eq_iff in Exy, Eyz. subst y z.
    assert (Ascii.compare x x = Eq) as ->
        by (unfold Ascii.compare; apply N.compare_refl).
    apply IH.
  - apply Ascii.compare_eq_iff in Exy. subst y. rewrite Eyz. reflexivity.
  - apply Ascii.compare_eq_iff in Eyz. subst z. rewrite Exy. reflexivity.
  - rewrite (ascii_compare_lt_trans _ _ _ Exy Eyz). reflexivity.
Qed.

(** *** Sorting *)

Lemma insert_sorted_Permutation {A : Type} (compareFn : A -> A -> comparison)
  (x : A) (l : list A) :
  Permutation (insert_sorted compareFn x l) (x :: l).
Proof.
  induction l as [|y l IH]; cbn; [reflexivity|].
  destruct (compareFn x y); try reflexivity.
  rewrite IH. apply perm_swap.
Qed.

Lemma Array_sort_Permutation {A : Type} (compareFn : A -> A -> comparison)
  (l : list A) :
  Permutation (Array_sort compareFn l) l.
Proof.
  induction l as [|x l IH]; cbn; [reflexivity|].
  rewrite insert_sorted_Permutation, IH. reflexivity.
Qed.

Lemma insert_sorted_Sorted {A : Type} (compareFn : A -> A -> comparison) :
  (forall a b, compareFn a b = Gt -> compareFn b a <> Gt) ->
  forall x l,
    Sorted (fun a b => compareFn a b <> Gt) l ->
    Sorted (fun a b => compareFn a b <> Gt) (insert_sorted compareFn x l).
Proof.
  intros Htotal x l. induction l as [|y l IH]; intros Hs; cbn.
  - repeat constructor.
  - destruct (compareFn x y) eqn:E.
    + constructor; [exact Hs|]. constructor. congruence.
    + constructor; [exact Hs|]. constructor. congruence.
    + apply Sorted_inv in Hs as [Hs Hhd]. constructor; [apply IH, Hs|].
      destruct l as [|z l]; cbn.
      * constructor. apply Htotal, E.
      * destruct (compareFn x z); constructor;
          solve [apply Htotal, E | inversion Hhd; assumption].
Qed.

Lemma Array_sort_Sorted {A : Type} (compareFn : A -> A -> comparison) :
  (forall a b, compareFn a b = Gt -> compareFn b a <> Gt) ->
  forall l, Sorted (fun a b => compareFn a b <> Gt) (Array_sort compareFn l).
Proof.
  intros Htotal l. induction l as [|x l IH]; cbn; [constructor|].
  apply insert_sorted_Sorted; assumption.
Qed.

(** *** The list of bills *)

Lemma getMonthlyBills_In l b :
  In b (getMonthlyBills (Some l)) <-> exists k, grouped l !! k = Some b.
Proof.
  unfold getMonthlyBills, Object_values.
  rewrite <- !list_elem_of_In, Array_sort_Permutation, list_elem_of_fmap.
  split.
  - intros ([k b'] & -> & Hin). apply elem_of_map_to_list in Hin. eauto.
  - intros (k & Hk). exists (k, b). split; [reflexivity|].
    apply elem_of_map_to_list, Hk.
Qed.

Lemma grouped_Some l k b :
  grouped l !! k = Some b ->
  month b = k /\ of_month k l <> [] /\ expected_bill (of_month k l) = Some b.
Proof.
  rewrite grouped_lookup. intros H.
  destruct (of_month k l) as [|c0 members] eqn:E; [discriminate|].
  apply of_month_head in E as [Hk _].
  split; [|split; [discriminate | exact H]].
  injection H as <-. exact Hk.
Qed.

Lemma grouped_months l :
  List.map month (Object_values (grouped l)) = (map_to_list (grouped l)).*1.
Proof.
  unfold Object_values.
  assert (forall kb, kb ∈ map_to_list (grouped l) -> month kb.2 = kb.1) as H.
  { intros [k b] Hin. apply elem_of_map_to_list, grouped_Some in Hin as [H _].
    exact H. }
  induction (map_to_list (grouped l)) as [|kb kbs IH]; [reflexivity|].
  cbn. rewrite (H kb) by left. f_equal. apply IH. intros kb' Hin.
  apply H. right. exact Hin.
Qed.

Lemma getMonthlyBills_NoDup l :
  NoDup (List.map month (getMonthlyBills (Some l))).
Proof.
  unfold getMonthlyBills.
  rewrite (Permutation_map month (Array_sort_Permutation _ _)), grouped_months.
  apply NoDup_fst_map_to_list.
Qed.

Lemma Sorted_strict {A : Type} (compareFn : A -> A -> comparison)
  (key : A -> string) (l : list A) :
  (forall a b, compareFn a b = String.compare (key b) (key a)) ->
  NoDup (List.map key l) ->
  Sorted (fun a b => compareFn a b <> Gt) l ->
  Sorted (fun a b => String.compare (key b) (key a) = Lt) l.
Proof.
  intros Hcmp. induction l as [|a l IH]; intros Hnd Hs; [constructor|].
  cbn in Hnd. apply NoDup_cons in Hnd as [Hnotin Hnd].
  apply Sorted_inv in Hs as [Hs Hhd]. constructor; [auto|].
  destruct l as [|b l]; constructor.
  apply HdRel_inv in Hhd. rewrite Hcmp in Hhd.
  destruct (String.compare (key b) (key a)) eqn:E; [|reflexivity|congruence].
  apply String.compare_eq_iff in E. exfalso. apply Hnotin.
  rewrite <- E. left.
Qed.

Lemma StronglySorted_weaken {A : Type} (R R' : A -> A -> Prop) (l : list A) :
  (forall a b, In a l -> In b l -> R a b -> R' a b) ->
  StronglySorted R l -> StronglySorted R' l.
Proof.
  induction l as [|a l IH]; intros HR Hs; [constructor|].
  apply StronglySorted_inv in Hs as [Hs Hall]. constructor.
  - apply IH; [|exact Hs]. intros. apply HR; auto using in_cons.
  - rewrite List.Forall_forall in *. intros b Hb.
    apply HR; [left; reflexivity | right; exact Hb | apply Hall, Hb].
Qed.

(** Sorting values with different month keys puts them in strictly
    descending order of the keys. *)
Lemma Array_sort_descending (vs : list MonthlyBill) :
  NoDup (List.map month vs) ->
  StronglySorted (fun b1 b2 => String.compare (month b2) (month b1) = Lt)
    (Array_sort (fun a b => localeCompare (month b) (month a)) vs).
Proof.
  intros Hnd. apply Sorted_StronglySorted.
  - intros a b c Hab Hbc. eapply string_compare_lt_trans; eauto.
  - apply (Sorted_strict (fun a b => localeCompare (month b) (month a)) month).
    + reflexivity.
    + rewrite (Permutation_map month (Array_sort_Permutation _ _)). exact Hnd.
    + apply Array_sort_Sorted.
      intros a b Hgt. unfold localeCompare in *.
      rewrite String.compare_antisym, Hgt. discriminate.
Qed.

Lemma grouped_values_NoDup l :
  NoDup (List.map month (Object_values (grouped l))).
Proof. rewrite grouped_months. apply NoDup_fst_map_to_list. Qed.

(** The bills come out in strictly descending order of their month keys. *)
Lemma getMonthlyBills_descending l :
  StronglySorted (fun b1 b2 => String.compare (month b2) (month b1) = Lt)
    (getMonthlyBills (Some l)).
Proof. apply Array_sort_descending, grouped_values_NoDup. Qed.

(** The order in which [Object.values] lists the bills does not matter:
    sorting any enumeration of them gives the same list. *)
Lemma getMonthlyBills_any_order l (vs : list MonthlyBill) :
  Permutation vs (Object_values (grouped l)) ->
  Array_sort (fun a b => localeCompare (month b) (month a)) vs
  = getMonthlyBills (Some l).
Proof.
  intros Hperm.
  assert (NoDup (List.map month vs)) as Hnd
      by (rewrite (Permutation_map month Hperm); apply grouped_values_NoDup).
  apply (StronglySorted_unique_strong
           (fun b1 b2 => String.compare (month b2) (month b1) = Lt)).
  - intros x1 x2 _ _ H12 H21. cbn beta in H12, H21.
    pose proof (String.compare_antisym (month x1) (month x2)) as Hanti.
    rewrite H12 in Hanti. cbn in Hanti. congruence.
  - apply Array_sort_descending, Hnd.
  - apply getMonthlyBills_descending.
  - unfold getMonthlyBills. rewrite !Array_sort_Permutation. exact Hperm.
Qed.

Lemma In_of_month k l c :
  In c (of_month k l) <-> In c l /\ monthKey (createdAt c) = k.
Proof. unfold of_month. rewrite filter_In, String.eqb_eq. reflexivity. Qed.

(** C4. The bills of a list of pending commissions whose creation dates
    have four-digit years. Every commission has a bill with the key of its
    month, and no two bills share a key; two commissions have the same key
    exactly when they were created in the same year and month; a bill's
    totals, count and id list are the float sums, the number and the ids of
    the commissions of its month, in order of arrival, and its entry for an
    affiliate holds the same for that affiliate's commissions of the month;
    a bill precedes only bills of earlier calendar months; and commissions
    of exactly two calendar months give exactly two bills. *)
Theorem getMonthlyBills_groups_by_month (l : list PendingCommission) :
  (forall c, In c l -> valid_date (createdAt c)) ->
  let bills := getMonthlyBills (Some l) in
  (forall c, In c l ->
     exists b, In b bills /\ month b = monthKey (createdAt c)) /\
  NoDup (List.map month bills) /\
  (forall c c', In c l -> In c' l ->
     (monthKey (createdAt c) = monthKey (createdAt c') <->
      getFullYear (createdAt c) = getFullYear (createdAt c') /\
      getMonth (createdAt c) = getMonth (createdAt c'))) /\
  (forall b, In b bills ->
     let members := of_month (month b) l in
     members <> [] /\
     totalCommissions b = total commissionAmount members /\
     totalSales b = total saleAmount members /\
     transactionCount b = Z.of_nat (List.length members) /\
     commissionIds b = List.map id members /\
     forall a,
       affiliates b !! a =
       match of_affiliate a members with
       | [] => None
       | c0 :: _ =>
           Some (mkAffiliateBill (affiliate c0)
                   (total commissionAmount (of_affiliate a members))
                   (total saleAmount (of_affiliate a members))
                   (Z.of_nat (List.length (of_affiliate a members)))
                   (List.map id (of_affiliate a members)))
       end) /\
  StronglySorted (later_bill l) bills /\
  (forall c1 c2, In c1 l -> In c2 l ->
     calendar_month (createdAt c1) <> calendar_month (createdAt c2) ->
     (forall c, In c l ->
        calendar_month (createdAt c) = calendar_month (createdAt c1) \/
        calendar_month (createdAt c) = calendar_month (createdAt c2)) ->
     List.length bills = 2%nat).
Proof.
  intros Hvalid bills.
  assert (forall c, In c l ->
            exists b, In b bills /\ month b = monthKey (createdAt c)) as Hcover.
  { intros c Hc.
    destruct (grouped l !! monthKey (createdAt c)) as [b|] eqn:E.
    - exists b. split; [apply getMonthlyBills_In; eauto|].
      apply grouped_Some in E as [H _]. exact H.
    - rewrite grouped_lookup in E.
      destruct (of_month _ l) as [|c0 members] eqn:Em; [|discriminate].
      assert (In c (of_month (monthKey (createdAt c)) l)) as Hin
          by (apply In_of_month; auto).
      rewrite Em in Hin. destruct Hin. }
  assert (forall c c', In c l -> In c' l ->
            calendar_month (createdAt c) = calendar_month (createdAt c') ->
            monthKey (createdAt c) = monthKey (createdAt c')) as Hsame.
  { intros c c' Hc Hc' Heq. apply String.compare_eq_iff.
    rewrite monthKey_compare by auto. apply Z.compare_eq_iff, Heq. }
  split; [exact Hcover|]. split; [apply getMonthlyBills_NoDup|].
  split; [intros; apply monthKey_same_month; auto|].
  split; [|split].
  - intros b Hb members. apply getMonthlyBills_In in Hb as (k & Hk).
    apply grouped_Some in Hk as (Hmonth & Hne & Hexp).
    subst members. rewrite Hmonth.
    split; [exact Hne|].
    destruct (of_month k l) as [|c0 members] eqn:E; [congruence|].
    injection Hexp as <-. cbn [totalCommissions totalSales transactionCount
                                 commissionIds affiliates].
    repeat split. intros a.
    change (List.fold_left affiliate_step members (affiliate_step ∅ c0))
      with (List.fold_left affiliate_step (c0 :: members) ∅).
    rewrite affiliates_lookup. reflexivity.
  - eapply StronglySorted_weaken; [|apply getMonthlyBills_descending].
    intros b1 b2 _ _ Hlt c1 c2 Hc1 Hc2 Hk1 Hk2.
    cbn beta in Hlt.
    rewrite <- Hk1, <- Hk2, monthKey_compare in Hlt by auto.
    apply Z.compare_lt_iff, Hlt.
  - intros c1 c2 Hc1 Hc2 Hne Hall.
    assert (monthKey (createdAt c1) <> monthKey (createdAt c2)) as Hkne.
    { intros Hk. apply Hne. apply monthKey_same_month in Hk as [Hy Hm]; auto.
      unfold calendar_month. rewrite Hy, Hm. reflexivity. }
    rewrite <- (length_map month).
    apply (Permutation_length (l' := [monthKey (createdAt c1);
                                      monthKey (createdAt c2)])).
    apply NoDup_Permutation.
    + apply getMonthlyBills_NoDup.
    + apply NoDup_cons. split; [|apply NoDup_singleton].
      intros Hin. apply list_elem_of_singleton in Hin. contradiction.
    + intros k. rewrite list_elem_of_fmap. split.
      * intros (b & -> & Hb). apply list_elem_of_In, getMonthlyBills_In in Hb
          as (k & Hk).
        apply grouped_Some in Hk as (-> & Hm & _).
        destruct (of_month k l) as [|c members] eqn:E; [congruence|].
        apply of_month_head in E as [<- Hc].
        destruct (Hall c Hc) as [H|H]; apply Hsame in H; auto; rewrite H;
          set_solver.
      * intros Hk.
        assert (exists c, In c l /\ k = monthKey (createdAt c)) as (c & Hc & ->)
            by (apply elem_of_cons in Hk as [->|Hk];
                [|apply list_elem_of_singleton in Hk]; eauto).
        destruct (Hcover c Hc) as (b & Hb & Hm).
        exists b. split; [auto | apply list_elem_of_In, Hb].
Qed.

End MonthlyBills.

(** The sample: July before June, one transaction and two. *)
Example pending_sample_bills :
  List.map (fun b => (AffiliateAdmin.month b, AffiliateAdmin.monthName b,
                      AffiliateAdmin.transactionCount b,
                      AffiliateAdmin.commissionIds b))
    (AffiliateAdmin.getMonthlyBills (Some pending_sample)) =
  [ ("2025-07", "July 2025", 1, ["commission_3"]);
    ("2025-06", "June 2025", 2, ["commission_2"; "commission_1"]) ].
Proof. vm_compute. reflexivity. Qed.

Lemma getMonthlyBills_groups_by_month_witness :
  (forall c, In c pending_sample -> valid_date (AffiliateAdmin.createdAt c)) /\
  let bills := AffiliateAdmin.getMonthlyBills (Some pending_sample) in
  (forall c, In c pending_sample ->
     exists b, In b bills /\
               AffiliateAdmin.month b = monthKey (AffiliateAdmin.createdAt c)) /\
  NoDup (List.map AffiliateAdmin.month bills) /\
  (forall c c', In c pending_sample -> In c' pending_sample ->
     (monthKey (AffiliateAdmin.createdAt c)
      = monthKey (AffiliateAdmin.createdAt c') <->
      getFullYear (AffiliateAdmin.createdAt c)
      = getFullYear (AffiliateAdmin.createdAt c') /\
      getMonth (AffiliateAdmin.createdAt c)
      = getMonth (AffiliateAdmin.createdAt c'))) /\
  (forall b, In b bills ->
     let members := of_month (AffiliateAdmin.month b) pending_sample in
     members <> [] /\
     AffiliateAdmin.totalCommissions b
     = total AffiliateAdmin.commissionAmount members /\
     AffiliateAdmin.totalSales b = total AffiliateAdmin.saleAmount members /\
     AffiliateAdmin.transactionCount b = Z.of_nat (List.length members) /\
     AffiliateAdmin.commissionIds b = List.map AffiliateAdmin.id members /\
     forall a,
       AffiliateAdmin.affiliates b !! a =
       match of_affiliate a members with
       | [] => None
       | c0 :: _ =>
           Some (AffiliateAdmin.mkAffiliateBill (AffiliateAdmin.affiliate c0)
                   (total AffiliateAdmin.commissionAmount
                      (of_affiliate a members))
                   (total AffiliateAdmin.saleAmount (of_affiliate a members))
                   (Z.of_nat (List.length (of_affiliate a members)))
                   (List.map AffiliateAdmin.id (of_affiliate a members)))
       end) /\
  StronglySorted (later_bill pending_sample) bills /\
  (forall c1 c2, In c1 pending_sample -> In c2 pending_sample ->
     calendar_month (AffiliateAdmin.createdAt c1)
     <> calendar_month (AffiliateAdmin.createdAt c2) ->
     (forall c, In c pending_sample ->
        calendar_month (AffiliateAdmin.createdAt c)
        = calendar_month (AffiliateAdmin.createdAt c1) \/
        calendar_month (AffiliateAdmin.createdAt c)
        = calendar_month (AffiliateAdmin.createdAt c2)) ->
     List.length bills = 2%nat).
Proof.
  assert (forall c, In c pending_sample ->
            valid_date (AffiliateAdmin.createdAt c)) as Hvalid.
  { intros c [<-|[<-|[<-|[]]]]; unfold valid_date; cbn; lia. }
  split; [exact Hvalid|].
  apply (getMonthlyBills_groups_by_month pending_sample Hvalid).
Defined.

(** * Properties beyond the specification *)

(** ** Look-ups after an insert or an update *)

Lemma find_app_none {A : Type} (p : A -> bool) (l l' : list A) :
  List.find p l = None -> List.find p (l ++ l') = List.find p l'.
Proof.
  induction l as [|a l IH]; cbn; [reflexivity|].
  destruct (p a); [discriminate | exact IH].
Qed.

Lemma find_app_Some {A : Type} (p : A -> bool) (l l' : list A) (a : A) :
  List.find p l = Some a -> List.find p (l ++ l') = Some a.
Proof.
  induction l as [|x l IH]; cbn; [discriminate|].
  destruct (p x); [auto | exact IH].
Qed.

Lemma existsb_false_find {A : Type} (p : A -> bool) (l : list A) :
  existsb p l = false -> List.find p l = None.
Proof.
  induction l as [|a l IH]; cbn; [reflexivity|].
  destruct (p a); [discriminate | exact IH].
Qed.

Lemma existsb_true_find {A : Type} (p : A -> bool) (l : list A) :
  existsb p l = true -> exists a, List.find p l = Some a.
Proof.
  induction l as [|a l IH]; cbn; [discriminate|].
  destruct (p a); [eauto | exact IH].
Qed.

Lemma truthy_Some (o : option string) :
  truthy o = true -> exists s, o = Some s /\ s <> "" /\ default "" o = s.
Proof.
  destruct o as [[|c s]|]; cbn; try discriminate.
  intros _. exists (String c s). repeat split. discriminate.
Qed.

(** What a successful registration stored. *)
Lemma post_register_json db body code now random db' user :
  Auth.post_register db body code now random = (db', json user) ->
  exists e,
    Auth.email body = Some e /\ e <> "" /\ User.email user = e /\
    Storage.getUserByEmail db e = None /\
    User.id user = Auth.new_user_id now random /\
    User.credits user = Some 0 /\
    User.referredBy user = Auth.resolve_referral db code /\
    Storage.getUser db (User.id user) = None /\
    db' = Storage.with_users db (users db ++ [user]).
Proof.
  unfold Auth.post_register. intros H.
  destruct (truthy (Auth.email body)) eqn:Ee; [|discriminate].
  destruct (negb true || _ || _); [discriminate|].
  apply truthy_Some in Ee as (e & He & Hne & Hd). rewrite Hd in H.
  destruct (Storage.getUserByEmail db e) eqn:Eemail; [discriminate|].
  destruct (Storage.createUser _ _) as [[db1 u]|ex] eqn:Ec; [|discriminate].
  injection H as -> ->.
  unfold Storage.createUser in Ec. inv_stmt Ec. injection Ec as <- <-.
  exists e. cbn. repeat split; auto.
  unfold Storage.getUser. apply existsb_false_find.
  apply negb_true_iff in Hc. exact Hc.
Qed.



(** ** From an affiliate link to the referrer of a new user *)

(** X2. When the click on an affiliate link was recorded, the code kept in
    the session is the one of the link, and a registration that succeeds in
    that session stores as the new user's referrer the user who holds the
    code, who is somebody else. *)
Theorem ref_click_then_register db c ip ua ref newId now db1 sess resp
  body now' random db2 user :
  c <> "" ->
  Routes.get_ref db c ip ua ref newId now = (db1, Some sess, resp) ->
  Auth.post_register db1 body (Some sess) now' random = (db2, json user) ->
  sess = c /\
  exists a, Storage.getUserByAffiliateCode db c = Some a /\
            User.referredBy user = Some (User.id a) /\
            User.id a <> User.id user /\
            In a (users db2).
Proof.
  intros Hc Href Hreg. unfold Routes.get_ref in Href.
  destruct (Storage.trackAffiliateClick _ _ _ _ _ _ _) as [[d click]|e] eqn:E;
    [|discriminate].
  injection Href as <- <- _. split; [reflexivity|].
  unfold Storage.trackAffiliateClick in E. inv_stmt E. injection E as <- _.
  apply existsb_true_find in Hc1 as [a Ha].
  apply post_register_json in Hreg
    as (e & _ & _ & _ & _ & _ & _ & Hr & Hid & ->).
  unfold Auth.resolve_referral in Hr.
  destruct c as [|ch c]; [congruence|]. cbn [truthy from_option id] in Hr.
  unfold Storage.getUserByAffiliateCode in *. cbn [users] in Hr.
  rewrite Ha in Hr. exists a. split; [exact Ha|]. split; [exact Hr|].
  apply find_some in Ha as [Hin _]. split.
  - intros Heq. unfold Storage.getUser in Hid. cbn [users] in Hid.
    eapply find_none in Hid; [|exact Hin]. cbn beta in Hid.
    rewrite Heq, String.eqb_refl in Hid. discriminate.
  - cbn. apply in_or_app. left. exact Hin.
Qed.

Lemma ref_click_then_register_witness :
  "AB12CD" <> "" /\
  Routes.get_ref db_affiliates "AB12CD" (Some "203.0.113.7")
    (Some "Mozilla/5.0") None "click_1" june_2025
  = (db_clicked, Some "AB12CD", redirect "/") /\
  Auth.post_register db_clicked dave_body (Some "AB12CD") july_2025 "d4ve"
  = (db_dave, json dave_registered) /\
  "AB12CD" = "AB12CD" /\
  exists a, Storage.getUserByAffiliateCode db_affiliates "AB12CD" = Some a /\
            User.referredBy dave_registered = Some (User.id a) /\
            User.id a <> User.id dave_registered /\
            In a (users db_dave).
Proof.
  split; [discriminate|]. split; [reflexivity|]. split; [reflexivity|].
  apply (ref_click_then_register db_affiliates "AB12CD" (Some "203.0.113.7")
           (Some "Mozilla/5.0") None "click_1" june_2025 db_clicked "AB12CD"
           (redirect "/") dave_body july_2025 "d4ve" db_dave dave_registered);
    [discriminate | reflexivity | reflexivity].
Defined.

(** ** Credits granted by hand *)








(** ** Purchase records across checkout and webhook *)

Lemma createCreditPurchase_purchases db purchase db' p :
  Storage.createCreditPurchase db purchase = Returned (db', p) ->
  creditPurchases db' = (creditPurchases db ++ [purchase])%list.
Proof. intros H. apply createCreditPurchase_effect in H. tauto. Qed.

(** The completion branch changes the purchases table by at most one new
    row, which has the session's id and the status 'completed'. *)
Lemma checkout_purchases db session newId now :
  let db' := Routes.checkout_session_completed db session newId now in
  creditPurchases db' = creditPurchases db \/
  exists q, creditPurchases db' = (creditPurchases db ++ [q])%list /\
            CreditPurchase.id q = Routes.s_id session /\
            CreditPurchase.status q = Some "completed".
Proof.
  cbn zeta. unfold Routes.checkout_session_completed.
  destruct (Routes.s_metadata session) as [md|]; [|auto].
  destruct (negb _ || negb _); [auto|].
  destruct (Storage.getUser db _) as [existingUser|]; [|auto].
  destruct (Routes.insert_integer _) as [n|e]; cbn; [|auto].
  destruct (Storage.addCredits db _ n now) as [[db1 updatedUser]|e] eqn:Hadd;
    [|auto].
  apply addCredits_effect in Hadd as (_ & _ & Hp & _). rewrite <- Hp.
  unfold Routes.record_purchase.
  set (db2 := match _ ≫= _ with Returned (d, _) => d | Thrown _ => db1 end).
  assert (creditPurchases db2 = creditPurchases db1 \/
          exists q, creditPurchases db2 = (creditPurchases db1 ++ [q])%list /\
                    CreditPurchase.id q = Routes.s_id session /\
                    CreditPurchase.status q = Some "completed") as H2.
  { subst db2. destruct (_ ≫= _) as [[d p]|e] eqn:E; [|auto].
    inv_stmt E. apply createCreditPurchase_purchases in E. right.
    eexists. split; [exact E|]. split; reflexivity. }
  clearbody db2.
  destruct updatedUser as [u|]; [|exact H2].
  destruct (truthy (User.referredBy u)); [|exact H2].
  destruct (_ ≫= _) as [[db3 c]|e] eqn:E; [|exact H2].
  inv_stmt E. unfold Storage.createAffiliateCommission in E. inv_stmt E.
  injection E as <- _. exact H2.
Qed.

(** X5. The purchase record that [POST /api/create-checkout-session] stores
    is keyed by a generated id and carries Stripe's session id in another
    column.  The completion event never touches it: whatever session the
    webhook is told about, that row stays 'pending', and what the webhook
    adds, if anything, is one further row, keyed by the session id and
    'completed'. *)
Theorem checkout_leaves_purchase_pending db userId packageId sid newId db1 body
  session newId' now :
  Routes.post_create_checkout_session db true userId packageId (Some sid) newId
  = (db1, json body) ->
  let db2 := Routes.checkout_session_completed db1 session newId' now in
  exists p,
    creditPurchases db1 = (creditPurchases db ++ [p])%list /\
    CreditPurchase.id p = newId /\
    CreditPurchase.userId p = userId /\
    CreditPurchase.stripePaymentIntentId p = Some sid /\
    CreditPurchase.status p = Some "pending" /\
    (creditPurchases db2 = creditPurchases db1 \/
     exists q, creditPurchases db2 = (creditPurchases db1 ++ [q])%list /\
               CreditPurchase.id q = Routes.s_id session /\
               CreditPurchase.status q = Some "completed").
Proof.
  unfold Routes.post_create_checkout_session. cbn [negb].
  destruct (Routes.lookup_package _ _) as [packageInfo|]; [|discriminate].
  destruct (Storage.getUser db userId); [|discriminate].
  destruct (_ ≫= _) as [[d p]|e] eqn:E; [|discriminate].
  intros [= <- _]. inv_stmt E. apply createCreditPurchase_purchases in E.
  cbn zeta. eexists. split; [exact E|]. cbn.
  repeat split. apply checkout_purchases.
Qed.

(** X6. The same on the older route: the record that
    [POST /api/create-payment-intent] stores is not the one
    [payment_intent.succeeded] marks completed, which it looks up by the
    intent's id in the primary-key column.  After the event the record is
    still there and still 'pending'. *)
Theorem payment_intent_leaves_purchase_pending db userId packageId pid newId
  db1 body paymentIntent now :
  Routes.post_create_payment_intent db true userId packageId (Some pid) newId
  = (db1, json body) ->
  Routes.pi_id paymentIntent <> newId ->
  exists p,
    creditPurchases db1 = (creditPurchases db ++ [p])%list /\
    CreditPurchase.id p = newId /\
    CreditPurchase.stripePaymentIntentId p = Some pid /\
    CreditPurchase.status p = Some "pending" /\
    In p (creditPurchases
            (Routes.payment_intent_succeeded db1 paymentIntent now)).
Proof.
  unfold Routes.post_create_payment_intent. cbn [negb].
  destruct (Routes.lookup_package _ _) as [packageInfo|]; [|discriminate].
  destruct (_ ≫= _) as [[d p]|e] eqn:E; [|discriminate].
  intros [= <- _] Hne. inv_stmt E. apply createCreditPurchase_purchases in E.
  eexists. split; [exact E|]. cbn [CreditPurchase.id
    CreditPurchase.stripePaymentIntentId CreditPurchase.status].
  repeat split.
  set (p0 := CreditPurchase.mk _ _ _ _ _ _) in *.
  assert (In p0 (creditPurchases
                   (fst (Storage.updateCreditPurchaseStatus d
                           (Routes.pi_id paymentIntent) "completed")))) as Hin.
  { cbn. rewrite E. apply in_map_iff. exists p0. split.
    - subst p0. cbn. destruct (String.eqb_spec newId (Routes.pi_id paymentIntent));
        [congruence | reflexivity].
    - apply in_or_app. right. left. reflexivity. }
  unfold Routes.payment_intent_succeeded.
  destruct (Routes.pi_userId paymentIntent) as [uid|]; [|exact Hin].
  destruct (Routes.pi_credits paymentIntent) as [cr|]; [|exact Hin].
  destruct (_ ≫= _) as [[db2 u]|e] eqn:Ea; [|exact Hin].
  inv_stmt Ea. apply addCredits_effect in Ea as (_ & _ & -> & _). exact Hin.
Qed.

Lemma checkout_leaves_purchase_pending_witness :
  Routes.post_create_checkout_session db_alice true "user_1_a" "10000"
    (Some "cs_test_9") "purchase_1"
  = (db_checkout, json "cs_test_9") /\
  let db2 := Routes.checkout_session_completed db_checkout alice_session
               "commission_9" july_2025 in
  exists p,
    creditPurchases db_checkout = (creditPurchases db_alice ++ [p])%list /\
    CreditPurchase.id p = "purchase_1" /\
    CreditPurchase.userId p = "user_1_a" /\
    CreditPurchase.stripePaymentIntentId p = Some "cs_test_9" /\
    CreditPurchase.status p = Some "pending" /\
    (creditPurchases db2 = creditPurchases db_checkout \/
     exists q, creditPurchases db2 = (creditPurchases db_checkout ++ [q])%list /\
               CreditPurchase.id q = Routes.s_id alice_session /\
               CreditPurchase.status q = Some "completed").
Proof.
  split; [reflexivity|].
  apply (checkout_leaves_purchase_pending db_alice "user_1_a" "10000"
           "cs_test_9" "purchase_1" db_checkout "cs_test_9" alice_session
           "commission_9" july_2025).
  reflexivity.
Defined.

Lemma payment_intent_leaves_purchase_pending_witness :
  Routes.post_create_payment_intent db_alice true "user_1_a" "10000"
    (Some "pi_test_9") "purchase_1"
  = (db_intent, json "pi_test_9") /\
  Routes.pi_id alice_intent <> "purchase_1" /\
  exists p,
    creditPurchases db_intent = (creditPurchases db_alice ++ [p])%list /\
    CreditPurchase.id p = "purchase_1" /\
    CreditPurchase.stripePaymentIntentId p = Some "pi_test_9" /\
    CreditPurchase.status p = Some "pending" /\
    In p (creditPurchases
            (Routes.payment_intent_succeeded db_intent alice_intent july_2025)).
Proof.
  split; [reflexivity|]. split; [discriminate|].
  apply (payment_intent_leaves_purchase_pending db_alice "user_1_a" "10000"
           "pi_test_9" "purchase_1" db_intent "pi_test_9" alice_intent
           july_2025); [reflexivity | discriminate].
Defined.

(** Alice's payment through the checkout window, start to end: she has her
    10,000 credits, and her purchase history holds the checkout's record,
    still pending, beside the webhook's completed one. *)
Example checkout_then_completed :
  let db2 := Routes.checkout_session_completed db_checkout alice_session
               "commission_9" july_2025 in
  List.map User.credits (users db2) = [Some 15000] /\
  List.map (fun p => (CreditPurchase.id p, CreditPurchase.status p))
    (creditPurchases db2)
  = [("purchase_1", Some "pending"); ("cs_test_9", Some "completed")].
Proof. vm_compute. auto. Qed.

(** ** Orders as their owner sees them *)

Lemma insert_row_Permutation {A : Type} (before : A -> A -> bool) (x : A)
  (l : list A) :
  Permutation (insert_row before x l) (x :: l).
Proof.
  induction l as [|y l IH]; cbn; [reflexivity|].
  destruct (before x y); [reflexivity|].
  rewrite IH. apply perm_swap.
Qed.

Lemma orderBy_Permutation {A : Type} (before : A -> A -> bool) (l : list A) :
  Permutation (orderBy before l) l.
Proof.
  unfold orderBy. induction l as [|x l IH]; cbn; [reflexivity|].
  rewrite insert_row_Permutation, IH. reflexivity.
Qed.

Lemma orderBy_desc_In {A : Type} (col : A -> option Date) (l : list A) (x : A) :
  In x (orderBy_desc col l) <-> In x l.
Proof.
  unfold orderBy_desc. split; apply Permutation_in;
    [|symmetry]; apply orderBy_Permutation.
Qed.

(** X7. An order that [POST /api/orders] has answered with is there for its
    owner at once: [GET /api/orders/:id] returns it and [GET /api/orders]
    lists it.  For any other user the same id is answered 404 and the order
    is not in their list. *)
Theorem post_orders_then_listed db orderData newId now db' order :
  Routes.post_orders db orderData newId now = (db', json order) ->
  order = Routes.order_row orderData newId now /\
  Routes.get_order db' (Routes.userId orderData) newId = json order /\
  In order (Storage.getUserOrders db' (Routes.userId orderData)) /\
  forall other,
    other <> Routes.userId orderData ->
    Routes.get_order db' other newId = status_json 404 "Order not found" /\
    ~ In order (Storage.getUserOrders db' other).
Proof.
  unfold Routes.post_orders.
  destruct (Storage.getUser db _) as [user|]; [|discriminate].
  destruct (_ <? _); [discriminate|].
  destruct (Storage.deductCredits _ _ _ _) as [[db1 r]|e]; [|discriminate].
  destruct (Storage.createOrder _ _) as [[db2 o]|e] eqn:Ec; [|discriminate].
  intros [= <- <-].
  unfold Storage.createOrder in Ec. inv_stmt Ec. injection Ec as <- <-.
  apply negb_true_iff, existsb_false_find in Hc.
  assert (Storage.getOrderById
            (mkDB (users db1) (creditPurchases db1)
               (orders db1 ++ [Routes.order_row orderData newId now])
               (affiliateClicks db1) (affiliateCommissions db1)) newId
          = Some (Routes.order_row orderData newId now)) as Hget.
  { unfold Storage.getOrderById. cbn [orders].
    rewrite find_app_none by exact Hc. cbn. rewrite String.eqb_refl.
    reflexivity. }
  split; [reflexivity|]. split; [|split].
  - unfold Routes.get_order. rewrite Hget. cbn. rewrite String.eqb_refl.
    reflexivity.
  - unfold Storage.getUserOrders. apply orderBy_desc_In, filter_In.
    cbn. rewrite String.eqb_refl. split; [|reflexivity].
    apply in_or_app. right. left. reflexivity.
  - intros other Hne. split.
    + unfold Routes.get_order. rewrite Hget. cbn.
      destruct (String.eqb_spec (Routes.userId orderData) other);
        [congruence | reflexivity].
    + unfold Storage.getUserOrders. rewrite orderBy_desc_In, filter_In.
      cbn. intros [_ Heq]. apply String.eqb_eq in Heq. congruence.
Qed.

Lemma post_orders_then_listed_witness :
  Routes.post_orders db_alice (order_for 3000) "order_1" june_2025
  = (mkDB [User.mk "user_1_a" "alice@example.com" "Alice" (Some "")
             (Some 2000) None None None (Some june_2025)]
       [] [Routes.order_row (order_for 3000) "order_1" june_2025] [] [],
     json (Routes.order_row (order_for 3000) "order_1" june_2025)) /\
  Routes.get_order
    (fst (Routes.post_orders db_alice (order_for 3000) "order_1" june_2025))
    "user_1_a" "order_1"
  = json (Routes.order_row (order_for 3000) "order_1" june_2025).
Proof.
  split; [reflexivity|].
  assert (Routes.post_orders db_alice (order_for 3000) "order_1" june_2025
          = (fst (Routes.post_orders db_alice (order_for 3000) "order_1"
                    june_2025),
             json (Routes.order_row (order_for 3000) "order_1" june_2025)))
    as H by reflexivity.
  destruct (post_orders_then_listed _ _ _ _ _ _ H) as (_ & Hget & _).
  exact Hget.
Defined.

(** X8. A fulfilment that is answered with the order shows on the customer's
    side: [GET /api/orders/:id] returns the order as delivered, with status
    'completed', the delivery URL of the request and the time of the
    fulfilment.  The users table, and with it every balance, is untouched. *)
Theorem put_fulfill_then_get_order db orderId body now db' o :
  Routes.put_fulfill db orderId body now = (db', json o) ->
  Routes.get_order db' (Order.userId o) orderId = json o /\
  In o (Storage.getUserOrders db' (Order.userId o)) /\
  Order.status o = Some "completed" /\
  Routes.b_csvUrl body = Str (default "" (Order.csvUrl o)) /\
  Order.completedAt o = Some now /\
  users db' = users db.
Proof.
  unfold Routes.put_fulfill.
  destruct (Routes.b_csvUrl body) as [| |[|ch url]]; try discriminate.
  unfold Storage.fulfillOrder. cbn zeta.
  destruct (List.find _ _) as [o'|] eqn:Ef; [|discriminate].
  intros [= <- <-].
  pose proof Ef as Ef'.
  rewrite (find_update_same Order.id) in Ef' by reflexivity.
  destruct (List.find _ (orders db)) as [o0|]; [|discriminate].
  injection Ef' as <-.
  split; [|split].
  - unfold Routes.get_order, Storage.getOrderById. cbn [orders].
    rewrite Ef. cbn. rewrite String.eqb_refl. reflexivity.
  - unfold Storage.getUserOrders. apply orderBy_desc_In, filter_In.
    cbn [orders]. apply find_some in Ef as [Hin _].
    split; [exact Hin|]. cbn. apply String.eqb_refl.
  - cbn. auto.
Qed.

Lemma put_fulfill_then_get_order_witness :
  Routes.put_fulfill db_delivered "order_1"
    (Routes.mkFulfillBody (Str "google_sheets")
       (Str "https://files.example/b.csv") (Str "second delivery")) july_2025
  = (mkDB [alice] []
       [Order.mk "order_1" "user_1_a" "https://app.apollo.io/#/people" 3000
          None "alice@example.com" (Some "completed")
          (Some "https://files.example/b.csv") (Some "google_sheets")
          (Some "second delivery") None None (Some june_2025)
          (Some july_2025)] [] [],
     json (Order.mk "order_1" "user_1_a" "https://app.apollo.io/#/people" 3000
             None "alice@example.com" (Some "completed")
             (Some "https://files.example/b.csv") (Some "google_sheets")
             (Some "second delivery") None None (Some june_2025)
             (Some july_2025))) /\
  Routes.get_order
    (fst (Routes.put_fulfill db_delivered "order_1"
            (Routes.mkFulfillBody (Str "google_sheets")
               (Str "https://files.example/b.csv") (Str "second delivery"))
            july_2025))
    "user_1_a" "order_1"
  = json (Order.mk "order_1" "user_1_a" "https://app.apollo.io/#/people" 3000
            None "alice@example.com" (Some "completed")
            (Some "https://files.example/b.csv") (Some "google_sheets")
            (Some "second delivery") None None (Some june_2025)
            (Some july_2025)).
Proof.
  split; [reflexivity|].
  set (body := Routes.mkFulfillBody (Str "google_sheets")
                 (Str "https://files.example/b.csv") (Str "second delivery")).
  set (o := Order.mk _ _ _ _ _ _ _ _ _ _ _ _ _ _).
  assert (Routes.put_fulfill db_delivered "order_1" body july_2025
          = (fst (Routes.put_fulfill db_delivered "order_1" body july_2025),
             json o)) as H by reflexivity.
  destruct (put_fulfill_then_get_order _ _ _ _ _ _ H) as (Hget & _).
  exact Hget.
Defined.

(** ** Affiliate codes *)

Lemma find_code_after_update (code : string) (now : Date) (userId : string)
  (us : list User.t) :
  (forall a, In a us -> String.eqb (User.id a) userId = false ->
             eq_opt (User.affiliateCode a) code = false) ->
  List.find (fun u => eq_opt (User.affiliateCode u) code)
    (List.map (fun u => if String.eqb (User.id u) userId
                        then Storage.set_affiliateCode code now u else u) us)
  = option_map (Storage.set_affiliateCode code now)
      (List.find (fun u => String.eqb (User.id u) userId) us).
Proof.
  induction us as [|a us IH]; intros Hothers; [reflexivity|]. cbn.
  destruct (String.eqb (User.id a) userId) eqn:E.
  - cbn. rewrite String.eqb_refl. reflexivity.
  - rewrite (Hothers a) by (auto; left; reflexivity).
    apply IH. intros b Hb. apply Hothers. right. exact Hb.
Qed.

(** X9. A freshly drawn affiliate code resolves to the user it was drawn
    for: [generateAffiliateCode] returns that user with the code set, and
    [getUserByAffiliateCode] finds the same row under the code.  The user's
    balance and referrer are as before. *)
Theorem generateAffiliateCode_then_lookup db userId code now db' r u :
  Storage.getUser db userId = Some u ->
  Storage.generateAffiliateCode db userId code now = Returned (db', r) ->
  r = Some (Storage.set_affiliateCode code now u) /\
  Storage.getUserByAffiliateCode db' code
  = Some (Storage.set_affiliateCode code now u) /\
  Storage.getUser db' userId = Some (Storage.set_affiliateCode code now u) /\
  User.affiliateCode (Storage.set_affiliateCode code now u) = Some code /\
  User.credits (Storage.set_affiliateCode code now u) = User.credits u /\
  User.referredBy (Storage.set_affiliateCode code now u) = User.referredBy u.
Proof.
  unfold Storage.getUser, Storage.generateAffiliateCode. intros Hu H.
  inv_stmt H. injection H as <- <-. clear Hc0.
  assert (existsb (fun u0 => String.eqb (User.id u0) userId) (users db) = true)
    as Hex.
  { apply existsb_exists. exists u. apply find_some in Hu. exact Hu. }
  rewrite Hex in Hc. cbn [negb] in Hc. rewrite orb_false_r in Hc.
  apply negb_true_iff in Hc.
  assert (List.find (fun u0 => String.eqb (User.id u0) userId)
            (List.map (fun u0 => if String.eqb (User.id u0) userId
                                 then Storage.set_affiliateCode code now u0
                                 else u0) (users db))
          = Some (Storage.set_affiliateCode code now u)) as Hfind.
  { rewrite (find_update_same User.id) by reflexivity. rewrite Hu. reflexivity. }
  split; [exact Hfind|]. split; [|split; [exact Hfind | cbn; auto]].
  unfold Storage.getUserByAffiliateCode. cbn [users Storage.with_users].
  rewrite find_code_after_update; [rewrite Hu; reflexivity|].
  intros a Ha Hid.
  destruct (eq_opt (User.affiliateCode a) code) eqn:Ecode; [|reflexivity].
  exfalso. apply not_true_iff_false in Hc. apply Hc, existsb_exists.
  exists a. rewrite Hid, Ecode. auto.
Qed.

Lemma generateAffiliateCode_then_lookup_witness :
  Storage.getUser db_bob "user_1750000000000_b0b" = Some bob_registered /\
  Storage.generateAffiliateCode db_bob "user_1750000000000_b0b" "AB12CD"
    july_2025
  = Returned
      (mkDB [Storage.set_affiliateCode "AB12CD" july_2025 bob_registered]
         [] [] [] [],
       Some (Storage.set_affiliateCode "AB12CD" july_2025 bob_registered)) /\
  Storage.getUserByAffiliateCode
    (mkDB [Storage.set_affiliateCode "AB12CD" july_2025 bob_registered]
       [] [] [] []) "AB12CD"
  = Some (Storage.set_affiliateCode "AB12CD" july_2025 bob_registered).
Proof.
  split; [reflexivity|]. split; [reflexivity|].
  destruct (generateAffiliateCode_then_lookup db_bob "user_1750000000000_b0b"
              "AB12CD" july_2025
              (mkDB [Storage.set_affiliateCode "AB12CD" july_2025
                       bob_registered] [] [] [] [])
              (Some (Storage.set_affiliateCode "AB12CD" july_2025
                       bob_registered))
              bob_registered eq_refl eq_refl) as (_ & Hcode & _).
  exact Hcode.
Defined.

(** ** Users in the reachable databases *)

(** Only a registration adds a user; every other request updates rows in
    place. *)
Lemma handle_keeps_users db r :
  match r with
  | Register _ _ _ _ => True
  | _ => Forall2 same_identity (users db) (users (handle db r))
  end.
Proof.
  pose proof (Forall2_same_identity_refl (users db)) as Hrefl.
  destruct r; cbn [handle]; [exact I|..].
  - (* GenerateCode *)
    unfold Routes.post_generate_code.
    destruct (Storage.generateAffiliateCode _ _ _ _) as [[db1 [u|]]|e] eqn:E;
      cbn [fst]; auto;
      apply generateAffiliateCode_effect in E as (Hu & _); exact Hu.
  - (* RefClick *)
    unfold Routes.get_ref.
    destruct (Storage.trackAffiliateClick _ _ _ _ _ _ _) as [[db1 c]|e] eqn:E;
      cbn [fst]; [|auto].
    unfold Storage.trackAffiliateClick in E. inv_stmt E. injection E as <- _.
    exact Hrefl.
  - (* CreateCheckoutSession *)
    unfold Routes.post_create_checkout_session.
    destruct (negb stripe); [auto|].
    destruct (Routes.lookup_package _ _) as [packageInfo|]; [|auto].
    destruct (Storage.getUser _ _); [|auto].
    destruct session_id as [session_id|]; [|auto].
    destruct (_ ≫= _) as [[db1 p]|e] eqn:E; cbn [fst]; [|auto].
    inv_stmt E. apply createCreditPurchase_effect in E as (-> & _). exact Hrefl.
  - (* CreatePaymentIntent *)
    unfold Routes.post_create_payment_intent.
    destruct (negb stripe); [auto|].
    destruct (Routes.lookup_package _ _) as [packageInfo|]; [|auto].
    destruct paymentIntent_id as [paymentIntent_id|]; [|auto].
    destruct (_ ≫= _) as [[db1 p]|e] eqn:E; cbn [fst]; [|auto].
    inv_stmt E. apply createCreditPurchase_effect in E as (-> & _). exact Hrefl.
  - (* PaymentIntentSucceeded *)
    unfold Routes.payment_intent_succeeded.
    destruct (Routes.pi_userId paymentIntent) as [userId|]; [|exact Hrefl].
    destruct (Routes.pi_credits paymentIntent) as [credits|]; [|exact Hrefl].
    destruct (_ ≫= _) as [[db2 u]|e] eqn:E; [|exact Hrefl].
    inv_stmt E. apply addCredits_effect in E as (H2 & _). exact H2.
  - (* CheckoutCompleted *)
    destruct (checkout_effect db session newId now)
      as [->|(userId & n & db1 & updatedUser & Hadd & Hu & _)]; [auto|].
    apply addCredits_effect in Hadd as (H2 & _). rewrite Hu. exact H2.
  - (* AddCredits *)
    unfold Routes.post_add_credits. destruct credits as [n|]; [|auto].
    destruct (n <=? 0); [auto|].
    destruct (Storage.addCredits _ _ _ _) as [[db1 u]|e] eqn:E; cbn [fst];
      [|auto].
    apply addCredits_effect in E as (H2 & _). exact H2.
  - (* AssignCredits *)
    unfold Routes.post_assign_credits. destruct credits as [n|]; [|auto].
    destruct (negb _ || _); [auto|].
    destruct (Storage.getUserByEmail _ _) as [user|]; [|auto].
    destruct (Storage.addCredits _ _ _ _) as [[db1 u]|e] eqn:E; cbn [fst];
      [|auto].
    apply addCredits_effect in E as (H2 & _). exact H2.
  - (* UpdatePaypal *)
    unfold Routes.post_update_paypal. destruct (truthy paypalEmail); [|auto].
    assert (Forall2 same_identity (users db)
              (users (fst (Storage.updatePaypalEmail db userId
                             (default "" paypalEmail) now)))) as H2.
    { cbn. apply map_Forall2. intros a.
      destruct (String.eqb (User.id a) userId); [|apply same_identity_refl].
      unfold same_identity. cbn. auto. }
    destruct (Storage.updatePaypalEmail _ _ _ _) as [db1 [u|]];
      cbn [fst] in *; exact H2.
  - (* PostOrder *)
    unfold Routes.post_orders.
    destruct (Storage.getUser _ _); [|auto].
    destruct (_ <? _); [auto|].
    destruct (Storage.deductCredits _ _ _ _) as [[db1 u]|e] eqn:E; [|auto].
    apply deductCredits_effect in E as (H2 & _).
    destruct (Storage.createOrder _ _) as [[db2 o]|e] eqn:Eo; cbn [fst];
      [|exact H2].
    apply createOrder_Returned in Eo as (_ & -> & _). exact H2.
  - (* Fulfill *)
    unfold Routes.put_fulfill.
    destruct (Routes.b_csvUrl body) as [| |[|ch url]]; [auto|auto|auto|].
    unfold Storage.fulfillOrder. cbn zeta.
    destruct (List.find _ _); exact Hrefl.
  - (* MarkPaid *)
    unfold Routes.post_mark_paid.
    destruct (negb _); [auto|].
    destruct commissionIds as [ids|], paymentMonth as [m|]; auto.
    destruct (truthy (Some m)); exact Hrefl.
Qed.

Lemma Forall2_same_identity_In_r us us' u' :
  Forall2 same_identity us us' -> In u' us' ->
  exists u, In u us /\ same_identity u u'.
Proof.
  induction 1 as [|a a' us us' Ha _ IH]; cbn; [contradiction|].
  intros [<-|Hin]; [eauto|].
  destruct (IH Hin) as (u & Hu & Hs). eauto.
Qed.

(** A request other than a successful registration leaves the database's
    users as [handle_keeps_users] says; a registration that is not answered
    with the new user leaves the database as it was. *)
Lemma post_register_unchanged db body code now random :
  (exists user, snd (Auth.post_register db body code now random) = json user) \/
  fst (Auth.post_register db body code now random) = db.
Proof.
  unfold Auth.post_register.
  destruct (negb _ || negb _ || negb _); [auto|].
  destruct (Storage.getUserByEmail _ _); [auto|].
  destruct (Storage.createUser _ _) as [[db1 u]|e]; cbn; eauto.
Qed.

Lemma new_user_id_not_empty now random : Auth.new_user_id now random <> "".
Proof. unfold Auth.new_user_id. cbv [String.append]. discriminate. Qed.

(** In a reachable database no user id is the empty string, and a user's
    referrer is a user of the database. *)
Lemma reachable_users db :
  reachable db ->
  forall u, In u (users db) ->
    User.id u <> "" /\
    forall r, User.referredBy u = Some r ->
      exists a, In a (users db) /\ User.id a = r.
Proof.
  induction 1 as [|db r _ IH]; [intros u []|].
  assert (Forall2 same_identity (users db) (users (handle db r)) ->
          forall u, In u (users (handle db r)) ->
            User.id u <> "" /\
            forall r0, User.referredBy u = Some r0 ->
              exists a, In a (users (handle db r)) /\ User.id a = r0) as Hkeep.
  { intros H2 u' Hin'.
    destruct (Forall2_same_identity_In_r _ _ _ H2 Hin') as (u & Hin & Hid & Hr & _).
    destruct (IH u Hin) as [Hne Href]. rewrite Hid, Hr. split; [exact Hne|].
    intros r0 Hr0. destruct (Href r0 Hr0) as (a & Ha & Haid).
    destruct (Forall2_same_identity_In _ _ _ H2 Ha) as (a' & Ha' & Hid' & _).
    exists a'. split; [exact Ha' | congruence]. }
  pose proof (handle_keeps_users db r) as Hk.
  destruct r; try (apply Hkeep; exact Hk). clear Hk. cbn [handle] in *.
  destruct (post_register_unchanged db body session_affiliateCode now random)
    as [[user Hjson]|Hsame].
  - destruct (Auth.post_register db body session_affiliateCode now random)
      as [db' resp] eqn:E. cbn [fst snd] in *. subst resp.
    apply post_register_json in E
      as (e & _ & _ & _ & _ & Hid & _ & Hr & _ & ->).
    cbn [users Storage.with_users]. intros u Hin.
    apply in_app_or in Hin as [Hin|[<-|[]]].
    + destruct (IH u Hin) as [Hne Href]. split; [exact Hne|].
      intros r0 Hr0. destruct (Href r0 Hr0) as (a & Ha & Haid).
      exists a. split; [apply in_or_app; left; exact Ha | exact Haid].
    + split; [rewrite Hid; apply new_user_id_not_empty|].
      intros r0 Hr0. rewrite Hr in Hr0.
      apply resolve_referral_user in Hr0 as (a & Ha & ->).
      exists a. split; [apply in_or_app; left; exact Ha | reflexivity].
  - rewrite Hsame. exact IH.
Qed.

(** X10. Referrers stay resolvable.  The [referred_by] column has no
    foreign key, but in every reachable database the referrer of a user is
    the id of a user of that database, and of another user than the
    referred one. *)
Theorem reachable_referrer_exists db u r :
  reachable db ->
  In u (users db) ->
  User.referredBy u = Some r ->
  exists a, In a (users db) /\ Storage.getUser db r = Some a /\
            User.id a = r /\ User.id a <> User.id u.
Proof.
  intros Hreach Hin Hr.
  destruct (reachable_users db Hreach u Hin) as [_ Href].
  destruct (Href r Hr) as (a & Ha & Hid).
  apply reachable_invariant in Hreach as [[Hnd Hus] _ _].
  exists a. split; [exact Ha|]. split; [|split; [exact Hid|]].
  - rewrite <- Hid. apply getUser_unique; assumption.
  - rewrite Forall_forall in Hus.
    destruct (Hus u) as [Hself _]; [apply list_elem_of_In, Hin|].
    congruence.
Qed.

Lemma reachable_referrer_exists_witness :
  reachable after_payment /\
  In carol_paid (users after_payment) /\
  User.referredBy carol_paid = Some "user_1750000000000_b0b" /\
  exists a, In a (users after_payment) /\
            Storage.getUser after_payment "user_1750000000000_b0b" = Some a /\
            User.id a = "user_1750000000000_b0b" /\
            User.id a <> User.id carol_paid.
Proof.
  assert (reachable after_payment) as Hreach
      by apply reachable_run, reachable_empty.
  assert (In carol_paid (users after_payment)) as Hin
      by (right; left; reflexivity).
  split; [exact Hreach|]. split; [exact Hin|]. split; [reflexivity|].
  apply (reachable_referrer_exists after_payment carol_paid
           "user_1750000000000_b0b" Hreach Hin eq_refl).
Defined.

(** ** The admin's list of pending commissions *)

Lemma leftJoin_users_In db c c' a :
  In (c', Some a) (Storage.leftJoin_users db c) <->
  c' = c /\ In a (users db) /\
  String.eqb (AffiliateCommission.affiliateUserId c) (User.id a) = true.
Proof.
  unfold Storage.leftJoin_users.
  destruct (List.filter _ (users db)) as [|u us] eqn:E.
  - split.
    + intros [[=]|[]].
    + intros (_ & Hin & Hid).
      assert (In a (List.filter
                      (fun u => String.eqb
                                  (AffiliateCommission.affiliateUserId c)
                                  (User.id u)) (users db))) as H
          by (apply filter_In; auto).
      rewrite E in H. destruct H.
  - rewrite <- E, in_map_iff. split.
    + intros (x & [= <- <-] & Hx). apply filter_In in Hx. tauto.
    + intros (-> & Hin & Hid). exists a. split; [reflexivity|].
      apply filter_In. auto.
Qed.

(** The rows of [getAllPendingCommissions], said directly. *)
Lemma getAllPendingCommissions_In db row :
  In row (Storage.getAllPendingCommissions db) <->
  In (Storage.pc_commission row) (affiliateCommissions db) /\
  AffiliateCommission.status (Storage.pc_commission row) = Some "pending" /\
  In (Storage.pc_affiliate row) (users db) /\
  User.id (Storage.pc_affiliate row)
  = AffiliateCommission.affiliateUserId (Storage.pc_commission row) /\
  AffiliateCommission.referredUserId (Storage.pc_commission row) <> "" /\
  Storage.getUser db
    (AffiliateCommission.referredUserId (Storage.pc_commission row))
  = Some (Storage.pc_referred row).
Proof.
  unfold Storage.getAllPendingCommissions. rewrite in_flat_map. split.
  - intros ([c oa] & Hitem & Hrow). cbn [fst snd] in Hrow.
    apply orderBy_desc_In, filter_In in Hitem as [Hjoin Hst].
    cbn [fst] in Hst. apply in_flat_map in Hjoin as (c0 & Hc0 & Hjoin).
    destruct (AffiliateCommission.referredUserId c) as [|ch rid] eqn:Erid;
      [destruct Hrow|]. cbn [truthy] in Hrow.
    destruct (Storage.getUser db (String ch rid)) as [u|] eqn:Eu;
      [|destruct Hrow].
    destruct oa as [a|]; [|destruct Hrow].
    destruct Hrow as [<-|[]]. cbn.
    apply leftJoin_users_In in Hjoin as (-> & Ha & Hid).
    apply String.eqb_eq in Hid.
    destruct (AffiliateCommission.status c0) as [st|] eqn:Est; [|discriminate].
    cbn in Hst. apply String.eqb_eq in Hst. subst st.
    rewrite Erid. repeat split; auto; discriminate.
  - destruct row as [c a u]. cbn.
    intros (Hc & Hst & Ha & Hid & Hne & Hu).
    exists (c, Some a). split.
    + apply orderBy_desc_In, filter_In. split.
      * apply in_flat_map. exists c. split; [exact Hc|].
        apply leftJoin_users_In. rewrite Hid, String.eqb_refl. auto.
      * cbn. rewrite Hst. reflexivity.
    + cbn [fst snd].
      destruct (AffiliateCommission.referredUserId c) as [|ch rid];
        [congruence|].
      cbn [truthy]. rewrite Hu. left. reflexivity.
Qed.

(** X11. What the admin is shown is complete and correct.  In a reachable
    database the commissions of [getAllPendingCommissions] are exactly the
    rows of the commissions table with status 'pending'; each comes with the
    affiliate it names and the user it was earned on, and that user was
    referred by that affiliate. *)
Theorem reachable_pending_commissions_listed db :
  reachable db ->
  (forall c,
     In c (List.map Storage.pc_commission (Storage.getAllPendingCommissions db))
     <-> In c (affiliateCommissions db) /\
         AffiliateCommission.status c = Some "pending") /\
  (forall row,
     In row (Storage.getAllPendingCommissions db) ->
     User.id (Storage.pc_affiliate row)
     = AffiliateCommission.affiliateUserId (Storage.pc_commission row) /\
     User.id (Storage.pc_referred row)
     = AffiliateCommission.referredUserId (Storage.pc_commission row) /\
     User.referredBy (Storage.pc_referred row)
     = Some (User.id (Storage.pc_affiliate row))).
Proof.
  intros Hreach.
  pose proof (reachable_invariant db Hreach) as [[Hnd _] Href _].
  rewrite Forall_forall in Href.
  assert (forall c, In c (affiliateCommissions db) ->
            exists u, In u (users db) /\
                      Storage.getUser db (AffiliateCommission.referredUserId c)
                      = Some u /\
                      User.id u = AffiliateCommission.referredUserId c /\
                      User.referredBy u
                      = Some (AffiliateCommission.affiliateUserId c)) as Hu.
  { intros c Hc. destruct (Href c) as (u & Hin & Hid & Hr);
      [apply list_elem_of_In, Hc|].
    exists u. split; [exact Hin|]. split; [|auto].
    rewrite <- Hid. apply getUser_unique; assumption. }
  split.
  - intros c. rewrite in_map_iff. split.
    + intros (row & <- & Hrow). apply getAllPendingCommissions_In in Hrow. tauto.
    + intros [Hc Hst]. destruct (Hu c Hc) as (u & Hin & Hget & Hid & Hr).
      destruct (reachable_users db Hreach u Hin) as [Hne Hex].
      destruct (Hex _ Hr) as (a & Ha & Haid).
      exists (Storage.mkPendingCommissionRow c a u). split; [reflexivity|].
      apply getAllPendingCommissions_In. cbn. rewrite <- Hid in Hget |- *.
      auto 10.
  - intros row Hrow.
    apply getAllPendingCommissions_In in Hrow as (Hc & _ & _ & Hid & _ & Hget).
    destruct (Hu _ Hc) as (u & _ & Hget' & Huid & Hr).
    rewrite Hget in Hget'. injection Hget' as ->.
    rewrite Hid. auto.
Qed.

Lemma reachable_pending_commissions_listed_witness :
  reachable after_payment /\
  (In commission_1
     (List.map Storage.pc_commission
        (Storage.getAllPendingCommissions after_payment))
   <-> In commission_1 (affiliateCommissions after_payment) /\
       AffiliateCommission.status commission_1 = Some "pending").
Proof.
  assert (reachable after_payment) as Hreach
      by apply reachable_run, reachable_empty.
  split; [exact Hreach|].
  destruct (reachable_pending_commissions_listed after_payment Hreach)
    as [Hlist _].
  exact (Hlist commission_1).
Defined.

(** The list Bob's pending commission appears in, computed. *)
Example after_payment_pending :
  List.map (fun row => (AffiliateCommission.id (Storage.pc_commission row),
                        User.email (Storage.pc_affiliate row),
                        User.email (Storage.pc_referred row)))
    (Storage.getAllPendingCommissions after_payment)
  = [("commission_1", "bob@example.com", "carol@example.com")].
Proof. vm_compute. reflexivity. Qed.

(** X12. Paying everything that is listed empties the list: when the
    authenticated admin sends the mark-paid request with the ids of all the
    rows [GET /api/team/affiliate/pending-commissions] returned, at least
    one, and a payment month, the next call of that endpoint returns no
    row. *)
Theorem mark_listed_paid_empties_list db rows m now db' resp :
  m <> "" ->
  rows <> [] ->
  Routes.get_pending_commissions db true = json rows ->
  Routes.post_mark_paid db true
    (Some (List.map (fun row => AffiliateCommission.id
                                  (Storage.pc_commission row)) rows))
    (Some m) now = (db', resp) ->
  resp = json tt /\
  Routes.get_pending_commissions db' true = json [].
Proof.
  intros Hm _ [= <-]. unfold Routes.post_mark_paid. cbn [negb].
  destruct m as [|ch m]; [congruence|]. cbn [truthy].
  intros [= <- <-]. split; [reflexivity|].
  unfold Routes.get_pending_commissions. cbn [negb]. f_equal.
  set (ids := List.map _ _).
  destruct (Storage.getAllPendingCommissions
              (Storage.markCommissionsPaid db ids (String ch m) now))
    as [|row rest] eqn:E; [reflexivity|]. exfalso.
  assert (In row (Storage.getAllPendingCommissions
                    (Storage.markCommissionsPaid db ids (String ch m) now)))
    as Hrow by (rewrite E; left; reflexivity).
  apply getAllPendingCommissions_In in Hrow
    as (Hc & Hst & Ha & Hid & Hne & Hu).
  cbn [affiliateCommissions users Storage.markCommissionsPaid] in Hc, Ha.
  unfold Storage.getUser in Hu.
  cbn [users Storage.markCommissionsPaid] in Hu.
  apply in_map_iff in Hc as (c & Hmark & Hc).
  destruct (Storage.inArray (AffiliateCommission.id c) ids) eqn:Ein.
  - rewrite <- Hmark in Hst. discriminate.
  - rewrite <- Hmark in *.
    assert (In (Storage.mkPendingCommissionRow c
                  (Storage.pc_affiliate row) (Storage.pc_referred row))
              (Storage.getAllPendingCommissions db)) as Hlisted.
    { apply getAllPendingCommissions_In. cbn.
      repeat split; assumption. }
    apply not_true_iff_false in Ein. apply Ein.
    unfold Storage.inArray. apply existsb_exists.
    exists (AffiliateCommission.id c). split; [|apply String.eqb_refl].
    subst ids. apply in_map_iff. eexists. split; [|exact Hlisted]. reflexivity.
Qed.

Lemma mark_listed_paid_empties_list_witness :
  "2025-07" <> "" /\
  Storage.getAllPendingCommissions after_payment <> [] /\
  Routes.get_pending_commissions after_payment true
  = json (Storage.getAllPendingCommissions after_payment) /\
  Routes.get_pending_commissions
    (fst (Routes.post_mark_paid after_payment true
            (Some (List.map (fun row => AffiliateCommission.id
                                          (Storage.pc_commission row))
                     (Storage.getAllPendingCommissions after_payment)))
            (Some "2025-07") july_2025)) true
  = json [].
Proof.
  assert (Storage.getAllPendingCommissions after_payment <> []) as Hrows
      by (vm_compute; discriminate).
  split; [discriminate|]. split; [exact Hrows|]. split; [reflexivity|].
  destruct (mark_listed_paid_empties_list after_payment
              (Storage.getAllPendingCommissions after_payment) "2025-07"
              july_2025
              (fst (Routes.post_mark_paid after_payment true
                      (Some (List.map
                               (fun row => AffiliateCommission.id
                                             (Storage.pc_commission row))
                               (Storage.getAllPendingCommissions
                                  after_payment)))
                      (Some "2025-07") july_2025))
              (json tt)) as [_ Hempty];
    [discriminate | exact Hrows | reflexivity | reflexivity | exact Hempty].
Defined.

(** ** Credits through the Stripe metadata *)

Lemma digits_prefix_acc d p :
  digits_prefix 10 (NilEmpty.string_of_uint d) (Some (Z.pos p))
  = Some (Z.pos (Pos.of_uint_acc d p)).
Proof.
  revert p. induction d as [|d IH|d IH|d IH|d IH|d IH|d IH|d IH|d IH|d IH|d IH];
    intros p; [reflexivity|..];
    cbn [NilEmpty.string_of_uint digits_prefix Pos.of_uint_acc];
    match goal with
    | |- context [digit_value ?c] =>
        let v := eval vm_compute in (digit_value c) in
        change (digit_value c) with v
    end; cbv beta iota;
    match goal with
    | |- context [?d <? 10] =>
        let v := eval vm_compute in (d <? 10) in change (d <? 10) with v
    end; cbv beta iota;
    rewrite <- IH; do 2 f_equal; lia.
Qed.

Lemma digits_prefix_zero d :
  digits_prefix 10 (NilEmpty.string_of_uint d) (Some 0)
  = Some (Z.of_uint d).
Proof.
  unfold Z.of_uint.
  induction d as [|d IH|d IH|d IH|d IH|d IH|d IH|d IH|d IH|d IH|d IH];
    [reflexivity|exact IH|..];
    cbn [NilEmpty.string_of_uint digits_prefix Pos.of_uint];
    match goal with
    | |- context [digit_value ?c] =>
        let v := eval vm_compute in (digit_value c) in
        change (digit_value c) with v
    end; cbv beta iota;
    match goal with
    | |- context [?d <? 10] =>
        let v := eval vm_compute in (d <? 10) in change (d <? 10) with v
    end; cbv beta iota;
    apply digits_prefix_acc.
Qed.

Lemma digits_prefix_first c s v :
  digit_value c = Some v -> (v <? 10) = true ->
  digits_prefix 10 (String c s) None = digits_prefix 10 (String c s) (Some 0).
Proof. intros Hv Hlt. cbn [digits_prefix]. rewrite Hv, Hlt. reflexivity. Qed.

(** [parseInt] reads a decimal numeral back, with or without a minus sign. *)
Lemma parseInt_string_of_uint d :
  parseInt (NilZero.string_of_uint d) = Some (Z.of_uint d) /\
  parseInt (String "-" (NilZero.string_of_uint d)) = Some (- Z.of_uint d).
Proof.
  assert (forall s, digits_prefix 10 s None = Some (Z.of_uint d) ->
                    match digits_prefix 10 s None with
                    | Some n => Some n
                    | None => None
                    end = Some (Z.of_uint d) /\
                    match digits_prefix 10 s None with
                    | Some n => Some (- n)
                    | None => None
                    end = Some (- Z.of_uint d)) as Hfin.
  { intros s ->. auto. }
  assert (forall c s v u,
            digit_value c = Some v -> (v <? 10) = true ->
            String c s = NilEmpty.string_of_uint u ->
            digits_prefix 10 (String c s) None = Some (Z.of_uint u)) as Hdigits.
  { intros c s v u Hv Hlt Hs.
    rewrite (digits_prefix_first c s v Hv Hlt), Hs. apply digits_prefix_zero. }
  destruct d as [|d|d|d|d|d|d|d|d|d|d]; [split; reflexivity|..].
  2-10: (unfold parseInt; cbn -[digits_prefix Z.of_uint];
         apply Hfin; eapply Hdigits; reflexivity).
  destruct d as [|d|d|d|d|d|d|d|d|d|d]; [split; reflexivity|..];
    (unfold parseInt; cbn -[digits_prefix Z.of_uint];
     apply Hfin; eapply Hdigits; reflexivity).
Qed.

Lemma parseInt_toString n : parseInt (Number_toString n) = Some n.
Proof.
  unfold Number_toString.
  rewrite <- (DecimalZ.of_to n) at 2.
  destruct (Z.to_int n) as [d|d]; cbn [NilZero.string_of_int Z.of_int];
    apply parseInt_string_of_uint.
Qed.

(** X13. Writing an integer with [toString] and reading it with [parseInt]
    gives the integer back.  The range is the one in which a JavaScript
    number is an exact integer and is printed digit by digit. *)
Theorem parseInt_Number_toString n :
  - 9007199254740991 <= n <= 9007199254740991 ->
  parseInt (Number_toString n) = Some n.
Proof.
  intros _. apply parseInt_toString.
Qed.

Lemma parseInt_Number_toString_witness :
  - 9007199254740991 <= 1000000 <= 9007199254740991 /\
  parseInt (Number_toString 1000000) = Some 1000000.
Proof.
  split; [lia|]. apply (parseInt_Number_toString 1000000). lia.
Defined.

Lemma Number_toString_not_empty n : Number_toString n <> "".
Proof.
  unfold Number_toString.
  destruct (Z.to_int n) as [d|d]; cbn [NilZero.string_of_int];
    [|discriminate].
  destruct d; discriminate.
Qed.

Lemma CREDIT_PACKAGES_int4 packageId packageInfo :
  Routes.lookup_package packageId Routes.CREDIT_PACKAGES = Some packageInfo ->
  0 < fst packageInfo <= 1000000.
Proof.
  unfold Routes.CREDIT_PACKAGES. cbn [Routes.lookup_package].
  repeat match goal with
         | |- context [String.eqb ?k packageId] =>
             destruct (String.eqb k packageId)
         end;
    intros [= <-]; cbn; lia.
Qed.

(** X14. From the checkout to the balance.  When the session Stripe reports
    completed carries the metadata [POST /api/create-checkout-session]
    attached for a package of the catalog, the webhook adds exactly that
    package's credits to the balance of the user who was at the checkout. *)
Theorem checkout_metadata_grants_package db session newId now userId packageId
  packageInfo u b :
  NoDup (List.map User.id (users db)) ->
  Routes.lookup_package packageId Routes.CREDIT_PACKAGES = Some packageInfo ->
  Routes.s_metadata session = Some (Routes.checkout_metadata userId packageInfo) ->
  userId <> "" ->
  Storage.getUser db userId = Some u ->
  User.credits u = Some b ->
  0 <= b <= 2147483647 - fst packageInfo ->
  exists u',
    Storage.getUser (Routes.checkout_session_completed db session newId now)
      userId = Some u' /\
    User.credits u' = Some (b + fst packageInfo).
Proof.
  intros Hnd Hpkg Hmd Hid Hu Hb Hrange.
  apply CREDIT_PACKAGES_int4 in Hpkg.
  eapply checkout_adds_credits; eauto.
  - apply Number_toString_not_empty.
  - apply parseInt_toString.
  - unfold int4_ok. apply andb_true_iff. rewrite !Z.leb_le. lia.
  - unfold int4_ok. apply andb_true_iff. rewrite !Z.leb_le. lia.
Qed.

Lemma checkout_metadata_grants_package_witness :
  NoDup (List.map User.id (users db_alice)) /\
  Routes.lookup_package "10000" Routes.CREDIT_PACKAGES
  = Some (10000, 19.00%float) /\
  Routes.s_metadata alice_session
  = Some (Routes.checkout_metadata "user_1_a" (10000, 19.00%float)) /\
  "user_1_a" <> "" /\
  Storage.getUser db_alice "user_1_a" = Some alice /\
  User.credits alice = Some 5000 /\
  0 <= 5000 <= 2147483647 - 10000 /\
  exists u',
    Storage.getUser
      (Routes.checkout_session_completed db_alice alice_session "commission_9"
         july_2025) "user_1_a" = Some u' /\
    User.credits u' = Some (5000 + 10000).
Proof.
  assert (NoDup (List.map User.id (users db_alice))) as Hnd.
  { cbn. apply NoDup_singleton. }
  split; [exact Hnd|]. split; [reflexivity|]. split; [reflexivity|].
  split; [discriminate|]. split; [reflexivity|]. split; [reflexivity|].
  split; [cbn; lia|].
  apply (checkout_metadata_grants_package db_alice alice_session "commission_9"
           july_2025 "user_1_a" "10000" (10000, 19.00%float) alice 5000 Hnd
           eq_refl eq_refl);
    [discriminate | reflexivity | reflexivity | cbn; lia].
Defined.

(** ** The admin panel's selection *)

Lemma total_filter_all (sel : list string)
  (l : list AffiliateAdmin.PendingCommission) :
  (forall c, In c l -> AffiliateAdmin.includes sel (AffiliateAdmin.id c) = true) ->
  List.filter (fun c => AffiliateAdmin.includes sel (AffiliateAdmin.id c)) l = l.
Proof.
  induction l as [|c l IH]; intros Hall; [reflexivity|]. cbn.
  rewrite (Hall c) by (left; reflexivity). f_equal.
  apply IH. intros c' Hc'. apply Hall. right. exact Hc'.
Qed.

(** X15. "Select all" selects what is shown, and the total the panel then
    displays is the sum over all the pending commissions it holds, added up
    in floating point in the order of the list. *)
Theorem select_all_total (l : list AffiliateAdmin.PendingCommission) :
  AffiliateAdmin.handleSelectAll (Some l) true = List.map AffiliateAdmin.id l /\
  AffiliateAdmin.getTotalSelectedCommissions (Some l)
    (AffiliateAdmin.handleSelectAll (Some l) true)
  = total AffiliateAdmin.commissionAmount l /\
  AffiliateAdmin.getTotalSelectedCommissions (Some l)
    (AffiliateAdmin.handleSelectAll (Some l) false)
  = 0%float.
Proof.
  split; [reflexivity|]. split.
  - unfold AffiliateAdmin.getTotalSelectedCommissions,
      AffiliateAdmin.handleSelectAll, total.
    rewrite total_filter_all; [reflexivity|].
    intros c Hc. unfold AffiliateAdmin.includes. apply existsb_exists.
    exists (AffiliateAdmin.id c). split; [|apply String.eqb_refl].
    apply in_map, Hc.
  - unfold AffiliateAdmin.getTotalSelectedCommissions,
      AffiliateAdmin.handleSelectAll, AffiliateAdmin.includes. cbn [existsb].
    induction l as [|c l IH]; [reflexivity | exact IH].
Qed.

(** X16. Ticking a commission that was not selected and unticking it again
    restores the selection; and unticking removes the id however often it
    had been added, while every other id stays selected. *)
Theorem handleCommissionSelect_untick (sel : list string) (id : string) :
  ~ In id sel ->
  AffiliateAdmin.handleCommissionSelect
    (AffiliateAdmin.handleCommissionSelect sel id true) id false = sel /\
  forall sel' id',
    In id' (AffiliateAdmin.handleCommissionSelect sel' id false)
    <-> In id' sel' /\ id' <> id.
Proof.
  intros Hnot. unfold AffiliateAdmin.handleCommissionSelect. split.
  - rewrite List.filter_app. cbn. rewrite String.eqb_refl. cbn.
    rewrite app_nil_r.
    induction sel as [|x sel IH]; [reflexivity|]. cbn.
    destruct (String.eqb_spec x id) as [->|Hne].
    + exfalso. apply Hnot. left. reflexivity.
    + cbn. f_equal. apply IH. intros Hin. apply Hnot. right. exact Hin.
  - intros sel' id'. rewrite filter_In, negb_true_iff.
    destruct (String.eqb_spec id' id); split; intros [H1 H2]; split;
      auto; congruence.
Qed.

Lemma handleCommissionSelect_untick_witness :
  ~ In "commission_2" ["commission_1"; "commission_3"] /\
  AffiliateAdmin.handleCommissionSelect
    (AffiliateAdmin.handleCommissionSelect ["commission_1"; "commission_3"]
       "commission_2" true) "commission_2" false
  = ["commission_1"; "commission_3"].
Proof.
  assert (~ In "commission_2" ["commission_1"; "commission_3"]) as Hnot.
  { intros [H|[H|[]]]; discriminate. }
  split; [exact Hnot|].
  destruct (handleCommissionSelect_untick ["commission_1"; "commission_3"]
              "commission_2" Hnot) as [Hsame _].
  exact Hsame.
Defined.

Lemma monthKey_truthy d : truthy (Some (monthKey d)) = true.
Proof.
  unfold monthKey.
  destruct (Number_toString (getFullYear d)); cbv [String.append]; reflexivity.
Qed.

(** X17. What the "mark paid" button sends is accepted.  With a selection
    that is not empty the panel sends the selected ids and the key of the
    current month, whatever bill the button belongs to; for the signed-in
    admin the server answers success, and the database is the one
    [markCommissionsPaid] leaves for those ids and that month. *)
Theorem handleMarkPaid_accepted db sel monthToPayFor currentDate ids m now :
  AffiliateAdmin.handleMarkPaid sel monthToPayFor currentDate = Some (ids, m) ->
  sel <> [] /\ ids = sel /\ m = monthKey currentDate /\
  Routes.post_mark_paid db true (Some ids) (Some m) now
  = (Storage.markCommissionsPaid db sel (monthKey currentDate) now, json tt).
Proof.
  unfold AffiliateAdmin.handleMarkPaid. destruct sel as [|id sel];
    [discriminate|].
  intros [= <- <-]. split; [discriminate|]. split; [reflexivity|].
  split; [reflexivity|].
  unfold Routes.post_mark_paid. cbn [negb]. rewrite monthKey_truthy.
  reflexivity.
Qed.

Lemma handleMarkPaid_accepted_witness :
  AffiliateAdmin.handleMarkPaid ["commission_1"] "2025-06" july_2025
  = Some (["commission_1"], "2025-07") /\
  Routes.post_mark_paid after_payment true (Some ["commission_1"])
    (Some "2025-07") july_2025
  = (Storage.markCommissionsPaid after_payment ["commission_1"]
       (monthKey july_2025) july_2025, json tt).
Proof.
  split; [reflexivity|].
  destruct (handleMarkPaid_accepted after_payment ["commission_1"] "2025-06"
              july_2025 ["commission_1"] "2025-07" july_2025 eq_refl)
    as (_ & _ & _ & H).
  exact H.
Defined.

(** ** The order form and the order endpoint *)




(** X19. The server by itself has no lower bound on [creditsUsed].  A
    request with a negative number passes the balance check, and the
    deduction of a negative number raises the balance: the order is stored
    and the user ends with more credits than before. *)
Theorem post_orders_negative_credits db orderData newId now u b :
  NoDup (List.map User.id (users db)) ->
  Storage.getUser db (Routes.userId orderData) = Some u ->
  User.credits u = Some b ->
  Routes.creditsUsed orderData < 0 ->
  0 <= b ->
  - 2147483648 <= Routes.creditsUsed orderData ->
  b - Routes.creditsUsed orderData <= 2147483647 ->
  Routes.estimatedLeads orderData = None ->
  ~ In newId (List.map Order.id (orders db)) ->
  snd (Routes.post_orders db orderData newId now)
  = json (Routes.order_row orderData newId now) /\
  exists u',
    Storage.getUser (fst (Routes.post_orders db orderData newId now))
      (Routes.userId orderData) = Some u' /\
    User.credits u' = Some (b - Routes.creditsUsed orderData) /\
    b < b - Routes.creditsUsed orderData.
Proof.
  intros Hnd Hu Hb Hneg Hb0 Hmin Hmax Hleads Hfresh.
  assert (forall n, - 2147483648 <= n <= 2147483647 -> int4_ok n = true)
    as Hint.
  { intros n Hn. unfold int4_ok. apply andb_true_iff. rewrite !Z.leb_le. lia. }
  assert (snd (Routes.post_orders db orderData newId now)
          = json (Routes.order_row orderData newId now)) as Hres.
  { apply (post_orders_succeeds db orderData newId now u b); auto.
    - lia.
    - apply Hint. lia.
    - apply Hint. lia.
    - rewrite Hleads. exact I. }
  split; [exact Hres|].
  unfold Routes.post_orders in *. rewrite Hu in *.
  destruct (_ <? _); [discriminate|].
  destruct (Storage.deductCredits _ _ _ _) as [[db1 r]|e] eqn:Ed;
    [|discriminate].
  destruct (Storage.createOrder _ _) as [[db2 o]|e] eqn:Ec; [|discriminate].
  cbn [fst]. unfold Storage.deductCredits in Ed. inv_stmt Ed.
  destruct (update_credits_getUser _ _ _ _ _ _ u b Ed Hu Hb)
    as (_ & u' & Hu' & Hb').
  apply createOrder_Returned in Ec as (_ & Husers & _).
  exists u'. unfold Storage.getUser in *. rewrite Husers.
  split; [exact Hu'|]. split; [rewrite Hb'; f_equal; lia | lia].
Qed.

Lemma post_orders_negative_credits_witness :
  NoDup (List.map User.id (users db_alice)) /\
  Routes.creditsUsed (order_for (-4000)) < 0 /\
  snd (Routes.post_orders db_alice (order_for (-4000)) "order_1" june_2025)
  = json (Routes.order_row (order_for (-4000)) "order_1" june_2025) /\
  exists u',
    Storage.getUser
      (fst (Routes.post_orders db_alice (order_for (-4000)) "order_1"
              june_2025)) "user_1_a" = Some u' /\
    User.credits u' = Some (5000 - -4000) /\
    5000 < 5000 - -4000.
Proof.
  assert (NoDup (List.map User.id (users db_alice))) as Hnd.
  { cbn. apply NoDup_singleton. }
  split; [exact Hnd|]. split; [cbn; lia|].
  assert (~ In "order_1" (List.map Order.id (orders db_alice))) as Hfresh
      by (intros []).
  apply (post_orders_negative_credits db_alice (order_for (-4000)) "order_1"
           june_2025 alice 5000 Hnd eq_refl eq_refl); cbn; auto; lia.
Defined.

(** ** Orders and commissions are only ever added to *)

Lemma handle_orders db r :
  exists new,
    List.map order_terms (orders (handle db r))
    = (List.map order_terms (orders db) ++ new)%list.
Proof.
  assert (exists new,
            List.map order_terms (orders db)
            = (List.map order_terms (orders db) ++ new)%list) as Hsame
      by (exists []; rewrite app_nil_r; reflexivity).
  destruct r; cbn [handle].
  - (* Register *)
    destruct (post_register_unchanged db body session_affiliateCode now random)
      as [[user Hjson]| ->]; [|exact Hsame].
    destruct (Auth.post_register _ _ _ _ _) as [db' resp] eqn:E.
    cbn [snd] in Hjson. subst resp.
    apply post_register_json in E as (e & _ & _ & _ & _ & _ & _ & _ & _ & ->).
    exact Hsame.
  - (* GenerateCode *)
    unfold Routes.post_generate_code.
    destruct (Storage.generateAffiliateCode _ _ _ _) as [[db1 [u|]]|e] eqn:E;
      cbn [fst]; auto;
      unfold Storage.generateAffiliateCode in E; inv_stmt E;
      injection E as <- _; exact Hsame.
  - (* RefClick *)
    unfold Routes.get_ref.
    destruct (Storage.trackAffiliateClick _ _ _ _ _ _ _) as [[db1 c]|e] eqn:E;
      cbn [fst]; [|auto].
    unfold Storage.trackAffiliateClick in E. inv_stmt E. injection E as <- _.
    exact Hsame.
  - (* CreateCheckoutSession *)
    unfold Routes.post_create_checkout_session.
    destruct (negb stripe); [auto|].
    destruct (Routes.lookup_package _ _) as [packageInfo|]; [|auto].
    destruct (Storage.getUser _ _); [|auto].
    destruct session_id as [session_id|]; [|auto].
    destruct (_ ≫= _) as [[db1 p]|e] eqn:E; cbn [fst]; [|auto].
    inv_stmt E. unfold Storage.createCreditPurchase in E. inv_stmt E.
    injection E as <- _. exact Hsame.
  - (* CreatePaymentIntent *)
    unfold Routes.post_create_payment_intent.
    destruct (negb stripe); [auto|].
    destruct (Routes.lookup_package _ _) as [packageInfo|]; [|auto].
    destruct paymentIntent_id as [paymentIntent_id|]; [|auto].
    destruct (_ ≫= _) as [[db1 p]|e] eqn:E; cbn [fst]; [|auto].
    inv_stmt E. unfold Storage.createCreditPurchase in E. inv_stmt E.
    injection E as <- _. exact Hsame.
  - (* PaymentIntentSucceeded *)
    unfold Routes.payment_intent_succeeded.
    destruct (Routes.pi_userId paymentIntent) as [userId|]; [|exact Hsame].
    destruct (Routes.pi_credits paymentIntent) as [credits|]; [|exact Hsame].
    destruct (_ ≫= _) as [[db2 u]|e] eqn:E; [|exact Hsame].
    inv_stmt E. apply addCredits_effect in E as (_ & _ & _ & -> & _).
    exact Hsame.
  - (* CheckoutCompleted *)
    unfold Routes.checkout_session_completed.
    destruct (Routes.s_metadata session) as [md|]; [|auto].
    destruct (negb _ || negb _); [auto|].
    destruct (Storage.getUser db _) as [existingUser|]; [|auto].
    destruct (Routes.insert_integer _) as [n|e]; cbn; [|auto].
    destruct (Storage.addCredits db _ n now) as [[db1 updatedUser]|e] eqn:Hadd;
      [|auto].
    apply addCredits_effect in Hadd as (_ & _ & _ & Ho & _). rewrite <- Ho.
    unfold Routes.record_purchase.
    set (db2 := match _ ≫= _ with Returned (d, _) => d | Thrown _ => db1 end).
    assert (orders db2 = orders db1) as H2.
    { subst db2. destruct (_ ≫= _) as [[d p]|e] eqn:E; [|auto].
      inv_stmt E. unfold Storage.createCreditPurchase in E. inv_stmt E.
      injection E as <- _. reflexivity. }
    clearbody db2.
    assert (exists new,
              List.map order_terms (orders db2)
              = (List.map order_terms (orders db1) ++ new)%list) as Hsame2
        by (exists []; rewrite app_nil_r, H2; reflexivity).
    destruct updatedUser as [u|]; [|exact Hsame2].
    destruct (truthy (User.referredBy u)); [|exact Hsame2].
    destruct (_ ≫= _) as [[db3 c]|e] eqn:E; [|exact Hsame2].
    inv_stmt E. unfold Storage.createAffiliateCommission in E. inv_stmt E.
    injection E as <- _. exact Hsame2.
  - (* AddCredits *)
    unfold Routes.post_add_credits. destruct credits as [n|]; [|auto].
    destruct (n <=? 0); [auto|].
    destruct (Storage.addCredits _ _ _ _) as [[db1 u]|e] eqn:E; cbn [fst];
      [|auto].
    apply addCredits_effect in E as (_ & _ & _ & -> & _). exact Hsame.
  - (* AssignCredits *)
    unfold Routes.post_assign_credits. destruct credits as [n|]; [|auto].
    destruct (negb _ || _); [auto|].
    destruct (Storage.getUserByEmail _ _) as [user|]; [|auto].
    destruct (Storage.addCredits _ _ _ _) as [[db1 u]|e] eqn:E; cbn [fst];
      [|auto].
    apply addCredits_effect in E as (_ & _ & _ & -> & _). exact Hsame.
  - (* UpdatePaypal *)
    unfold Routes.post_update_paypal. destruct (truthy paypalEmail); [|auto].
    unfold Storage.updatePaypalEmail. destruct (List.find _ _); exact Hsame.
  - (* PostOrder *)
    unfold Routes.post_orders.
    destruct (Storage.getUser _ _); [|auto].
    destruct (_ <? _); [auto|].
    destruct (Storage.deductCredits _ _ _ _) as [[db1 u]|e] eqn:E; [|auto].
    apply deductCredits_effect in E as (_ & _ & _ & Ho & _).
    destruct (Storage.createOrder _ _) as [[db2 o]|e] eqn:Eo; cbn [fst].
    + apply createOrder_Returned in Eo as (_ & _ & ->).
      rewrite Ho, List.map_app. eauto.
    + rewrite Ho. exact Hsame.
  - (* Fulfill *)
    unfold Routes.put_fulfill.
    destruct (Routes.b_csvUrl body) as [| |[|ch url]]; [auto|auto|auto|].
    unfold Storage.fulfillOrder. cbn zeta.
    assert (forall d os,
              List.map order_terms
                (List.map (fun o => if String.eqb (Order.id o) orderId
                                    then Storage.fulfill_row d o else o) os)
              = List.map order_terms os) as Hmap.
    { intros d os. rewrite List.map_map. apply List.map_ext. intros o.
      destruct (String.eqb (Order.id o) orderId); reflexivity. }
    destruct (List.find _ _); cbn [fst orders]; rewrite Hmap; exact Hsame.
  - (* MarkPaid *)
    unfold Routes.post_mark_paid.
    destruct (negb _); [auto|].
    destruct commissionIds as [ids|], paymentMonth as [m|]; auto.
    destruct (truthy (Some m)); exact Hsame.
Qed.

Lemma handle_commissions db r :
  exists new,
    List.map commission_terms (affiliateCommissions (handle db r))
    = (List.map commission_terms (affiliateCommissions db) ++ new)%list.
Proof.
  destruct (handle_step db r) as [_ Hc].
  apply commissions_change_step in Hc.
  destruct Hc as [->|[(c & -> & _)|(ids & m & t & ->)]].
  - exists []. rewrite app_nil_r. reflexivity.
  - rewrite List.map_app. eauto.
  - exists []. rewrite app_nil_r, List.map_map. apply List.map_ext.
    intros c. destruct (Storage.inArray _ _); reflexivity.
Qed.

(** X20. The history is append-only.  Whatever requests the application
    handles, starting from any database, no order and no commission is ever
    removed or reordered, and the columns that say whose a row is, what it
    is about, what it cost or earned and when it was created never change:
    of an order its id, user, Apollo URL, credits used, estimated leads,
    delivery e-mail and creation time; of a commission its id, affiliate,
    referred user, purchase, sale amount, commission amount and creation
    time. *)
Theorem history_append_only db requests :
  (exists new,
     List.map order_terms (orders (run requests db))
     = (List.map order_terms (orders db) ++ new)%list) /\
  (exists new,
     List.map commission_terms (affiliateCommissions (run requests db))
     = (List.map commission_terms (affiliateCommissions db) ++ new)%list).
Proof.
  revert db. induction requests as [|r requests IH]; intros db.
  - split; exists []; rewrite app_nil_r; reflexivity.
  - cbn [run List.fold_left].
    destruct (IH (handle db r)) as [[new1 H1] [new2 H2]].
    destruct (handle_orders db r) as [new1' H1'].
    destruct (handle_commissions db r) as [new2' H2'].
    unfold run in *. rewrite H1, H2, H1', H2', <- !app_assoc. eauto.
Qed.

(** ** The affiliate's statistics *)

Lemma count_rows_app {A : Type} (p : A -> bool) (l l' : list A) :
  count_rows p (l ++ l') = count_rows p l + count_rows p l'.
Proof.
  unfold count_rows. rewrite List.filter_app, List.length_app. lia.
Qed.

Lemma sum_rows_map {A : Type} (p : A -> bool) (col : A -> Z) (f : A -> A)
  (l : list A) :
  (forall a, p (f a) = p a) -> (forall a, p a = true -> col (f a) = col a) ->
  sum_rows p col (List.map f l) = sum_rows p col l.
Proof.
  intros Hp Hcol. unfold sum_rows.
  induction l as [|a l IH]; [reflexivity|]. cbn. rewrite Hp.
  destruct (p a) eqn:E; [|exact IH]. cbn. rewrite IH, Hcol by exact E.
  reflexivity.
Qed.

Lemma sum_rows_zero {A : Type} (p : A -> bool) (col : A -> Z) (l : list A) :
  (forall a, In a l -> p a = true -> col a = 0) -> sum_rows p col l = 0.
Proof.
  intros H. unfold sum_rows.
  induction l as [|a l IH]; [reflexivity|]. cbn.
  destruct (p a) eqn:E.
  - cbn. rewrite IH by (intros b Hb; apply H; right; exact Hb).
    rewrite (H a) by (auto; left; reflexivity). reflexivity.
  - apply IH. intros b Hb. apply H. right. exact Hb.
Qed.

(** X21. A recorded click counts for the holder of the code.  When
    [GET /ref/:affiliateCode] has recorded the click, the statistics of the
    user who holds the code show one click more than before and are
    otherwise as they were. *)
Theorem click_counts_for_holder db c ip ua ref newId now db1 sess resp a :
  Routes.get_ref db c ip ua ref newId now = (db1, Some sess, resp) ->
  Storage.getUser db (User.id a) = Some a ->
  User.affiliateCode a = Some c ->
  c <> "" ->
  Storage.getUserAffiliateStats db1 (User.id a)
  = let s := Storage.getUserAffiliateStats db (User.id a) in
    Storage.mkAffiliateStats (Storage.st_totalClicks s + 1)
      (Storage.st_totalReferrals s) (Storage.st_totalSales s)
      (Storage.st_totalCommissions s) (Storage.st_pendingCommissions s)
      (Storage.st_monthlyCommissions s).
Proof.
  intros Href Ha Hcode Hc. unfold Routes.get_ref in Href.
  destruct (Storage.trackAffiliateClick _ _ _ _ _ _ _) as [[d click]|e] eqn:E;
    [|discriminate].
  injection Href as <- _ _.
  unfold Storage.trackAffiliateClick in E. inv_stmt E. injection E as <- _.
  unfold Storage.getUserAffiliateStats, Storage.getUser in *.
  cbn [users affiliateClicks affiliateCommissions]. rewrite Ha, Hcode.
  destruct c as [|ch c]; [congruence|]. cbn [truthy from_option id].
  cbn zeta. cbn [Storage.st_totalClicks Storage.st_totalReferrals
    Storage.st_totalSales Storage.st_totalCommissions
    Storage.st_pendingCommissions Storage.st_monthlyCommissions].
  f_equal. rewrite count_rows_app. f_equal.
  unfold count_rows. cbn [List.filter AffiliateClick.affiliateCode].
  rewrite String.eqb_refl. reflexivity.
Qed.

Lemma click_counts_for_holder_witness :
  Routes.get_ref db_affiliates "AB12CD" (Some "203.0.113.7")
    (Some "Mozilla/5.0") None "click_1" june_2025
  = (db_clicked, Some "AB12CD", redirect "/") /\
  Storage.getUser db_affiliates (User.id bob) = Some bob /\
  User.affiliateCode bob = Some "AB12CD" /\
  "AB12CD" <> "" /\
  Storage.st_totalClicks (Storage.getUserAffiliateStats db_clicked (User.id bob))
  = 1.
Proof.
  split; [reflexivity|]. split; [reflexivity|]. split; [reflexivity|].
  split; [discriminate|].
  rewrite (click_counts_for_holder db_affiliates "AB12CD" (Some "203.0.113.7")
             (Some "Mozilla/5.0") None "click_1" june_2025 db_clicked "AB12CD"
             (redirect "/") bob eq_refl eq_refl eq_refl);
    [reflexivity | discriminate].
Defined.

(** X22. A registration through an affiliate's link counts for the
    affiliate: the referrals in the statistics of the new user's referrer
    go up by one. *)
Theorem referral_counts_for_referrer db body code now random db' user r a :
  Auth.post_register db body code now random = (db', json user) ->
  User.referredBy user = Some r ->
  Storage.getUser db r = Some a ->
  truthy (User.affiliateCode a) = true ->
  Storage.st_totalReferrals (Storage.getUserAffiliateStats db' r)
  = Storage.st_totalReferrals (Storage.getUserAffiliateStats db r) + 1.
Proof.
  intros Hreg Hr Ha Hcode.
  apply post_register_json in Hreg as (e & _ & _ & _ & _ & _ & _ & _ & _ & ->).
  unfold Storage.getUserAffiliateStats, Storage.getUser in *.
  cbn [users Storage.with_users]. rewrite (find_app_Some _ _ _ _ Ha), Ha, Hcode.
  cbn [Storage.st_totalReferrals]. rewrite count_rows_app. f_equal.
  unfold count_rows. cbn [List.filter]. rewrite Hr. cbn [eq_opt].
  rewrite String.eqb_refl. reflexivity.
Qed.

Lemma referral_counts_for_referrer_witness :
  Auth.post_register db_clicked dave_body (Some "AB12CD") july_2025 "d4ve"
  = (db_dave, json dave_registered) /\
  User.referredBy dave_registered = Some "user_2_b" /\
  Storage.getUser db_clicked "user_2_b" = Some bob /\
  truthy (User.affiliateCode bob) = true /\
  Storage.st_totalReferrals (Storage.getUserAffiliateStats db_dave "user_2_b")
  = Storage.st_totalReferrals
      (Storage.getUserAffiliateStats db_clicked "user_2_b") + 1.
Proof.
  split; [reflexivity|]. split; [reflexivity|]. split; [reflexivity|].
  split; [reflexivity|].
  apply (referral_counts_for_referrer db_clicked dave_body (Some "AB12CD")
           july_2025 "d4ve" db_dave dave_registered "user_2_b" bob);
    reflexivity.
Defined.

(** X23. Paying commissions moves them out of "pending" and changes no
    total.  After [markCommissionsPaid] an affiliate's clicks, referrals,
    total sales and total commissions are what they were; and when the ids
    cover all of the affiliate's pending commissions, the pending amount
    is 0. *)
Theorem stats_after_mark_paid db ids m now userId :
  let s := Storage.getUserAffiliateStats db userId in
  let s' := Storage.getUserAffiliateStats
              (Storage.markCommissionsPaid db ids m now) userId in
  Storage.st_totalClicks s' = Storage.st_totalClicks s /\
  Storage.st_totalReferrals s' = Storage.st_totalReferrals s /\
  Storage.st_totalSales s' = Storage.st_totalSales s /\
  Storage.st_totalCommissions s' = Storage.st_totalCommissions s /\
  ((forall c, In c (affiliateCommissions db) ->
              AffiliateCommission.affiliateUserId c = userId ->
              AffiliateCommission.status c = Some "pending" ->
              In (AffiliateCommission.id c) ids) ->
   Storage.st_pendingCommissions s' = 0%float).
Proof.
  cbn zeta. unfold Storage.getUserAffiliateStats, Storage.getUser.
  cbn [users affiliateClicks affiliateCommissions Storage.markCommissionsPaid].
  destruct (List.find _ (users db)) as [user|]; [|repeat split; reflexivity].
  destruct (truthy (User.affiliateCode user)); [|repeat split; reflexivity].
  cbn [Storage.st_totalClicks Storage.st_totalReferrals Storage.st_totalSales
    Storage.st_totalCommissions Storage.st_pendingCommissions].
  assert (forall c,
            String.eqb
              (AffiliateCommission.affiliateUserId
                 (if Storage.inArray (AffiliateCommission.id c) ids
                  then Storage.mark_paid m now c else c)) userId
            = String.eqb (AffiliateCommission.affiliateUserId c) userId) as Hown.
  { intros c. destruct (Storage.inArray _ _); reflexivity. }
  split; [reflexivity|]. split; [reflexivity|]. split; [|split].
  - f_equal. apply sum_rows_map; [exact Hown|].
    intros c _. destruct (Storage.inArray _ _); reflexivity.
  - f_equal. apply sum_rows_map; [exact Hown|].
    intros c _. destruct (Storage.inArray _ _); reflexivity.
  - intros Hall. rewrite sum_rows_zero; [reflexivity|].
    intros c' Hc' Hown'. apply in_map_iff in Hc' as (c & <- & Hc).
    rewrite Hown in Hown'. apply String.eqb_eq in Hown'.
    destruct (Storage.inArray (AffiliateCommission.id c) ids) eqn:Ein;
      [reflexivity|].
    destruct (eq_opt (AffiliateCommission.status c) "pending") eqn:Est;
      [|reflexivity].
    exfalso. apply not_true_iff_false in Ein. apply Ein.
    unfold Storage.inArray. apply existsb_exists.
    exists (AffiliateCommission.id c). split; [|apply String.eqb_refl].
    apply Hall; [exact Hc | exact Hown'|].
    destruct (AffiliateCommission.status c) as [st|]; [|discriminate].
    cbn in Est. apply String.eqb_eq in Est. congruence.
Qed.

(** Bob's statistics while his commission on Carol's purchase is pending
    and once it has been paid. *)
Example stats_scenario :
  Storage.getUserAffiliateStats after_payment "user_1750000000000_b0b"
  = Storage.mkAffiliateStats 1 1 19 2.85 2.85
      [Storage.mkMonthlyCommission "2025-06" 2.85 "pending"] /\
  Storage.getUserAffiliateStats scenario_db "user_1750000000000_b0b"
  = Storage.mkAffiliateStats 1 1 19 2.85 0
      [Storage.mkMonthlyCommission "2025-07" 2.85 "paid"].
Proof. vm_compute. split; reflexivity. Qed.

(** ** Two ways to complete an order *)

(** X24. [updateOrderStatus] and [fulfillOrder] agree on a completion with
    a delivery URL: the status 'completed' with a URL and no error message
    gives the database and the order that a fulfilment with that URL and
    with neither delivery type nor notes gives.  With any other status and
    no URL, the call changes the status and nothing else. *)
Theorem updateOrderStatus_completed_as_fulfillOrder db id url now :
  url <> "" ->
  Storage.updateOrderStatus db id "completed" (Some url) None now
  = Storage.fulfillOrder db id
      (Storage.mkFulfillmentData Undefined url Undefined "completed" now) /\
  forall status o,
    status <> "completed" ->
    Storage.getOrderById db id = Some o ->
    snd (Storage.updateOrderStatus db id status None None now)
    = Some (Order.mk (Order.id o) (Order.userId o) (Order.apolloUrl o)
              (Order.creditsUsed o) (Order.estimatedLeads o)
              (Order.deliveryEmail o) (Some status) (Order.csvUrl o)
              (Order.deliveryType o) (Order.notes o) (Order.assignedTo o)
              (Order.errorMessage o) (Order.createdAt o)
              (Order.completedAt o)).
Proof.
  intros Hurl. split.
  - unfold Storage.updateOrderStatus, Storage.fulfillOrder.
    assert (List.map
              (fun o => if String.eqb (Order.id o) id
                        then Storage.update_status_row "completed" (Some url)
                               None now o
                        else o) (orders db)
            = List.map
                (fun o => if String.eqb (Order.id o) id
                          then Storage.fulfill_row
                                 (Storage.mkFulfillmentData Undefined url
                                    Undefined "completed" now) o
                          else o) (orders db)) as ->; [|reflexivity].
    apply List.map_ext. intros o.
    destruct (String.eqb (Order.id o) id); [|reflexivity].
    unfold Storage.update_status_row, Storage.fulfill_row.
    destruct url as [|ch url]; [congruence|]. reflexivity.
  - intros status o Hst Ho. unfold Storage.updateOrderStatus. cbn [snd].
    rewrite (find_update_same Order.id) by reflexivity.
    unfold Storage.getOrderById in Ho. rewrite Ho. cbn [option_map].
    unfold Storage.update_status_row. cbn [truthy].
    destruct (String.eqb_spec status "completed"); [congruence | reflexivity].
Qed.

Lemma updateOrderStatus_completed_as_fulfillOrder_witness :
  "https://files.example/b.csv" <> "" /\
  Storage.updateOrderStatus db_delivered "order_1" "completed"
    (Some "https://files.example/b.csv") None july_2025
  = Storage.fulfillOrder db_delivered "order_1"
      (Storage.mkFulfillmentData Undefined "https://files.example/b.csv"
         Undefined "completed" july_2025).
Proof.
  assert ("https://files.example/b.csv" <> "") as Hurl by discriminate.
  split; [exact Hurl|].
  destruct (updateOrderStatus_completed_as_fulfillOrder db_delivered "order_1"
              "https://files.example/b.csv" july_2025 Hurl) as [H _].
  exact H.
Defined.

(** ** The PayPal address the admin pays to *)

(** X25. The address an affiliate saves is the one the admin is shown.
    When [POST /api/affiliate/update-paypal] has answered with the address,
    every row of the pending commissions whose affiliate is that user
    carries it. *)
Theorem post_update_paypal_then_listed db userId paypalEmail now db' r :
  Routes.post_update_paypal db userId paypalEmail now = (db', json r) ->
  r = paypalEmail /\ truthy paypalEmail = true /\
  forall row,
    In row (Storage.getAllPendingCommissions db') ->
    User.id (Storage.pc_affiliate row) = userId ->
    User.paypalEmail (Storage.pc_affiliate row) = paypalEmail.
Proof.
  unfold Routes.post_update_paypal.
  destruct (truthy paypalEmail) eqn:Et; [|discriminate].
  apply truthy_Some in Et as (e & -> & _ & _). cbn [from_option id].
  unfold Storage.updatePaypalEmail.
  destruct (List.find _ _) as [u|] eqn:Ef; [|discriminate].
  intros [= <- <-].
  rewrite (find_update_same User.id) in Ef by reflexivity.
  destruct (List.find _ (users db)) as [u0|]; [|discriminate].
  injection Ef as <-. split; [reflexivity|]. split; [reflexivity|].
  intros row Hrow Hid.
  apply getAllPendingCommissions_In in Hrow as (_ & _ & Ha & _).
  cbn [users Storage.with_users] in Ha.
  apply in_map_iff in Ha as (a & Hupd & _).
  destruct (String.eqb_spec (User.id a) userId) as [E|E].
  - rewrite <- Hupd. reflexivity.
  - exfalso. apply E. rewrite <- Hid, <- Hupd. reflexivity.
Qed.

Lemma post_update_paypal_then_listed_witness :
  Routes.post_update_paypal after_payment "user_1750000000000_b0b"
    (Some "bob@paypal.example") july_2025
  = (fst (Routes.post_update_paypal after_payment "user_1750000000000_b0b"
            (Some "bob@paypal.example") july_2025),
     json (Some "bob@paypal.example")) /\
  List.map (fun row => User.paypalEmail (Storage.pc_affiliate row))
    (Storage.getAllPendingCommissions
       (fst (Routes.post_update_paypal after_payment "user_1750000000000_b0b"
               (Some "bob@paypal.example") july_2025)))
  = [Some "bob@paypal.example"] /\
  forall row,
    In row (Storage.getAllPendingCommissions
              (fst (Routes.post_update_paypal after_payment
                      "user_1750000000000_b0b" (Some "bob@paypal.example")
                      july_2025))) ->
    User.id (Storage.pc_affiliate row) = "user_1750000000000_b0b" ->
    User.paypalEmail (Storage.pc_affiliate row) = Some "bob@paypal.example".
Proof.
  split; [reflexivity|]. split; [vm_compute; reflexivity|].
  destruct (post_update_paypal_then_listed after_payment
              "user_1750000000000_b0b" (Some "bob@paypal.example") july_2025
              (fst (Routes.post_update_paypal after_payment
                      "user_1750000000000_b0b" (Some "bob@paypal.example")
                      july_2025))
              (Some "bob@paypal.example") eq_refl) as (_ & _ & H).
  exact H.
Defined.

(** ** The order of the order lists *)






